(** * cn_cdc_crawl: the extraction layer and the merge engine

    A shallow embedding of the parts of the repository that turn
    surveillance bulletins into records and fold them into the persisted
    tables:

    - [src/main_pipeline.py]            ([merge_to_main_data]),
    - [airflow/dags/cdc_data_update_dag.py] ([merge_csv_to_main]),
    - [src/extract_surveillance_data.py] ([extract_week_info_from_title],
      [parse_pathogen_data]),
    - [src/extract_data_from_md.py]      ([score_table], [pick_table1],
      [extract_latest_week_data]).

    Text is a Rocq [string], that is the UTF-8 bytes of the Python [str];
    substring tests and the patterns used here give the same answer on
    bytes as on code points, because UTF-8 is self-synchronising.  A pandas
    DataFrame is the list of its rows; a CSV file is the DataFrame read
    from it, and a file that does not exist is [None]. *)

From Stdlib Require Import List String Ascii ZArith QArith Bool Arith Lia.
From Stdlib Require Import Permutation Sorted.
From Stdlib Require OrderedTypeEx.
Import ListNotations.
Local Open Scope string_scope.
Local Open Scope list_scope.
Local Open Scope Z_scope.

(* ================================================================= *)
(** * Part I: definitions *)
(* ================================================================= *)

(* ----------------------------------------------------------------- *)
(** ** Decimal digits *)

Definition is_digit (c : ascii) : bool :=
  (48 <=? nat_of_ascii c)%nat && (nat_of_ascii c <=? 57)%nat.

Definition digit_val (c : ascii) : Z := Z.of_nat (nat_of_ascii c) - 48.

(** A byte of an ASCII character. *)
Definition is_ascii (c : ascii) : bool := (nat_of_ascii c <? 128)%nat.

(** [int(s)] for a run of decimal digits. *)
Definition int_of_digits (ds : list ascii) : Z :=
  fold_left (fun acc c => 10 * acc + digit_val c) ds 0.

Definition digit_char (d : Z) : ascii := ascii_of_nat (Z.to_nat (48 + d)).

Fixpoint digits_of_pos (fuel : nat) (n : Z) (acc : list ascii) : list ascii :=
  match fuel with
  | O => acc
  | S fuel' =>
      if n <? 10 then digit_char n :: acc
      else digits_of_pos fuel' (n / 10) (digit_char (n mod 10) :: acc)
  end.

(** [str(n)] for [0 <= n]; the fuel bounds the number of digits. *)
Definition str_of_Z (n : Z) : list ascii :=
  digits_of_pos (S (Z.to_nat (Z.log2 n))) n [].

(** [f"{n:02d}"] for [0 <= n]. *)
Definition pad2 (n : Z) : list ascii :=
  if n <? 10 then "0"%char :: str_of_Z n else str_of_Z n.

(* ----------------------------------------------------------------- *)
(** ** Text *)

Definition bytes (s : string) : list ascii := list_ascii_of_string s.
Definition text_of (s : list ascii) : string := string_of_list_ascii s.

(** [s.startswith(p)]. *)
Fixpoint starts_with (p s : list ascii) : bool :=
  match p, s with
  | [], _ => true
  | c :: p', d :: s' => Ascii.eqb c d && starts_with p' s'
  | _ :: _, [] => false
  end.

(** [p in s]. *)
Fixpoint contains_at (p s : list ascii) : bool :=
  starts_with p s
  || match s with
     | [] => false
     | _ :: s' => contains_at p s'
     end.

Definition str_contains (p s : string) : bool :=
  contains_at (bytes p) (bytes s).

Definition str_startswith (p s : string) : bool :=
  starts_with (bytes p) (bytes s).

(** [any(k in c for k in keys)]. *)
Definition any_key_in (keys : list string) (c : string) : bool :=
  existsb (fun k => str_contains k c) keys.

(** The width in bytes of the whitespace character at the head of [s], if
    there is one: the characters Python's [str.isspace] and [\s] accept
    (U+0009-000D, U+001C-0020, U+0085, U+00A0, U+1680, U+2000-200A, U+2028,
    U+2029, U+202F, U+205F, U+3000). *)
Definition space_width (s : list ascii) : option nat :=
  match map nat_of_ascii (firstn 3 s) with
  | 194%nat :: b :: _ =>
      if (b =? 133)%nat || (b =? 160)%nat then Some 2%nat else None
  | 225%nat :: 154%nat :: 128%nat :: _ => Some 3%nat
  | 226%nat :: 128%nat :: b :: _ =>
      if ((128 <=? b)%nat && (b <=? 138)%nat)
         || (b =? 168)%nat || (b =? 169)%nat || (b =? 175)%nat
      then Some 3%nat else None
  | 226%nat :: 129%nat :: 159%nat :: _ => Some 3%nat
  | 227%nat :: 128%nat :: 128%nat :: _ => Some 3%nat
  | a :: _ =>
      if ((9 <=? a)%nat && (a <=? 13)%nat)
         || ((28 <=? a)%nat && (a <=? 32)%nat)
      then Some 1%nat else None
  | [] => None
  end.

(** The offsets reached from the head of [s] by skipping 0, 1, 2, ...
    whitespace characters. *)
Fixpoint space_offsets (fuel : nat) (s : list ascii) : list nat :=
  match fuel with
  | O => [O]
  | S fuel' =>
      match space_width s with
      | Some w => O :: map (Nat.add w) (space_offsets fuel' (skipn w s))
      | None => [O]
      end
  end.

(** [s.lstrip()]. *)
Definition lstrip (s : list ascii) : list ascii :=
  skipn (last (space_offsets (List.length s) s) O) s.

Definition all_space (s : list ascii) : bool :=
  (last (space_offsets (List.length s) s) O =? List.length s)%nat.

(** [s.rstrip()]. *)
Fixpoint rstrip (s : list ascii) : list ascii :=
  match s with
  | [] => []
  | c :: s' => if all_space s then [] else c :: rstrip s'
  end.

(** [s.strip()]. *)
Definition strip (s : string) : string :=
  text_of (rstrip (lstrip (bytes s))).

(** [re.sub(r"\s+", "", s)]: every whitespace character is removed. *)
Fixpoint remove_spaces_from (skip : nat) (s : list ascii) : list ascii :=
  match s with
  | [] => []
  | c :: s' =>
      match skip with
      | S k => remove_spaces_from k s'
      | O =>
          match space_width s with
          | Some w => remove_spaces_from (w - 1) s'
          | None => c :: remove_spaces_from O s'
          end
      end
  end.

Definition remove_spaces (s : string) : string :=
  text_of (remove_spaces_from O (bytes s)).

(** [s.replace(old, new)] for a non-empty [old]: the occurrences are
    replaced from left to right, without overlap. *)
Fixpoint replace_from (old new : list ascii) (skip : nat) (s : list ascii)
  : list ascii :=
  match s with
  | [] => []
  | c :: s' =>
      match skip with
      | S k => replace_from old new k s'
      | O =>
          if starts_with old s
          then new ++ replace_from old new (List.length old - 1) s'
          else c :: replace_from old new O s'
      end
  end.

Definition replace (old new s : string) : string :=
  text_of (replace_from (bytes old) (bytes new) O (bytes s)).

(* ----------------------------------------------------------------- *)
(** ** The regular expressions of the extractors

    Every pattern of the extractors is a sequence of the atoms below.  A
    match is searched as Python's [re] does, by backtracking: each atom
    lists the ways it can match at the head of the text, the preferred one
    first (greedy repetitions try the longest run first), and the first
    way that lets the rest of the pattern match is taken.  [\d] is taken
    as the ASCII digits. *)

Inductive atom : Type :=
| Lit (s : string)                      (* the text [s] *)
| Digits (lo hi : nat)                  (* the group [(\d{lo,hi})] *)
| Spaces                                (* [\s*] *)
| OneOf (alts : list string) (space : bool)
                                        (* a class [[...]], with [\s] or not *)
| Opt (s : string).                     (* [s?] *)

Definition pattern := list atom.

(** A way to match: the groups captured, and the text left. *)
Definition way : Type := list (list ascii) * list ascii.

Fixpoint take_digits (n : nat) (s : list ascii) : list ascii :=
  match n, s with
  | S n', c :: s' => if is_digit c then c :: take_digits n' s' else []
  | _, _ => []
  end.

(** [hi; hi - 1; ...; lo]. *)
Fixpoint down_to (hi lo : nat) : list nat :=
  if (hi <? lo)%nat then []
  else match hi with
       | O => [O]
       | S hi' => hi :: down_to hi' lo
       end.

Definition lit_ways (l : string) (s : list ascii) : list way :=
  if starts_with (bytes l) s
  then [([], skipn (List.length (bytes l)) s)]
  else [].

Definition match_atom (a : atom) (s : list ascii) : list way :=
  match a with
  | Lit l => lit_ways l s
  | Digits lo hi =>
      map (fun k => ([firstn k s], skipn k s))
          (down_to (List.length (take_digits hi s)) lo)
  | Spaces =>
      map (fun k => ([], skipn k s))
          (rev (space_offsets (List.length s) s))
  | OneOf alts space =>
      match flat_map (fun l => lit_ways l s) alts with
      | w :: _ => [w]
      | [] =>
          match space, space_width s with
          | true, Some w => [([], skipn w s)]
          | _, _ => []
          end
      end
  | Opt l => lit_ways l s ++ [([], s)]
  end.

Fixpoint match_seq (p : pattern) (s : list ascii) : list way :=
  match p with
  | [] => [([], s)]
  | a :: p' =>
      flat_map
        (fun w1 : way =>
           map (fun w2 : way => (fst w1 ++ fst w2, snd w2))
               (match_seq p' (snd w1)))
        (match_atom a s)
  end.

(** [re.match(p, s)]: the groups of the match at the head of [s]. *)
Definition re_match (p : pattern) (s : list ascii) : option way :=
  hd_error (match_seq p s).

(** [re.search(p, s)]: the groups of the leftmost match. *)
Fixpoint re_search (p : pattern) (s : list ascii) : option way :=
  match re_match p s with
  | Some w => Some w
  | None =>
      match s with
      | [] => None
      | _ :: s' => re_search p s'
      end
  end.

(** [re.findall(p, s)]: the groups of the matches found from left to
    right, each search starting where the last match ended. *)
Fixpoint findall_from (p : pattern) (skip : nat) (s : list ascii)
  : list (list (list ascii)) :=
  match s with
  | [] => []
  | _ :: s' =>
      match skip with
      | S k => findall_from p k s'
      | O =>
          match re_match p s with
          | Some w =>
              fst w
              :: findall_from p (List.length s - List.length (snd w) - 1) s'
          | None => findall_from p O s'
          end
      end
  end.

Definition findall (p : pattern) (s : string) : list (list (list ascii)) :=
  findall_from p O (bytes s).

(* ----------------------------------------------------------------- *)
(** ** The proleptic Gregorian calendar of Python's [datetime] *)

Definition is_leap (y : Z) : bool :=
  (y mod 4 =? 0) && (negb (y mod 100 =? 0) || (y mod 400 =? 0)).

Definition days_before_year (y : Z) : Z :=
  let y1 := y - 1 in y1 * 365 + y1 / 4 - y1 / 100 + y1 / 400.

Definition month_lengths : list Z :=
  [31; 28; 31; 30; 31; 30; 31; 31; 30; 31; 30; 31].

Definition days_in_month (y m : Z) : Z :=
  if (m =? 2) && is_leap y then 29
  else nth (Z.to_nat (m - 1)) month_lengths 0.

Definition days_before_month (y m : Z) : Z :=
  fold_left Z.add (firstn (Z.to_nat (m - 1)) month_lengths) 0
  + (if (2 <? m) && is_leap y then 1 else 0).

(** [_ymd2ord]: 1 January of year 1 is day 1. *)
Definition ymd2ord (y m d : Z) : Z :=
  days_before_year y + days_before_month y m + d.

Definition valid_ymd (y m d : Z) : bool :=
  (1 <=? y) && (y <=? 9999) && (1 <=? m) && (m <=? 12)
  && (1 <=? d) && (d <=? days_in_month y m).

(** [_isoweek1monday]: ordinal of the Monday that starts ISO week 1. *)
Definition isoweek1monday (year : Z) : Z :=
  let firstday := ymd2ord year 1 1 in
  let firstweekday := (firstday + 6) mod 7 in
  let week1monday := firstday - firstweekday in
  if 3 <? firstweekday then week1monday + 7 else week1monday.

(** [date.fromisocalendar(year, week, day)], as an ordinal; [None] is the
    [ValueError] raised on a year, week or day out of range. *)
Definition fromisocalendar (year week day : Z) : option Z :=
  if negb ((1 <=? year) && (year <=? 9999)) then None
  else if negb ((0 <? week) && (week <? 53))
          && negb ((week =? 53)
                   && (let first_weekday := ymd2ord year 1 1 mod 7 in
                       (first_weekday =? 4)
                       || ((first_weekday =? 3) && is_leap year)))
       then None
  else if negb ((0 <? day) && (day <? 8)) then None
  else
    let ord := isoweek1monday year + ((week - 1) * 7 + (day - 1)) in
    (* week 53 of year 9999 runs past [date.max] *)
    if ord <=? ymd2ord 9999 12 31 then Some ord else None.

Fixpoint month_of_day (y : Z) (fuel : nat) (m : Z) (n : Z) : Z * Z :=
  match fuel with
  | O => (m, n + 1)
  | S fuel' =>
      if n <? days_in_month y m then (m, n + 1)
      else month_of_day y fuel' (m + 1) (n - days_in_month y m)
  end.

(** [_ord2ymd]: the inverse of [ymd2ord]. *)
Definition ord2ymd (ord : Z) : Z * Z * Z :=
  let n := ord - 1 in
  let n400 := n / 146097 in
  let n := n mod 146097 in
  let n100 := n / 36524 in
  let n := n mod 36524 in
  let n4 := n / 1461 in
  let n := n mod 1461 in
  let n1 := n / 365 in
  let n := n mod 365 in
  let year := n400 * 400 + 1 + n100 * 100 + n4 * 4 + n1 in
  if (n1 =? 4) || (n100 =? 4) then (year - 1, 12, 31)
  else
    let '(m, d) := month_of_day year 11 1 n in
    (year, m, d).

(** [f"{y}-{m:02d}-{d:02d}"]. *)
Definition format_ymd (y m d : Z) : string :=
  string_of_list_ascii
    (str_of_Z y ++ "-"%char :: pad2 m ++ "-"%char :: pad2 d).

(** [d.strftime("%Y-%m-%d")] of the date with ordinal [ord] (the year is
    printed as glibc does, without padding; every year that matters here
    has four digits). *)
Definition strftime_ymd (ord : Z) : string :=
  let '(y, m, d) := ord2ymd ord in format_ymd y m d.

(** [pd.to_datetime(s, errors='coerce')] on one cell, as the ordinal of the
    day.  The cells of [reference_date] are written by the extractor as
    [YYYY-MM-DD]; a missing cell, a cell that is not such a date and a
    date outside the range of a pandas [Timestamp] (1677-09-22 to
    2262-04-11) are coerced to [NaT], here [None]. *)
Definition to_datetime (cell : option string) : option Z :=
  match cell with
  | None => None
  | Some s =>
      match list_ascii_of_string s with
      | [y1; y2; y3; y4; s1; m1; m2; s2; d1; d2] =>
          if forallb is_digit [y1; y2; y3; y4; m1; m2; d1; d2]
             && Ascii.eqb s1 "-" && Ascii.eqb s2 "-"
          then
            let y := int_of_digits [y1; y2; y3; y4] in
            let m := int_of_digits [m1; m2] in
            let d := int_of_digits [d1; d2] in
            if valid_ymd y m d
               && (ymd2ord 1677 9 22 <=? ymd2ord y m d)
               && (ymd2ord y m d <=? ymd2ord 2262 4 11)
            then Some (ymd2ord y m d) else None
          else None
      | _ => None
      end
  end.

Arguments to_datetime : simpl never.

(* ----------------------------------------------------------------- *)
(** ** The period of a report ([extract_surveillance_data.py]) *)

(** The five patterns of [extract_week_info_from_title].  The month and
    day signs of patterns 1 to 4 are the Kangxi radicals U+2F49 and U+2F47
    that the converted bulletins carry, not the ideographs U+6708 and
    U+65E5. *)
Definition open_paren : atom := OneOf ["（"; "("] false.
Definition close_paren : atom := OneOf ["）"; ")"] false.
Definition dash_or_space : atom := OneOf ["-"; "–"; "—"] true.

Definition pattern1 : pattern :=
  [Digits 4 4; Lit "年第"; Digits 1 2; Lit "周"; open_paren;
   Digits 1 2; Lit "⽉"; Digits 1 2; Lit "⽇";
   Spaces; dash_or_space; Spaces;
   Digits 1 2; Lit "⽉"; Digits 1 2; Lit "⽇"; close_paren].

Definition pattern2 : pattern :=
  [Digits 4 4; Lit "年第"; Digits 1 2; Lit "周"; open_paren;
   Digits 4 4; Lit "年"; Digits 1 2; Lit "⽉"; Digits 1 2; Lit "⽇";
   Spaces; dash_or_space; Spaces;
   Digits 4 4; Lit "年"; Digits 1 2; Lit "⽉"; Digits 1 2; Lit "⽇";
   close_paren].

Definition pattern3 : pattern :=
  [Digits 4 4; Lit "年第"; Digits 1 2; Lit "周"; open_paren;
   Digits 4 4; Lit "年"; Digits 1 2; Lit "⽉"; Digits 1 2; Lit "⽇";
   Spaces; dash_or_space; Spaces;
   Digits 1 2; Lit "⽉"; Digits 1 2; Lit "⽇"; close_paren].

Definition pattern4 : pattern :=
  [Digits 4 4; Lit "年"; Digits 1 2; Lit "⽉"; open_paren;
   Lit "第"; Digits 1 2; Lit "周"; Spaces; dash_or_space; Spaces;
   Digits 1 2; Lit "周"; OneOf ["，"; ","] false; Spaces;
   Digits 1 2; Lit "⽉"; Digits 1 2; Lit "⽇";
   Spaces; dash_or_space; Spaces;
   Digits 1 2; Lit "⽉"; Digits 1 2; Lit "⽇"; close_paren].

Definition pattern5 : pattern :=
  [Digits 4 4; Lit "年第"; Digits 1 2; Lit "周"].

(** [int(match.group(n + 1))]. *)
Definition group (n : nat) (w : way) : Z := int_of_digits (nth n (fst w) []).

(** [extract_week_info_from_title(text)]:
    [(reference_date, target_end_date, report_week)]; the week is the
    integer week number. *)
Definition extract_week_info_from_title (text : string)
  : option string * option string * option Z :=
  let s := bytes text in
  match re_search pattern1 s with
  | Some m =>
      let year := group 0 m in
      let week := group 1 m in
      (Some (format_ymd year (group 2 m) (group 3 m)),
       Some (format_ymd year (group 4 m) (group 5 m)),
       Some week)
  | None =>
  match re_search pattern2 s with
  | Some m =>
      let week := group 1 m in
      let start_year := group 2 m in
      let end_year := group 5 m in
      (Some (format_ymd start_year (group 3 m) (group 4 m)),
       Some (format_ymd end_year (group 6 m) (group 7 m)),
       Some week)
  | None =>
  match re_search pattern3 s with
  | Some m =>
      let week := group 1 m in
      let start_year := group 2 m in
      (Some (format_ymd start_year (group 3 m) (group 4 m)),
       Some (format_ymd start_year (group 5 m) (group 6 m)),
       Some week)
  | None =>
  match re_search pattern4 s with
  | Some m =>
      let year := group 0 m in
      let start_week := group 2 m in
      (Some (format_ymd year (group 4 m) (group 5 m)),
       Some (format_ymd year (group 6 m) (group 7 m)),
       Some start_week)
  | None =>
  match re_search pattern5 s with
  | Some m =>
      let year := group 0 m in
      let week := group 1 m in
      match fromisocalendar year week 1, fromisocalendar year week 7 with
      | Some monday, Some sunday =>
          (Some (strftime_ymd monday), Some (strftime_ymd sunday), Some week)
      | _, _ => (None, None, Some week)
      end
  | None => (None, None, None)
  end end end end end.

(* ----------------------------------------------------------------- *)
(** ** Tables *)

(** A cell of a pandas DataFrame by its [str]; [None] is NaN. *)
Definition cell := option string.

(** A DataFrame read from a document: the [str] of its column labels and
    its rows. *)
Record Table := mkTable {
  columns : list string;
  rows : list (list cell)
}.

Definition str_cell (x : cell) : string :=
  match x with
  | Some s => s
  | None => "nan"
  end.

Definition PATHOGEN_KEYS : list string := ["病原体"; "病原"; "病原学"; "Pathogen"].
Definition ILI_KEYS : list string := ["门急诊"; "流感样"; "ILI"; "门诊"].
Definition SARI_KEYS : list string := ["住院"; "严重急性"; "SARI"].

(** [" ".join(map(str, df.iloc[i].tolist()))]. *)
Definition row_text (r : list cell) : string :=
  String.concat " " (map str_cell r).

(** [score_table(df)] of [src/extract_data_from_md.py]. *)
Definition score_table (df : Table) : Z :=
  let cols := columns df in
  let score := 0 in
  let score :=
    if existsb (any_key_in PATHOGEN_KEYS) cols then score + 4 else score in
  let score :=
    if existsb (any_key_in ILI_KEYS) cols then score + 3 else score in
  let score :=
    if existsb (any_key_in SARI_KEYS) cols then score + 3 else score in
  let score :=
    match rows df with
    | r0 :: r1 :: _ =>
        let top0 := row_text r0 in
        let top1 := row_text r1 in
        let score :=
          if any_key_in PATHOGEN_KEYS top0 || any_key_in PATHOGEN_KEYS top1
          then score + 2 else score in
        let score :=
          if any_key_in ILI_KEYS top0 || any_key_in ILI_KEYS top1
          then score + 2 else score in
        if any_key_in SARI_KEYS top0 || any_key_in SARI_KEYS top1
        then score + 2 else score
    | _ => score
    end in
  score + Z.min (Z.of_nat (List.length (rows df))) 10.

(** [第?\s*\d{1,2}\s*周], also [WEEK_NUMS]. *)
Definition WEEK_NUMS : pattern :=
  [Opt "第"; Spaces; Digits 1 2; Spaces; Lit "周"].

Definition has_week_number (c : string) : bool :=
  match re_search WEEK_NUMS (bytes c) with
  | Some _ => true
  | None => false
  end.

(** A header cell: [""] for NaN, else the stripped [str]. *)
Definition header_cell (x : cell) : string :=
  match x with
  | Some s => strip s
  | None => ""
  end.

Definition first_has_pathogen (row : list string) : bool :=
  match row with
  | c :: _ => any_key_in PATHOGEN_KEYS c
  | [] => false
  end.

Definition is_empty (s : string) : bool := String.eqb s "".

(** The label made of a header cell [a] and the cell [b] below it. *)
Definition composite_label (a b : string) : string :=
  let a1 := remove_spaces a in
  let b1 := remove_spaces b in
  if is_empty a1 && (str_contains "病原" b1 || str_contains "Pathogen" b1)
  then "病原体"
  else if negb (is_empty b1) && negb (is_empty a1) && negb (String.eqb b1 a1)
  then a1 ++ "|" ++ b1
  else if negb (is_empty a1) then a1
  else b1.

(** [normalize_two_row_header_flexible(df)], the table it returns. *)
Definition normalize_two_row_header_flexible (df : Table) : Table :=
  match rows df with
  | r0 :: r1 :: data =>
      let row0 := map header_cell r0 in
      let row1 := map header_cell r1 in
      let has_week := existsb has_week_number (row0 ++ row1) in
      let row1_has_pathogen := first_has_pathogen row1 in
      if has_week && (row1_has_pathogen || first_has_pathogen row0)
      then mkTable (map (fun ab => composite_label (fst ab) (snd ab))
                        (combine row0 row1))
                   data
      else df
  | _ => df
  end.

(** The loop of [pick_table1] over the candidates, from
    [best_df = None; best_score = -1]. *)
Definition better (best : option Table * Z) (df : Table) : option Table * Z :=
  let sc := score_table df in
  if snd best <? sc then (Some df, sc) else best.

Definition select_best (candidates : list Table) : option Table :=
  fst (fold_left better candidates (None, -1)).

(** [pick_table1(md_text)], given the candidate tables that pandas and
    BeautifulSoup read from [md_text], in the order in which the function
    collects them. *)
Definition pick_table1 (candidates : list Table) : option Table :=
  match candidates with
  | [] => None
  | _ => option_map normalize_two_row_header_flexible (select_best candidates)
  end.

(* ----------------------------------------------------------------- *)
(** ** Numbers in cells *)

(** [float(s)] for a text of ASCII digits and dots: the decimal number it
    denotes, [None] where [float] raises [ValueError]. *)
Definition is_dot (c : ascii) : bool := Ascii.eqb c ".".

Fixpoint before_dot (s : list ascii) : list ascii :=
  match s with
  | [] => []
  | c :: s' => if is_dot c then [] else c :: before_dot s'
  end.

Fixpoint after_dot (s : list ascii) : option (list ascii) :=
  match s with
  | [] => None
  | c :: s' => if is_dot c then Some s' else after_dot s'
  end.

Definition float_of_decimal (s : list ascii) : option Q :=
  let ip := before_dot s in
  let fp := match after_dot s with Some f => f | None => [] end in
  if forallb is_digit ip && forallb is_digit fp
     && (0 <? List.length (ip ++ fp))%nat
  then Some (Qmake (int_of_digits (ip ++ fp))
                   (Z.to_pos (10 ^ Z.of_nat (List.length fp))))
  else None.

(** [float(s)] for a text of ASCII digits, dots and minus signs. *)
Definition float_of_text (s : list ascii) : option Q :=
  match s with
  | "-"%char :: s' => option_map Qopp (float_of_decimal s')
  | _ => float_of_decimal s
  end.

(** [re.sub(r"[^\d\.]", "", s)]. *)
Definition keep_digits_dots (s : list ascii) : list ascii :=
  filter (fun c => is_digit c || is_dot c) s.

(** [re.sub(r"[^\d\.\-]", "", s)]. *)
Definition keep_digits_dots_minus (s : list ascii) : list ascii :=
  filter (fun c => is_digit c || is_dot c || Ascii.eqb c "-") s.

(** [extract_numeric(val)] of [parse_pathogen_data]. *)
Definition extract_numeric (val : option cell) : option Q :=
  match val with
  | None | Some None => None
  | Some (Some v) =>
      let val_str := strip (replace "," "" (replace "％" "" (replace "%" "" v))) in
      let val_str := keep_digits_dots (bytes val_str) in
      match val_str with
      | [] => None
      | ["."%char] => None
      | _ => float_of_decimal val_str
      end
  end.

(** [to_float(x)] of [extract_latest_week_data]. *)
Definition to_float (x : option cell) : option Q :=
  match x with
  | None | Some None => None
  | Some (Some v) =>
      let s := strip (replace "％" "%" (replace "，" "" (replace "," "" v))) in
      let s := replace "%" "" s in
      let s := keep_digits_dots_minus (bytes s) in
      match s with
      | [] => None
      | ["-"%char] => None
      | _ => float_of_text s
      end
  end.

(* ----------------------------------------------------------------- *)
(** ** Flattening rows *)

(** A flattened row: the entity name and the two percentages. *)
Record FlatRow := mkFlatRow {
  flat_pathogen : string;
  flat_ili : option Q;
  flat_sari : option Q
}.

Fixpoint index_of (c : string) (cols : list string) : option nat :=
  match cols with
  | [] => None
  | c' :: rest =>
      if String.eqb c' c then Some O else option_map S (index_of c rest)
  end.

(** [r.get(c)] on a row of [df]: [None] when [df] has no column [c], else
    the cell of the column labelled [c] (a label is taken to name one
    column, as in the tables pandas reads). *)
Definition row_get (df : Table) (r : list cell) (c : string) : option cell :=
  match index_of c (columns df) with
  | Some i => nth_error r i
  | None => None
  end.

(** [str(r.get(c, "")).strip()]. *)
Definition row_name (df : Table) (r : list cell) (c : string) : string :=
  match row_get df r c with
  | Some x => strip (str_cell x)
  | None => ""
  end.

Definition in_list (s : string) (l : list string) : bool :=
  existsb (String.eqb s) l.

(** *** [parse_pathogen_data] of [extract_surveillance_data.py] *)

(** The rows that are skipped for their name. *)
Definition skipped_name (pathogen : string) : bool :=
  is_empty pathogen
  || in_list pathogen ["合计"; "总计"; "病原体"; ""]
  || str_startswith "第" pathogen
  || str_contains "岁" pathogen
  || str_startswith "①" pathogen || str_startswith "②" pathogen
  || str_startswith "③" pathogen.

Definition is_some {A : Type} (x : option A) : bool :=
  match x with Some _ => true | None => false end.

Definition parse_pathogen_row (df : Table) (r : list cell) : list FlatRow :=
  let pathogen := row_name df r "pathogen" in
  if skipped_name pathogen then []
  else
    let ili_val :=
      if in_list "ili_current" (columns df)
      then extract_numeric (row_get df r "ili_current") else None in
    let sari_val :=
      if in_list "sari_current" (columns df)
      then extract_numeric (row_get df r "sari_current") else None in
    if is_some ili_val || is_some sari_val
    then [mkFlatRow pathogen ili_val sari_val]
    else [].

(** [parse_pathogen_data(df)] for a [df] that is not [None]. *)
Definition parse_pathogen_data (df : Table) : list FlatRow :=
  match rows df, columns df with
  | [], _ | _, [] => []                       (* [df.empty] *)
  | _, _ =>
      if negb (in_list "pathogen" (columns df)) then []
      else flat_map (parse_pathogen_row df) (rows df)
  end.

(** The columns [extract_table_from_html] gives to the table it builds. *)
Definition html_columns : list string :=
  ["pathogen"; "ili_current"; "ili_change"; "sari_current"; "sari_change"].

(** *** [extract_latest_week_data] of [extract_data_from_md.py] *)

(** [find_pathogen_col()]; [None] is the [IndexError] of [cols[0]]. *)
Definition find_pathogen_col (cols : list string) : option string :=
  match find (any_key_in PATHOGEN_KEYS) cols with
  | Some c => Some c
  | None => hd_error cols
  end.

(** [[int(x) for x in WEEK_NUMS.findall(c)]]. *)
Definition week_numbers (c : string) : list Z :=
  map (fun groups => int_of_digits (hd [] groups)) (findall WEEK_NUMS c).

(** [max(ws)] for a non-empty [ws]. *)
Definition max_week_of (w : Z) (ws : list Z) : Z := fold_left Z.max ws w.

(** One turn of the loop of [pick_latest_col(keys)]. *)
Definition latest_step (keys : list string)
  (best : option string * option Z) (c : string)
  : option string * option Z :=
  let '(best_col, best_week) := best in
  if any_key_in keys c then
    match week_numbers c with
    | w0 :: ws =>
        let w := max_week_of w0 ws in
        match best_week with
        | None => (Some c, Some w)
        | Some bw => if bw <? w then (Some c, Some w) else best
        end
    | [] =>
        match best_col with
        | None => (Some c, best_week)
        | Some _ => best
        end
    end
  else best.

Definition pick_latest_col (keys cols : list string)
  : option string * option Z :=
  fold_left (latest_step keys) cols (None, None).

(** The week a column stands for in a family: the largest week number in
    its label, when the label holds a keyword of the family and a week
    number. *)
Definition col_week (keys : list string) (c : string) : option Z :=
  if any_key_in keys c then
    match week_numbers c with
    | w0 :: ws => Some (max_week_of w0 ws)
    | [] => None
    end
  else None.

(** The value of a row in the column picked for a family:
    [to_float(r.get(c)) if c else None]. *)
Definition picked_value (df : Table) (r : list cell) (c : option string)
  : option Q :=
  match c with
  | Some c => if is_empty c then None else to_float (row_get df r c)
  | None => None
  end.

Definition latest_week_row (df : Table) (c_path : string)
  (c_ili c_sari : option string) (r : list cell) : list FlatRow :=
  let name := row_name df r c_path in
  if is_empty name || in_list name ["合计"; "总计"] then []
  else [mkFlatRow name (picked_value df r c_ili) (picked_value df r c_sari)].

Definition max_of_weeks (w_ili w_sari : option Z) : option Z :=
  match w_ili, w_sari with
  | Some a, Some b => Some (Z.max a b)
  | Some a, None => Some a
  | None, w => w
  end.

(** [extract_latest_week_data(df)]: the rows and [max_week]; [None] is
    the [IndexError] raised on a table without columns. *)
Definition extract_latest_week_data (df : Table)
  : option (list FlatRow * option Z) :=
  let cols := columns df in
  match find_pathogen_col cols with
  | None => None
  | Some c_path =>
      let '(c_ili, w_ili) := pick_latest_col ILI_KEYS cols in
      let '(c_sari, w_sari) := pick_latest_col SARI_KEYS cols in
      Some (flat_map (latest_week_row df c_path c_ili c_sari) (rows df),
            max_of_weeks w_ili w_sari)
  end.

(** The rows [process_one] returns for a document with these candidate
    tables, before the report date and week are added to each of them;
    [None] is an exception. *)
Definition process_one_rows (candidates : list Table)
  : option (list FlatRow) :=
  match pick_table1 candidates with
  | None => Some []
  | Some df => option_map fst (extract_latest_week_data df)
  end.

(* ----------------------------------------------------------------- *)
(** ** Records and persisted tables *)

(** One row of the persisted CSV.  Percentages are the decimal numbers the
    cells denote. *)
Record SurveillanceRecord := mkRecord {
  reference_date : option string;
  target_end_date : option string;
  report_week : option Z;
  pathogen : option string;
  ili_percent : option Q;
  sari_percent : option Q
}.

Definition DataFrame := list SurveillanceRecord.

(** The [subset] of [drop_duplicates]. *)
Definition NaturalKey : Type := option string * option string * option string.

Definition natural_key (r : SurveillanceRecord) : NaturalKey :=
  (reference_date r, target_end_date r, pathogen r).

(** Equality of two cells as [duplicated] sees it: missing equals missing. *)
Definition cell_eqb (a b : option string) : bool :=
  match a, b with
  | Some x, Some y => String.eqb x y
  | None, None => true
  | _, _ => false
  end.

Definition key_eqb (k1 k2 : NaturalKey) : bool :=
  let '(a1, b1, c1) := k1 in
  let '(a2, b2, c2) := k2 in
  cell_eqb a1 a2 && cell_eqb b1 b2 && cell_eqb c1 c2.

Definition has_key (k : NaturalKey) (r : SurveillanceRecord) : bool :=
  key_eqb (natural_key r) k.

Definition key_seen (seen : list NaturalKey) (k : NaturalKey) : bool :=
  existsb (key_eqb k) seen.

(** [df.drop_duplicates(subset=[...], keep='first')]: a row is dropped when
    its key was met in an earlier row. *)
Fixpoint drop_duplicates_from (seen : list NaturalKey) (df : DataFrame)
  : DataFrame :=
  match df with
  | [] => []
  | r :: rest =>
      if key_seen seen (natural_key r)
      then drop_duplicates_from seen rest
      else r :: drop_duplicates_from (natural_key r :: seen) rest
  end.

Definition drop_duplicates (df : DataFrame) : DataFrame :=
  drop_duplicates_from [] df.

(** Order of the [_sort_date] column, [ascending=False], [NaT] last. *)
Definition cmp_date_desc (a b : option Z) : comparison :=
  match a, b with
  | Some x, Some y => Z.compare y x
  | Some _, None => Lt
  | None, Some _ => Gt
  | None, None => Eq
  end.

(** Order of the [pathogen] column, [ascending=True], missing last. *)
Definition cmp_name_asc (a b : option string) : comparison :=
  match a, b with
  | Some x, Some y => String.compare x y
  | Some _, None => Lt
  | None, Some _ => Gt
  | None, None => Eq
  end.

Definition sort_date (r : SurveillanceRecord) : option Z :=
  to_datetime (reference_date r).

(** [['_sort_date', 'pathogen'], ascending=[False, True]]. *)
Definition cmp_date_name (r1 r2 : SurveillanceRecord) : comparison :=
  match cmp_date_desc (sort_date r1) (sort_date r2) with
  | Eq => cmp_name_asc (pathogen r1) (pathogen r2)
  | c => c
  end.

(** ['_sort_date', ascending=False]. *)
Definition cmp_date_only (r1 r2 : SurveillanceRecord) : comparison :=
  cmp_date_desc (sort_date r1) (sort_date r2).

Definition not_after (cmp : SurveillanceRecord -> SurveillanceRecord -> comparison)
  (r1 r2 : SurveillanceRecord) : bool :=
  match cmp r1 r2 with Gt => false | _ => true end.

Section SortValues.
Variable cmp : SurveillanceRecord -> SurveillanceRecord -> comparison.

Fixpoint insert_row (r : SurveillanceRecord) (sorted : DataFrame) : DataFrame :=
  match sorted with
  | [] => [r]
  | r' :: rest =>
      if not_after cmp r r' then r :: r' :: rest
      else r' :: insert_row r rest
  end.

(** [df.sort_values(...)]: rows with equal sort keys keep the order they
    had in [df].  pandas sorts several keys with a stable lexsort; for a
    single key numpy's quicksort leaves the order of equal dates
    unspecified, and what is proved of the covid table below holds for any
    such order. *)
Fixpoint sort_values (df : DataFrame) : DataFrame :=
  match df with
  | [] => []
  | r :: rest => insert_row r (sort_values rest)
  end.
End SortValues.

(** [df['pathogen'].str.contains('新型冠状病毒', na=False)]. *)
Definition is_covid (r : SurveillanceRecord) : bool :=
  match pathogen r with
  | Some name => str_contains "新型冠状病毒" name
  | None => false
  end.

(** [process_surveillance_file(file_path)]: the records of a document
    with text [content], given the tables that [extract_table_from_html]
    builds from its HTML tables.  Every record carries the period of the
    document. *)
Definition process_surveillance_file (content : string) (tables : list Table)
  : DataFrame :=
  let '(reference_date, target_end_date, report_week) :=
    extract_week_info_from_title content in
  flat_map
    (fun df =>
       map (fun data =>
              mkRecord reference_date target_end_date report_week
                       (Some (flat_pathogen data))
                       (flat_ili data) (flat_sari data))
           (parse_pathogen_data df))
    tables.

(* ----------------------------------------------------------------- *)
(** ** The persisted tables and the merge *)

(** The two files the merge reads and writes: [all_csv] is the
    HistoricalTable, [covid_csv] the CovidTable. *)
Record Store := mkStore {
  all_csv : option DataFrame;
  covid_csv : option DataFrame
}.

(** Which of the two [to_csv] calls raise.  A call that raises leaves its
    file as it was (the path cannot be opened for writing).  Reading the
    files is taken not to fail. *)
Record Faults := mkFaults {
  all_write_fails : bool;
  covid_write_fails : bool
}.

Definition no_faults : Faults := mkFaults false false.

(** Statements that read or write the store and may raise: [None] is an
    exception, which skips the rest of the function body. *)
Definition IO (A : Type) : Type := Store -> option A * Store.

Definition ret {A : Type} (a : A) : IO A := fun st => (Some a, st).

Definition bind {A B : Type} (m : IO A) (k : A -> IO B) : IO B :=
  fun st =>
    match m st with
    | (Some a, st') => k a st'
    | (None, st') => (None, st')
    end.

Notation "x <- m ;; k" := (bind m (fun x => k))
  (at level 61, m at next level, right associativity).
Notation "m ;;; k" := (bind m (fun _ => k))
  (at level 61, right associativity).

(** [pd.read_csv(path) if os.path.exists(path)]. *)
Definition read_all_csv : IO (option DataFrame) :=
  fun st => (Some (all_csv st), st).

Definition read_covid_csv : IO (option DataFrame) :=
  fun st => (Some (covid_csv st), st).

(** [df.to_csv(path, ...)]. *)
Definition write_all_csv (flt : Faults) (df : DataFrame) : IO unit :=
  fun st =>
    if all_write_fails flt then (None, st)
    else (Some tt, mkStore (Some df) (covid_csv st)).

Definition write_covid_csv (flt : Faults) (df : DataFrame) : IO unit :=
  fun st =>
    if covid_write_fails flt then (None, st)
    else (Some tt, mkStore (all_csv st) (Some df)).

(** The first half of both merge functions: it writes the HistoricalTable
    and returns [new_df] as the second half sees it (rebound to its sorted
    copy when the table did not exist yet). *)
Definition update_all (flt : Faults) (new_df : DataFrame) : IO DataFrame :=
  all <- read_all_csv ;;
  match all with
  | Some all_df =>
      let combined_df := new_df ++ all_df in
      let combined_df := drop_duplicates combined_df in
      let combined_df := sort_values cmp_date_name combined_df in
      write_all_csv flt combined_df ;;;
      ret new_df
  | None =>
      let new_df := sort_values cmp_date_name new_df in
      write_all_csv flt new_df ;;;
      ret new_df
  end.

(** Whether [df['pathogen']] has the [.str] accessor: pandas reads a column
    whose cells are all missing as a column of floats, and [.str] on it
    raises [AttributeError].  (A table without rows is read with text
    columns; names are taken not to be numerals.) *)
Definition pathogen_is_text (df : DataFrame) : bool :=
  match df with
  | [] => true
  | _ => existsb (fun r => is_some (pathogen r)) df
  end.

(** [new_df[new_df['pathogen'].str.contains('新型冠状病毒', na=False)]]. *)
Definition covid_rows (new_df : DataFrame) : IO DataFrame :=
  fun st =>
    if pathogen_is_text new_df then (Some (filter is_covid new_df), st)
    else (None, st).

(** The body of [merge_to_main_data] inside its [try]. *)
Definition merge_to_main_data_body (flt : Faults) (new_df : DataFrame)
  : IO unit :=
  new_df <- update_all flt new_df ;;
  covid_new_df <- covid_rows new_df ;;
  covid <- read_covid_csv ;;
  match covid with
  | Some covid_df =>
      let combined_covid_df := covid_new_df ++ covid_df in
      let combined_covid_df := drop_duplicates combined_covid_df in
      let combined_covid_df := sort_values cmp_date_only combined_covid_df in
      write_covid_csv flt combined_covid_df
  | None =>
      if (0 <? List.length covid_new_df)%nat
      then write_covid_csv flt (sort_values cmp_date_only covid_new_df)
      else ret tt
  end.

(** [merge_to_main_data(new_csv, all_csv, covid_csv)] of
    [src/main_pipeline.py]: [True] when the body ran to its end, [False]
    when the [except] clause caught an exception. *)
Definition merge_to_main_data (flt : Faults) (new_df : DataFrame)
  (st : Store) : bool * Store :=
  match merge_to_main_data_body flt new_df st with
  | (Some _, st') => (true, st')
  | (None, st') => (false, st')
  end.

(** [merge_csv_to_main(new_csv, all_csv_path, covid_csv_path)] of the
    Airflow DAG: the same first half; the covid file is touched only when
    the batch has covid rows; an exception is not caught here ([None]). *)
Definition merge_csv_to_main (flt : Faults) (new_df : DataFrame)
  : IO unit :=
  new_df <- update_all flt new_df ;;
  covid_new_df <- covid_rows new_df ;;
  if (0 <? List.length covid_new_df)%nat then
    covid <- read_covid_csv ;;
    match covid with
    | Some covid_df =>
        let combined_covid_df := covid_new_df ++ covid_df in
        let combined_covid_df := drop_duplicates combined_covid_df in
        let combined_covid_df := sort_values cmp_date_only combined_covid_df in
        write_covid_csv flt combined_covid_df
    | None =>
        write_covid_csv flt (sort_values cmp_date_only covid_new_df)
    end
  else ret tt.

(** The HistoricalTable after a merge in which no write fails. *)
Definition merged_all (new_df : DataFrame) (st : Store) : option DataFrame :=
  all_csv (snd (merge_to_main_data no_faults new_df st)).

Definition merged_covid (new_df : DataFrame) (st : Store) : option DataFrame :=
  covid_csv (snd (merge_to_main_data no_faults new_df st)).

Definition dag_merged_all (new_df : DataFrame) (st : Store)
  : option DataFrame :=
  all_csv (snd (merge_csv_to_main no_faults new_df st)).

Definition dag_merged_covid (new_df : DataFrame) (st : Store)
  : option DataFrame :=
  covid_csv (snd (merge_csv_to_main no_faults new_df st)).

(** A row whose [reference_date] is missing or a date, as the extractor
    writes it. *)
Definition well_dated (r : SurveillanceRecord) : Prop :=
  reference_date r = None \/ sort_date r <> None.

(** [a] may stand above [b] in a column of dates sorted newest first,
    missing dates last. *)
Definition date_desc_nulls_last (a b : option string) : Prop :=
  match a, b with
  | Some x, Some y =>
      exists dx dy,
        to_datetime (Some x) = Some dx /\ to_datetime (Some y) = Some dy
        /\ dy <= dx
  | Some _, None => True
  | None, Some _ => False
  | None, None => True
  end.

(** [a] may stand above [b] in a column of names in string order. *)
Definition name_asc (a b : option string) : Prop :=
  match a, b with
  | Some x, Some y => String.leb x y = true
  | Some _, None => True
  | None, Some _ => False
  | None, None => True
  end.

(** The CovidTable as the spec describes it: the updated HistoricalTable
    filtered by the pathogen pattern, under the same dedup and sort rule. *)
Definition covid_view_of_spec (all_df : DataFrame) : DataFrame :=
  sort_values cmp_date_name (drop_duplicates (filter is_covid all_df)).

(** Sample tables.  [no_rows_table] is what pandas reads from the two
    lines [|a|] and [|]: one column, no row. *)
Definition no_rows_table : Table := mkTable ["a"] [].

Definition two_week_header : list string :=
  ["病原体"; "门急诊流感样病例|第19周"; "门急诊流感样病例|第22周";
   "住院严重急性呼吸道感染病例|第22周"].

Definition dash_row : list cell :=
  [Some "流感病毒"; Some "-"; Some ""; Some "-"; Some ""].

Definition percent_row : list cell :=
  [Some "新型冠状病毒"; Some "12.3%"; Some ""; Some "-"; Some ""].

(** The period string of the spec. *)
Definition period_2024_46 : string := "2024年第46周（11月11日-11月17日）".

(** The month sign of patterns 1 to 4, U+2F49. *)
Definition kangxi_month : string := "⽉".

(** The text that follows the year in a week marker. *)
Definition week_marker : string := "年第".

(** A text that names an earlier week before the period string. *)
Definition earlier_week_text : string :=
  "2023年第1周以来，2024年第46周（11月11日-11月17日）".

(** Sample rows: the conflict of the spec's new-wins scenario. *)
Definition covid_old : SurveillanceRecord :=
  mkRecord (Some "2025-01-05") (Some "2025-01-11") (Some 1)
           (Some "新型冠状病毒") (Some (50 # 10)%Q) None.

Definition covid_new : SurveillanceRecord :=
  mkRecord (Some "2025-01-05") (Some "2025-01-11") (Some 1)
           (Some "新型冠状病毒") (Some (62 # 10)%Q) None.

Definition flu_row : SurveillanceRecord :=
  mkRecord (Some "2025-01-12") (Some "2025-01-18") (Some 2)
           (Some "流感病毒") (Some (181 # 10)%Q) (Some (73 # 10)%Q).

Definition covid_dec : SurveillanceRecord :=
  mkRecord (Some "2024-12-29") (Some "2025-01-04") (Some 52)
           (Some "新型冠状病毒") (Some (41 # 10)%Q) (Some (20 # 10)%Q).

Definition rsv_row : SurveillanceRecord :=
  mkRecord (Some "2024-12-29") (Some "2025-01-04") (Some 52)
           (Some "呼吸道合胞病毒") (Some (31 # 10)%Q) (Some (44 # 10)%Q).

(* ----------------------------------------------------------------- *)
(** ** Three-way comparisons that order a column *)

(** What the proofs need of a comparison: it is antisymmetric, its strict
    part is transitive, and rows that compare equal compare alike with
    every other row. *)
Record order_cmp {A : Type} (cmp : A -> A -> comparison) : Prop := {
  cmp_opp : forall a b, cmp a b = CompOpp (cmp b a);
  cmp_lt_trans : forall a b c, cmp a b = Lt -> cmp b c = Lt -> cmp a c = Lt;
  cmp_eq_l : forall a b c, cmp a b = Eq -> cmp a c = cmp b c
}.

(* ----------------------------------------------------------------- *)
(** ** Loop invariants *)

(** What the loop of [pick_table1] holds after the candidates [done]. *)
Definition best_found (done : list Table) (best : option Table * Z) : Prop :=
  match fst best with
  | None => done = [] /\ snd best = -1
  | Some df =>
      snd best = score_table df
      /\ exists before after,
           done = before ++ df :: after
           /\ (forall t, In t before -> score_table t < score_table df)
           /\ (forall t, In t after -> score_table t <= score_table df)
  end.

(** What the loop of [pick_latest_col] has found after the columns
    [done]: no week yet, or the first column of the largest week. *)
Definition latest_found (keys : list string) (done : list string)
  (best : option string * option Z) : Prop :=
  match snd best with
  | None => forall c, In c done -> col_week keys c = None
  | Some w =>
      exists c before after,
        fst best = Some c
        /\ done = before ++ c :: after
        /\ col_week keys c = Some w
        /\ (forall c' w', In c' before -> col_week keys c' = Some w' -> w' < w)
        /\ (forall c' w', In c' after -> col_week keys c' = Some w' -> w' <= w)
  end.

(* ----------------------------------------------------------------- *)
(** ** The CSV of one document ([main] of [extract_surveillance_data.py]) *)

(** One cell of [reference_date] through [pd.to_datetime(..., errors=
    'coerce')] and then [.dt.strftime('%Y-%m-%d')]. *)
Definition normalize_date (cell : option string) : option string :=
  option_map strftime_ymd (to_datetime cell).

Definition with_reference_date (d : option string) (r : SurveillanceRecord)
  : SurveillanceRecord :=
  mkRecord d (target_end_date r) (report_week r) (pathogen r)
           (ili_percent r) (sari_percent r).

Definition normalize_row (r : SurveillanceRecord) : SurveillanceRecord :=
  with_reference_date (normalize_date (reference_date r)) r.

(** The table [main] saves for the records [all_results], as it is read
    back: the rows are sorted on the parsed date and the name, then the
    date is printed again.  [None]: without records nothing is saved. *)
Definition surveillance_csv (all_results : DataFrame) : option DataFrame :=
  match all_results with
  | [] => None
  | _ => Some (map normalize_row (sort_values cmp_date_name all_results))
  end.

(** [extract_reference_date_from_csv(csv_path)] of [main_pipeline.py]: the
    first cell of [reference_date], if the file can be read, has a row and
    the cell is not missing.  The cell is text, as [str] returns it for
    every date the extractor writes. *)
Definition extract_reference_date_from_csv (csv : option DataFrame)
  : option string :=
  match csv with
  | Some (r :: _) => reference_date r
  | _ => None
  end.

(** The name of the directory [main] of [main_pipeline.py] files a document
    under: [file_id if not ref_date else ref_date]. *)
Definition target_dir_name (csv : option DataFrame) (file_id : string)
  : string :=
  match extract_reference_date_from_csv csv with
  | Some ref_date => if String.eqb ref_date "" then file_id else ref_date
  | None => file_id
  end.

Definition digit_chars : list ascii :=
  ["0"; "1"; "2"; "3"; "4"; "5"; "6"; "7"; "8"; "9"]%char.

(** Checks on digits that are settled by computation. *)
Definition prints_four_digits (a b c d : ascii) : bool :=
  implb (1000 <=? int_of_digits [a; b; c; d])
        (String.eqb (text_of (str_of_Z (int_of_digits [a; b; c; d])))
                    (text_of [a; b; c; d])).

Definition prints_two_digits (a b : ascii) : bool :=
  String.eqb (text_of (pad2 (int_of_digits [a; b]))) (text_of [a; b]).

(* ----------------------------------------------------------------- *)
(** ** The link files of the DAG ([cdc_data_update_dag.py]) *)

Definition LF : ascii := "010"%char.
Definition CR : ascii := "013"%char.

(** The lines of a text file as [for line in f] yields them, without their
    terminators.  A file opened in text mode ends a line at ["\n"], at
    ["\r\n"] and at a lone ["\r"]; text after the last terminator is a
    line of its own.  [cur] is the line read so far, reversed. *)
Fixpoint lines_from (cur : list ascii) (cs : list ascii) : list string :=
  match cs with
  | [] =>
      match cur with
      | [] => []
      | _ => [text_of (rev cur)]
      end
  | c :: rest =>
      if Ascii.eqb c LF then text_of (rev cur) :: lines_from [] rest
      else if Ascii.eqb c CR then
        match rest with
        | d :: rest' =>
            if Ascii.eqb d LF then text_of (rev cur) :: lines_from [] rest'
            else text_of (rev cur) :: lines_from [] rest
        | [] => [text_of (rev cur)]
        end
      else lines_from (c :: cur) rest
  end.

Definition file_lines (text : string) : list string :=
  lines_from [] (bytes text).

(** [for line in lines: f.write(line + '\n')] on a POSIX system. *)
Definition write_lines (lines : list string) : string :=
  text_of (flat_map (fun line => bytes line ++ [LF]) lines).

(** [s.endswith(p)]. *)
Definition str_endswith (p s : string) : bool :=
  starts_with (rev (bytes p)) (rev (bytes s)).

(** [set(line.strip() for line in f if line.strip() and
    line.strip().startswith('http'))].  The set is used for membership and
    emptiness only and is kept as the list of its elements. *)
Definition links_of_lines (lines : list string) : list string :=
  map strip
      (filter (fun line =>
                 negb (is_empty (strip line))
                 && str_startswith "http" (strip line))
              lines).

(** [read_existing_links(file_path)]; [None] is a file that does not
    exist. *)
Definition read_existing_links (file : option string) : list string :=
  match file with
  | None => []
  | Some text => links_of_lines (file_lines text)
  end.

(** Order of Python strings: by code point, which for UTF-8 is the order
    of the bytes. *)
Definition str_le (a b : string) : bool :=
  match String.compare a b with Gt => false | _ => true end.

Definition str_ge (a b : string) : bool := str_le b a.

Fixpoint insert_sorted (le : string -> string -> bool) (x : string)
  (l : list string) : list string :=
  match l with
  | [] => [x]
  | y :: rest =>
      if le x y then x :: y :: rest else y :: insert_sorted le x rest
  end.

(** [sorted(l)] and [l.sort(reverse=True)], with [le] the order. *)
Definition sort_by (le : string -> string -> bool) (l : list string)
  : list string :=
  fold_right (insert_sorted le) [] l.

(** [find_new_links(fetched_links, existing_links)]. *)
Definition find_new_links (fetched_links existing_links : list string)
  : list string :=
  sort_by str_ge
    (filter (fun link => negb (in_list link existing_links)) fetched_links).

(** [while existing_content and not existing_content[-1]: pop()]. *)
Fixpoint drop_trailing_empty (lines : list string) : list string :=
  match lines with
  | [] => []
  | x :: rest =>
      match drop_trailing_empty rest with
      | [] => if is_empty x then [] else [x]
      | rest' => x :: rest'
      end
  end.

(** [append_links_to_file(file_path, new_links)]: the file afterwards,
    when reading and writing it raise nothing. *)
Definition append_links_to_file (file : option string)
  (new_links : list string) : option string :=
  match new_links with
  | [] => file
  | _ =>
      let existing_content :=
        match file with
        | Some text => file_lines text
        | None => []
        end in
      Some (write_lines (drop_trailing_empty existing_content ++ new_links))
  end.

(** *** The links of the reports *)

Definition REPORT_PATH : string := "/jksj/jksj04_14275/".
Definition BASE_URL : string := "https://www.chinacdc.cn".

(** The test both crawlers apply: a report page, not an index page. *)
Definition is_report_link (href : string) : bool :=
  str_contains REPORT_PATH href
  && str_endswith ".html" href
  && negb (str_contains "index_" href).

Definition full_url_bs4 (href : string) : string :=
  if str_startswith "http" href then href
  else if str_startswith "/" href then BASE_URL ++ href
  else BASE_URL ++ "/" ++ href.

Definition full_url_firecrawl (link_url : string) : string :=
  if negb (str_startswith "http" link_url) then BASE_URL ++ link_url
  else link_url.

(** [list(set(l))], in the order of the last occurrences; it is sorted
    next. *)
Fixpoint distinct (l : list string) : list string :=
  match l with
  | [] => []
  | x :: rest => if in_list x rest then distinct rest else x :: distinct rest
  end.

(** [sorted(list(set(links)))]. *)
Definition sorted_set (links : list string) : list string :=
  sort_by str_le (distinct links).

(** [fetch_surveillance_links_bs4(url)], given the [href]s of the [a] tags
    of the page; [None] is a request that failed. *)
Definition fetch_surveillance_links_bs4 (page : option (list string))
  : list string :=
  match page with
  | None => []
  | Some hrefs => sorted_set (map full_url_bs4 (filter is_report_link hrefs))
  end.

(** [fetch_surveillance_links_firecrawl(url, api_key)], given the URLs of
    the links in the response; [None] is a request that failed or a
    response without a list of links. *)
Definition fetch_surveillance_links_firecrawl (response : option (list string))
  : list string :=
  match response with
  | None => []
  | Some all_links =>
      sorted_set (map full_url_firecrawl (filter is_report_link all_links))
  end.

(** [fetch_surveillance_links(url)]: Firecrawl first when there is a key,
    then the page itself. *)
Definition fetch_surveillance_links (api_key : string)
  (response page : option (list string)) : list string :=
  if negb (is_empty api_key) then
    match fetch_surveillance_links_firecrawl response with
    | [] => fetch_surveillance_links_bs4 page
    | links => links
    end
  else fetch_surveillance_links_bs4 page.

(** *** The tasks that find and record new links *)

(** [[line.strip() for line in f if line.strip() and not
    line.startswith('#')]]: the URL file of the pipeline and of the DAG. *)
Definition read_url_lines (text : string) : list string :=
  map strip
      (filter (fun line =>
                 negb (is_empty (strip line))
                 && negb (str_startswith "#" line))
              (file_lines text)).

(** What [fetch_new_links_task] pushes to XCom. *)
Record LinkReport := mkLinkReport {
  new_links : list string;
  link_count : nat;
  has_new_links : bool;
  crawl_failed : bool
}.

(** The part of [fetch_new_links_task] after the fallbacks. *)
Definition report_new_links (fetched_links existing_links : list string)
  : LinkReport * nat :=
  match find_new_links fetched_links existing_links with
  | [] => (mkLinkReport [] 0 false false, 0%nat)
  | links =>
      (mkLinkReport links (List.length links) true false, List.length links)
  end.

(** [fetch_new_links_task]: the values pushed and the value
    returned, given the links fetched, the history file and the URL
    file. *)
Definition fetch_new_links_task (fetched_links : list string)
  (history url_file : option string) : LinkReport * nat :=
  let existing_links := read_existing_links history in
  match fetched_links with
  | [] =>
      match existing_links with
      | _ :: _ => (mkLinkReport [] 0 false true, 0%nat)
      | [] =>
          match url_file with
          | Some text =>
              match read_url_lines text with
              | [] => report_new_links fetched_links existing_links
              | urls =>
                  (mkLinkReport urls (List.length urls) true true,
                   List.length urls)
              end
          | None => report_new_links fetched_links existing_links
          end
      end
  | _ => report_new_links fetched_links existing_links
  end.

(** [check_new_links]: whether the downstream tasks run. *)
Definition check_new_links (report : LinkReport) : bool :=
  negb (negb (has_new_links report) || (link_count report =? 0)%nat).

(** [update_history_file]: the history file afterwards and the
    value returned. *)
Definition update_history_file (report : LinkReport) (history : option string)
  : option string * nat :=
  match new_links report with
  | [] => (history, 0%nat)
  | links => (append_links_to_file history links, List.length links)
  end.

(** *** Links that can be recorded *)

Definition is_break (c : ascii) : bool := Ascii.eqb c LF || Ascii.eqb c CR.

(** A text that holds no line terminator. *)
Definition one_line (s : string) : Prop :=
  forallb (fun c => negb (is_break c)) (bytes s) = true.

(** A link that [read_existing_links] reads back as it was written: one
    line, nothing to strip, and the scheme in front. *)
Definition recordable (link : string) : Prop :=
  one_line link /\ strip link = link /\ str_startswith "http" link = true.

(** The bytes a whitespace character can end with. *)
Definition space_tail (b : ascii) : bool :=
  (nat_of_ascii b <=? 32)%nat || (128 <=? nat_of_ascii b)%nat.

(** What the test of the crawlers and the completion of a link give. *)
Definition report_url (l : string) : Prop :=
  str_startswith "http" l = true
  /\ str_endswith ".html" l = true
  /\ str_contains REPORT_PATH l = true.

(** Checks on bytes that are settled by computation. *)
Definition all_ascii : list ascii := map ascii_of_nat (seq 0 256).

(** The first bytes of the whitespace characters of two and three bytes. *)
Definition lead_byte (a : ascii) : bool :=
  (nat_of_ascii a =? 194)%nat || (nat_of_ascii a =? 225)%nat
  || (nat_of_ascii a =? 226)%nat || (nat_of_ascii a =? 227)%nat.

Definition ok_width (k : nat) (b : ascii) (r : option nat) : bool :=
  match r with
  | Some w => (w =? k)%nat && space_tail b
  | None => true
  end.

Definition no_width (r : option nat) : bool :=
  match r with
  | Some _ => false
  | None => true
  end.


(* ----------------------------------------------------------------- *)
(** ** The period of an ISO week and the id of a document *)

(** The last resort of [extract_week_info_from_title]: the Monday and the
    Sunday of ISO week [week] of [year], or no dates when
    [date.fromisocalendar] raises. *)
Definition iso_week_period (year week : Z)
  : option string * option string * option Z :=
  match fromisocalendar year week 1, fromisocalendar year week 7 with
  | Some monday, Some sunday =>
      (Some (strftime_ymd monday), Some (strftime_ymd sunday), Some week)
  | _, _ => (None, None, Some week)
  end.

(** [t\d{8}_\d+] on a text of [n] bytes: the last run of digits is as long
    as the text allows. *)
Definition file_id_pattern (n : nat) : pattern :=
  [Lit "t"; Digits 8 8; Lit "_"; Digits 1 n].

(** [get_file_id_from_url(url)] of [main_pipeline.py]; the group is the
    whole match. *)
Definition get_file_id_from_url (url : string) : option string :=
  match re_search (file_id_pattern (List.length (bytes url))) (bytes url) with
  | Some m =>
      Some (text_of ("t"%char :: nth 0 (fst m) []
                     ++ "_"%char :: nth 1 (fst m) []))
  | None => None
  end.


(* ----------------------------------------------------------------- *)
(** ** The directory of a document in the DAG *)

(** The name [organize_and_merge_data] files a document under:
    [str(df['reference_date'].iloc[0])] when the CSV can be read and has a
    row, the id of the file otherwise.  A missing date is the float NaN,
    whose [str] is ["nan"]. *)
Definition dag_target_dir_name (csv : option DataFrame) (file_id : string)
  : string :=
  match csv with
  | Some (r :: _) =>
      match reference_date r with
      | Some ref_date => ref_date
      | None => "nan"
      end
  | _ => file_id
  end.

(** The merges of a run, one document after the other: the loop of
    [organize_and_merge_data] in the DAG and the loop of [main] in the
    pipeline, for the tables [batches] read from the documents' CSV files
    when no write fails. *)
Definition organize_and_merge_data (batches : list DataFrame) (st : Store)
  : Store :=
  fold_left (fun st new_df => snd (merge_csv_to_main no_faults new_df st))
            batches st.

Definition pipeline_merges (batches : list DataFrame) (st : Store) : Store :=
  fold_left (fun st new_df => snd (merge_to_main_data no_faults new_df st))
            batches st.

(* ----------------------------------------------------------------- *)
(** ** The pipe tables of a Markdown text ([extract_data_from_md.py]) *)

(** [line.lstrip().startswith("|")]. *)
Definition is_pipe_line (line : string) : bool :=
  starts_with (bytes "|") (lstrip (bytes line)).

(** The inner loop of [all_pipe_tables]: the lines of [buf]. *)
Fixpoint take_pipe_lines (lines : list string) : list string :=
  match lines with
  | line :: rest =>
      if is_pipe_line line then line :: take_pipe_lines rest else []
  | [] => []
  end.

(** ["\n".join(buf)]. *)
Definition join_lines (buf : list string) : string :=
  String.concat (String LF EmptyString) buf.

(** The outer loop of [all_pipe_tables] from line [i] on; every turn moves
    [i] forward, so that [fuel] turns are enough when [fuel] is the number
    of lines. *)
Fixpoint all_pipe_tables_from (fuel i : nat) (lines : list string)
  : list (nat * nat * string) :=
  match fuel with
  | O => []
  | S fuel' =>
      match nth_error lines i with
      | None => []
      | Some line =>
          if is_pipe_line line then
            let buf := take_pipe_lines (skipn i lines) in
            let j := (i + List.length buf)%nat in
            (if (2 <=? List.length buf)%nat
             then [(i, j, join_lines buf)] else [])
            ++ all_pipe_tables_from fuel' j lines
          else all_pipe_tables_from fuel' (S i) lines
      end
  end.

(** [all_pipe_tables(md)], given [lines = md.splitlines()]: the blocks
    [(i, j, text)] of two or more lines that start with a pipe. *)
Definition all_pipe_tables (lines : list string)
  : list (nat * nat * string) :=
  all_pipe_tables_from (List.length lines) O lines.

(** Whether line [k] of [lines] is a line of a pipe table. *)
Definition pipe_at (lines : list string) (k : nat) : bool :=
  match nth_error lines k with
  | Some line => is_pipe_line line
  | None => false
  end.

(** Lines [i] to [j - 1] are a run of pipe lines that cannot be extended,
    of two lines or more. *)
Definition pipe_run (lines : list string) (i j : nat) : Prop :=
  (i + 2 <= j)%nat
  /\ (forall k, (i <= k < j)%nat -> pipe_at lines k = true)
  /\ pipe_at lines j = false
  /\ (i = O \/ pipe_at lines (i - 1) = false).


(* ----------------------------------------------------------------- *)
(** ** The covid table of the extractor *)

(** The table [main] of [extract_surveillance_data.py] saves with
    [--covid-only]: the covid rows of the table it saved.  The column of
    names is built in memory from texts and missing values, for which
    pandas has the [.str] accessor. *)
Definition surveillance_covid_csv (all_results : DataFrame)
  : option DataFrame :=
  option_map (filter is_covid) (surveillance_csv all_results).


(* ================================================================= *)
(** * Part II: properties *)
(* ================================================================= *)

(* ----------------------------------------------------------------- *)
(** ** Natural keys *)

Lemma cell_eqb_eq (a b : option string) : cell_eqb a b = true <-> a = b.
Proof.
  destruct a as [x|], b as [y|]; simpl; try (split; congruence).
  rewrite String.eqb_eq. split; congruence.
Qed.

Lemma key_eqb_eq (k1 k2 : NaturalKey) : key_eqb k1 k2 = true <-> k1 = k2.
Proof.
  destruct k1 as [[a1 b1] c1], k2 as [[a2 b2] c2]; simpl.
  rewrite !andb_true_iff, !cell_eqb_eq.
  split.
  - intros [[-> ->] ->]. reflexivity.
  - intros H. inversion H. auto.
Qed.

Lemma key_eqb_refl (k : NaturalKey) : key_eqb k k = true.
Proof. apply key_eqb_eq. reflexivity. Qed.

Lemma key_eqb_neq (k1 k2 : NaturalKey) : key_eqb k1 k2 = false <-> k1 <> k2.
Proof.
  rewrite <- key_eqb_eq. destruct (key_eqb k1 k2); split; congruence.
Qed.

Lemma key_eqb_sym (k1 k2 : NaturalKey) : key_eqb k1 k2 = key_eqb k2 k1.
Proof.
  destruct (key_eqb k2 k1) eqn:E.
  - apply key_eqb_eq in E. subst. apply key_eqb_refl.
  - apply key_eqb_neq in E. apply key_eqb_neq. congruence.
Qed.

Lemma key_seen_In (seen : list NaturalKey) (k : NaturalKey) :
  key_seen seen k = true <-> In k seen.
Proof.
  unfold key_seen. rewrite existsb_exists. split.
  - intros [x [Hin Heq]]. apply key_eqb_eq in Heq. subst. exact Hin.
  - intros Hin. exists k. split; [exact Hin | apply key_eqb_refl].
Qed.

Lemma key_seen_not_In (seen : list NaturalKey) (k : NaturalKey) :
  key_seen seen k = false <-> ~ In k seen.
Proof.
  rewrite <- key_seen_In. destruct (key_seen seen k); split; congruence.
Qed.

Lemma key_seen_cons (seen : list NaturalKey) (k0 k : NaturalKey) :
  key_seen (k0 :: seen) k = key_eqb k k0 || key_seen seen k.
Proof. reflexivity. Qed.

(* ----------------------------------------------------------------- *)
(** ** [drop_duplicates] keeps the first row of every key *)

(** The rows of one key that survive: the first one, unless the key was
    seen before. *)
Lemma drop_duplicates_from_key (k : NaturalKey) (df : DataFrame) :
  forall seen,
    filter (has_key k) (drop_duplicates_from seen df) =
    if key_seen seen k then []
    else match find (has_key k) df with
         | Some r => [r]
         | None => []
         end.
Proof.
  induction df as [|r rest IH]; intros seen; simpl.
  - destruct (key_seen seen k); reflexivity.
  - destruct (key_seen seen (natural_key r)) eqn:Hseen.
    + rewrite IH. destruct (key_seen seen k) eqn:Hk; [reflexivity|].
      destruct (has_key k r) eqn:E; [|reflexivity].
      apply key_eqb_eq in E. congruence.
    + simpl. rewrite IH, key_seen_cons.
      destruct (has_key k r) eqn:E.
      * pose proof E as E'. apply key_eqb_eq in E'. subst k.
        rewrite key_eqb_refl, Hseen. reflexivity.
      * unfold has_key in E. rewrite key_eqb_sym, E. reflexivity.
Qed.

Lemma drop_duplicates_key (k : NaturalKey) (df : DataFrame) :
  filter (has_key k) (drop_duplicates df) =
  match find (has_key k) df with
  | Some r => [r]
  | None => []
  end.
Proof. unfold drop_duplicates. rewrite drop_duplicates_from_key. reflexivity. Qed.

Lemma drop_duplicates_from_In (df : DataFrame) :
  forall seen r,
    In r (drop_duplicates_from seen df) ->
    In r df /\ ~ In (natural_key r) seen.
Proof.
  induction df as [|r0 rest IH]; intros seen r; simpl; [tauto|].
  destruct (key_seen seen (natural_key r0)) eqn:Hseen.
  - intros H. apply IH in H. tauto.
  - intros [<- | H].
    + split; [now left | now apply key_seen_not_In].
    + apply IH in H. simpl in H. tauto.
Qed.

Lemma drop_duplicates_from_NoDup (df : DataFrame) :
  forall seen, NoDup (map natural_key (drop_duplicates_from seen df)).
Proof.
  induction df as [|r rest IH]; intros seen; simpl; [constructor|].
  destruct (key_seen seen (natural_key r)); [apply IH|].
  simpl. constructor; [|apply IH].
  rewrite in_map_iff. intros [r' [Hk Hin]].
  apply drop_duplicates_from_In in Hin. destruct Hin as [_ Hnot].
  apply Hnot. rewrite Hk. now left.
Qed.

(** Only the keys seen that occur in the table matter. *)
Lemma drop_duplicates_from_ext_in (df : DataFrame) :
  forall seen1 seen2,
    (forall r, In r df ->
       key_seen seen1 (natural_key r) = key_seen seen2 (natural_key r)) ->
    drop_duplicates_from seen1 df = drop_duplicates_from seen2 df.
Proof.
  induction df as [|r rest IH]; intros seen1 seen2 Hext; simpl; [reflexivity|].
  rewrite <- (Hext r) by now left.
  destruct (key_seen seen1 (natural_key r)).
  - apply IH. intros r' Hr'. apply Hext. now right.
  - f_equal. apply IH. intros r' Hr'.
    rewrite !key_seen_cons, (Hext r') by now right. reflexivity.
Qed.

Lemma drop_duplicates_from_ext (df : DataFrame) :
  forall seen1 seen2,
    (forall k, key_seen seen1 k = key_seen seen2 k) ->
    drop_duplicates_from seen1 df = drop_duplicates_from seen2 df.
Proof.
  intros seen1 seen2 Hext. apply drop_duplicates_from_ext_in.
  intros r _. apply Hext.
Qed.

Lemma key_seen_app (s1 s2 : list NaturalKey) (k : NaturalKey) :
  key_seen (s1 ++ s2) k = key_seen s1 k || key_seen s2 k.
Proof. unfold key_seen. apply existsb_app. Qed.

Lemma drop_duplicates_from_app (df1 df2 : DataFrame) :
  forall seen,
    drop_duplicates_from seen (df1 ++ df2) =
    drop_duplicates_from seen df1
    ++ drop_duplicates_from (map natural_key df1 ++ seen) df2.
Proof.
  induction df1 as [|r rest IH]; intros seen; simpl; [reflexivity|].
  destruct (key_seen seen (natural_key r)) eqn:Hseen.
  - rewrite IH. f_equal. apply drop_duplicates_from_ext. intros k.
    rewrite key_seen_cons.
    destruct (key_eqb k (natural_key r)) eqn:E; [|reflexivity].
    apply key_eqb_eq in E. subst k.
    rewrite key_seen_app, Hseen. apply orb_true_r.
  - simpl. rewrite IH. do 2 f_equal. apply drop_duplicates_from_ext. intros k.
    rewrite key_seen_cons, !key_seen_app, key_seen_cons.
    destruct (key_eqb k (natural_key r)), (key_seen (map natural_key rest) k);
      reflexivity.
Qed.

(** On a table whose keys are already distinct, dropping duplicates only
    removes the keys seen before. *)
Lemma drop_duplicates_from_NoDup_filter (df : DataFrame) :
  forall seen,
    NoDup (map natural_key df) ->
    drop_duplicates_from seen df =
    filter (fun r => negb (key_seen seen (natural_key r))) df.
Proof.
  induction df as [|r rest IH]; intros seen Hnd; simpl; [reflexivity|].
  inversion Hnd as [|? ? Hnotin Hnd']; subst.
  destruct (key_seen seen (natural_key r)) eqn:Hseen; simpl.
  - apply IH, Hnd'.
  - f_equal. rewrite IH by exact Hnd'.
    apply filter_ext_in. intros r' Hin. rewrite key_seen_cons.
    destruct (key_eqb (natural_key r') (natural_key r)) eqn:E; [|reflexivity].
    apply key_eqb_eq in E. exfalso. apply Hnotin. rewrite <- E.
    apply in_map, Hin.
Qed.

Lemma drop_duplicates_NoDup_id (df : DataFrame) :
  NoDup (map natural_key df) -> drop_duplicates df = df.
Proof.
  intros Hnd. unfold drop_duplicates.
  rewrite drop_duplicates_from_NoDup_filter by exact Hnd.
  simpl. induction df as [|r rest IH]; simpl; [reflexivity|].
  f_equal. apply IH. now inversion Hnd.
Qed.

(* ----------------------------------------------------------------- *)
(** ** The sort orders *)

Lemma cmp_date_desc_order : order_cmp cmp_date_desc.
Proof.
  split.
  - intros [x|] [y|]; simpl; try reflexivity. apply Z.compare_antisym.
  - intros [x|] [y|] [z|]; simpl; try congruence.
    rewrite !Z.compare_lt_iff. lia.
  - intros [x|] [y|] [z|]; simpl; try congruence;
      intros H; apply Z.compare_eq in H; subst; reflexivity.
Qed.

Lemma cmp_name_asc_order : order_cmp cmp_name_asc.
Proof.
  split.
  - intros [x|] [y|]; simpl; try reflexivity. apply String.compare_antisym.
  - intros [x|] [y|] [z|]; simpl; try congruence.
    intros H1 H2.
    apply OrderedTypeEx.String_as_OT.cmp_lt in H1, H2.
    apply OrderedTypeEx.String_as_OT.cmp_lt.
    eapply OrderedTypeEx.String_as_OT.lt_trans; eassumption.
  - intros [x|] [y|] [z|]; simpl; try congruence;
      intros H; apply String.compare_eq_iff in H; subst; reflexivity.
Qed.

Lemma cmp_date_only_order : order_cmp cmp_date_only.
Proof.
  destruct cmp_date_desc_order as [Ho Ht He]. unfold cmp_date_only. split.
  - intros a b. apply Ho.
  - intros a b c. apply Ht.
  - intros a b c. apply He.
Qed.

Lemma cmp_date_name_order : order_cmp cmp_date_name.
Proof.
  destruct cmp_date_desc_order as [Ho Ht He].
  destruct cmp_name_asc_order as [Ho' Ht' He'].
  unfold cmp_date_name. split.
  - intros a b. rewrite (Ho (sort_date a)), (Ho' (pathogen a)).
    destruct (cmp_date_desc (sort_date b) (sort_date a)); reflexivity.
  - intros a b c.
    destruct (cmp_date_desc (sort_date a) (sort_date b)) eqn:Hab;
      destruct (cmp_date_desc (sort_date b) (sort_date c)) eqn:Hbc;
      try congruence.
    + rewrite (He _ _ _ Hab), Hbc. apply Ht'.
    + rewrite (He _ _ _ Hab), Hbc. reflexivity.
    + intros _ _. rewrite Ho in Hbc.
      destruct (cmp_date_desc (sort_date c) (sort_date b)) eqn:Hcb;
        try discriminate.
      rewrite Ho, (He _ _ _ Hcb), <- Ho, Hab. reflexivity.
    + intros _ _. rewrite (Ht _ _ _ Hab Hbc). reflexivity.
  - intros a b c.
    destruct (cmp_date_desc (sort_date a) (sort_date b)) eqn:Hab;
      try congruence.
    intros Hn. rewrite (He _ _ _ Hab), (He' _ _ _ Hn). reflexivity.
Qed.

Section SortProperties.
Variable cmp : SurveillanceRecord -> SurveillanceRecord -> comparison.
Hypothesis cmp_order : order_cmp cmp.

Let le (a b : SurveillanceRecord) : Prop := not_after cmp a b = true.

Lemma cmp_refl (a : SurveillanceRecord) : cmp a a = Eq.
Proof.
  pose proof (cmp_opp cmp cmp_order a a) as H.
  destruct (cmp a a); simpl in H; congruence.
Qed.

Lemma not_after_refl (a : SurveillanceRecord) : not_after cmp a a = true.
Proof. unfold not_after. rewrite cmp_refl. reflexivity. Qed.

Lemma not_after_total (a b : SurveillanceRecord) :
  not_after cmp a b = false -> not_after cmp b a = true.
Proof.
  unfold not_after. rewrite (cmp_opp cmp cmp_order b a).
  destruct (cmp a b); simpl; congruence.
Qed.

Lemma not_after_trans (a b c : SurveillanceRecord) :
  not_after cmp a b = true -> not_after cmp b c = true ->
  not_after cmp a c = true.
Proof.
  unfold not_after.
  destruct (cmp a b) eqn:Hab; try discriminate;
    destruct (cmp b c) eqn:Hbc; try discriminate; intros _ _.
  - rewrite (cmp_eq_l cmp cmp_order _ _ _ Hab), Hbc. reflexivity.
  - rewrite (cmp_eq_l cmp cmp_order _ _ _ Hab), Hbc. reflexivity.
  - rewrite (cmp_opp cmp cmp_order) in Hbc.
    destruct (cmp c b) eqn:Hcb; try discriminate.
    rewrite (cmp_opp cmp cmp_order), (cmp_eq_l cmp cmp_order _ _ _ Hcb),
      <- (cmp_opp cmp cmp_order), Hab. reflexivity.
  - rewrite (cmp_lt_trans cmp cmp_order _ _ _ Hab Hbc). reflexivity.
Qed.

Lemma insert_row_Permutation (r : SurveillanceRecord) (df : DataFrame) :
  Permutation (r :: df) (insert_row cmp r df).
Proof.
  induction df as [|r' rest IH]; simpl.
  - apply Permutation_refl.
  - destruct (not_after cmp r r').
    + apply Permutation_refl.
    + eapply perm_trans; [apply perm_swap|]. apply perm_skip, IH.
Qed.

Lemma sort_values_Permutation (df : DataFrame) :
  Permutation df (sort_values cmp df).
Proof.
  induction df as [|r rest IH]; simpl.
  - apply perm_nil.
  - eapply perm_trans; [apply perm_skip, IH|]. apply insert_row_Permutation.
Qed.

Lemma sort_values_In (df : DataFrame) (r : SurveillanceRecord) :
  In r (sort_values cmp df) <-> In r df.
Proof.
  split; apply Permutation_in.
  - apply Permutation_sym, sort_values_Permutation.
  - apply sort_values_Permutation.
Qed.

Lemma insert_row_sorted (r : SurveillanceRecord) (df : DataFrame) :
  StronglySorted le df -> StronglySorted le (insert_row cmp r df).
Proof.
  induction df as [|r' rest IH]; intros Hs; simpl.
  - constructor; [constructor | constructor].
  - inversion Hs as [|? ? Hs' Hall]; subst.
    destruct (not_after cmp r r') eqn:E.
    + constructor; [exact Hs|]. constructor; [exact E|].
      eapply Forall_impl; [|exact Hall].
      intros x Hx. eapply not_after_trans; eassumption.
    + constructor; [apply IH, Hs'|].
      apply (Permutation_Forall (insert_row_Permutation r rest)).
      constructor; [apply not_after_total, E | exact Hall].
Qed.

Lemma sort_values_sorted (df : DataFrame) :
  StronglySorted le (sort_values cmp df).
Proof.
  induction df as [|r rest IH]; simpl.
  - constructor.
  - apply insert_row_sorted, IH.
Qed.

Lemma insert_row_first (r : SurveillanceRecord) (df : DataFrame) :
  Forall (le r) df -> insert_row cmp r df = r :: df.
Proof.
  destruct df as [|r' rest]; simpl; [reflexivity|].
  intros H. inversion H as [|? ? Hle _]; subst.
  unfold le in Hle. rewrite Hle. reflexivity.
Qed.

(** A sorted table is left as it is. *)
Lemma sort_values_sorted_id (df : DataFrame) :
  StronglySorted le df -> sort_values cmp df = df.
Proof.
  induction df as [|r rest IH]; intros Hs; simpl; [reflexivity|].
  inversion Hs as [|? ? Hs' Hall]; subst.
  rewrite IH by exact Hs'. apply insert_row_first, Hall.
Qed.

Lemma sort_values_idem (df : DataFrame) :
  sort_values cmp (sort_values cmp df) = sort_values cmp df.
Proof. apply sort_values_sorted_id, sort_values_sorted. Qed.

(** Sorting a tail first does not change the result: rows with equal
    keys keep their order either way. *)
Lemma sort_values_app_sorted (df1 df2 : DataFrame) :
  sort_values cmp (df1 ++ sort_values cmp df2) = sort_values cmp (df1 ++ df2).
Proof.
  induction df1 as [|r rest IH]; simpl.
  - apply sort_values_idem.
  - rewrite IH. reflexivity.
Qed.

Lemma filter_insert_row (p : SurveillanceRecord -> bool)
  (r : SurveillanceRecord) (df : DataFrame) :
  StronglySorted le df ->
  filter p (insert_row cmp r df) =
  if p r then insert_row cmp r (filter p df) else filter p df.
Proof.
  induction df as [|r' rest IH]; intros Hs; simpl.
  - destruct (p r); reflexivity.
  - inversion Hs as [|? ? Hs' Hall]; subst.
    destruct (not_after cmp r r') eqn:E.
    + assert (Hall' : Forall (le r) (r' :: rest)).
      { constructor; [exact E|]. eapply Forall_impl; [|exact Hall].
        intros x Hx. eapply not_after_trans; eassumption. }
      assert (Hf : Forall (le r) (filter p (r' :: rest))).
      { rewrite Forall_forall in *. intros x Hx.
        apply Hall'. apply filter_In in Hx. tauto. }
      change (filter p (r :: r' :: rest))
        with (if p r then r :: filter p (r' :: rest)
              else filter p (r' :: rest)).
      destruct (p r); [|reflexivity].
      symmetry. apply insert_row_first, Hf.
    + simpl. rewrite IH by exact Hs'.
      destruct (p r'), (p r); simpl; try rewrite E; reflexivity.
Qed.

(** Selecting rows commutes with sorting. *)
Lemma filter_sort_values (p : SurveillanceRecord -> bool) (df : DataFrame) :
  filter p (sort_values cmp df) = sort_values cmp (filter p df).
Proof.
  induction df as [|r rest IH]; simpl; [reflexivity|].
  rewrite filter_insert_row by apply sort_values_sorted.
  rewrite IH. destruct (p r); reflexivity.
Qed.

Lemma sort_values_NoDup_keys (df : DataFrame) :
  NoDup (map natural_key df) ->
  NoDup (map natural_key (sort_values cmp df)).
Proof.
  apply Permutation_NoDup, Permutation_map, sort_values_Permutation.
Qed.

End SortProperties.

(* ----------------------------------------------------------------- *)
(** ** What a merge writes *)

Lemma update_all_existing (flt : Faults) (new_df all_df : DataFrame)
  (covid : option DataFrame) :
  update_all flt new_df (mkStore (Some all_df) covid) =
  if all_write_fails flt then (None, mkStore (Some all_df) covid)
  else (Some new_df,
        mkStore (Some (sort_values cmp_date_name
                         (drop_duplicates (new_df ++ all_df)))) covid).
Proof.
  unfold update_all, bind, read_all_csv, write_all_csv, ret. simpl.
  destruct (all_write_fails flt); reflexivity.
Qed.

Lemma update_all_created (flt : Faults) (new_df : DataFrame)
  (covid : option DataFrame) :
  update_all flt new_df (mkStore None covid) =
  if all_write_fails flt then (None, mkStore None covid)
  else (Some (sort_values cmp_date_name new_df),
        mkStore (Some (sort_values cmp_date_name new_df)) covid).
Proof.
  unfold update_all, bind, read_all_csv, write_all_csv, ret. simpl.
  destruct (all_write_fails flt); reflexivity.
Qed.

(** Runs the statements of a function body, splitting on every test. *)
Ltac run_io :=
  unfold bind, read_all_csv, read_covid_csv, write_all_csv, write_covid_csv,
    covid_rows, ret;
  simpl;
  repeat (match goal with
          | |- context [match covid_csv ?s with _ => _ end] =>
              destruct (covid_csv s) eqn:?
          | |- context [match all_csv ?s with _ => _ end] =>
              destruct (all_csv s) eqn:?
          | |- context [if ?b then _ else _] => destruct b eqn:?
          end; simpl);
  try reflexivity.

(** The second half of a merge leaves the HistoricalTable alone. *)
Lemma merge_to_main_data_all_csv (flt : Faults) (new_df : DataFrame)
  (st : Store) :
  all_csv (snd (merge_to_main_data flt new_df st)) =
  all_csv (snd (update_all flt new_df st)).
Proof.
  unfold merge_to_main_data, merge_to_main_data_body, bind at 1.
  destruct (update_all flt new_df st) as [[df|] st1]; [|reflexivity].
  run_io.
Qed.

Lemma merge_csv_to_main_all_csv (flt : Faults) (new_df : DataFrame)
  (st : Store) :
  all_csv (snd (merge_csv_to_main flt new_df st)) =
  all_csv (snd (update_all flt new_df st)).
Proof.
  unfold merge_csv_to_main, bind at 1.
  destruct (update_all flt new_df st) as [[df|] st1]; [|reflexivity].
  run_io.
Qed.

Lemma merged_all_existing (new_df all_df : DataFrame)
  (covid : option DataFrame) :
  merged_all new_df (mkStore (Some all_df) covid) =
  Some (sort_values cmp_date_name (drop_duplicates (new_df ++ all_df))).
Proof.
  unfold merged_all. rewrite merge_to_main_data_all_csv, update_all_existing.
  reflexivity.
Qed.

Lemma merged_all_created (new_df : DataFrame) (covid : option DataFrame) :
  merged_all new_df (mkStore None covid) =
  Some (sort_values cmp_date_name new_df).
Proof.
  unfold merged_all. rewrite merge_to_main_data_all_csv, update_all_created.
  reflexivity.
Qed.

(** Both merge functions write the same HistoricalTable. *)
Lemma dag_merged_all_eq (new_df : DataFrame) (st : Store) :
  dag_merged_all new_df st = merged_all new_df st.
Proof.
  unfold dag_merged_all, merged_all.
  rewrite merge_csv_to_main_all_csv, merge_to_main_data_all_csv. reflexivity.
Qed.

Lemma merged_store_covid (new_df : DataFrame) (st : Store) :
  exists covid',
    snd (merge_to_main_data no_faults new_df st) =
    mkStore (merged_all new_df st) covid'.
Proof.
  exists (covid_csv (snd (merge_to_main_data no_faults new_df st))).
  unfold merged_all.
  destruct (snd (merge_to_main_data no_faults new_df st)). reflexivity.
Qed.

Lemma dag_merged_store_covid (new_df : DataFrame) (st : Store) :
  exists covid',
    snd (merge_csv_to_main no_faults new_df st) =
    mkStore (merged_all new_df st) covid'.
Proof.
  exists (covid_csv (snd (merge_csv_to_main no_faults new_df st))).
  rewrite <- dag_merged_all_eq. unfold dag_merged_all.
  destruct (snd (merge_csv_to_main no_faults new_df st)). reflexivity.
Qed.

(* ----------------------------------------------------------------- *)
(** ** New data wins *)

Lemma merged_rows_of_key (new_df all_df : DataFrame) (k : NaturalKey) :
  filter (has_key k)
    (sort_values cmp_date_name (drop_duplicates (new_df ++ all_df))) =
  match find (has_key k) (new_df ++ all_df) with
  | Some r => [r]
  | None => []
  end.
Proof.
  rewrite (filter_sort_values _ cmp_date_name_order), drop_duplicates_key.
  destruct (find (has_key k) (new_df ++ all_df)); reflexivity.
Qed.

Lemma find_app_l (p : SurveillanceRecord -> bool) (l1 l2 : DataFrame)
  (r : SurveillanceRecord) :
  find p l1 = Some r -> find p (l1 ++ l2) = Some r.
Proof.
  induction l1 as [|x l1 IH]; simpl; [discriminate|].
  destruct (p x); [trivial | exact IH].
Qed.

Lemma find_app_r (p : SurveillanceRecord -> bool) (l1 l2 : DataFrame) :
  (forall x, In x l1 -> p x = false) -> find p (l1 ++ l2) = find p l2.
Proof.
  induction l1 as [|x l1 IH]; simpl; intros H; [reflexivity|].
  rewrite (H x) by now left. apply IH. intros y Hy. apply H. now right.
Qed.

(** C1. When the batch holds a record with natural key [k], the updated
    HistoricalTable (written by either merge function over an existing
    table) holds exactly one record with key [k], and it is the batch's
    record (the first one of the batch with that key), whatever the
    existing table held under [k]. *)
Theorem merge_new_wins :
  forall (new_df all_df : DataFrame) (covid : option DataFrame)
         (k : NaturalKey) (r_new : SurveillanceRecord),
    find (has_key k) new_df = Some r_new ->
    exists merged,
      merged_all new_df (mkStore (Some all_df) covid) = Some merged
      /\ dag_merged_all new_df (mkStore (Some all_df) covid) = Some merged
      /\ filter (has_key k) merged = [r_new].
Proof.
  intros new_df all_df covid k r_new Hfind.
  exists (sort_values cmp_date_name (drop_duplicates (new_df ++ all_df))).
  rewrite dag_merged_all_eq, merged_all_existing.
  repeat split.
  rewrite merged_rows_of_key, (find_app_l _ _ _ _ Hfind). reflexivity.
Qed.

(** The scenario of the spec: history has ili_percent 5.0 under the key
    (2025-01-05, 2025-01-11, "新型冠状病毒"), the batch has 6.2. *)
Lemma merge_new_wins_witness :
  exists merged,
    merged_all [covid_new; flu_row] (mkStore (Some [rsv_row; covid_old]) None)
      = Some merged
    /\ dag_merged_all [covid_new; flu_row]
         (mkStore (Some [rsv_row; covid_old]) None) = Some merged
    /\ filter (has_key (natural_key covid_old)) merged = [covid_new].
Proof.
  apply (merge_new_wins [covid_new; flu_row] [rsv_row; covid_old] None
           (natural_key covid_old) covid_new).
  reflexivity.
Defined.

(* ----------------------------------------------------------------- *)
(** ** History outside the batch *)

(** C10, as stated, fails: a row of the existing table that repeats the
    key of an earlier row of that table is dropped although the batch does
    not hold its key.  Such a table is what the merge itself writes when it
    creates the file from a batch with a repeated key. *)
Lemma merge_drops_repeated_history_row :
  In covid_new [covid_old; covid_new]
  /\ (forall r, In r [flu_row] -> natural_key r <> natural_key covid_new)
  /\ exists merged,
       merged_all [flu_row] (mkStore (Some [covid_old; covid_new]) None)
         = Some merged
       /\ ~ In covid_new merged.
Proof.
  split; [right; left; reflexivity|]. split.
  - intros r [<- | []]. discriminate.
  - eexists. split; [vm_compute; reflexivity|].
    intros [H | [H | []]]; discriminate H.
Qed.

(** C10 (amended). Every record of the existing table that is the first
    of that table with its natural key, and whose key does not occur in the
    batch, is in the updated HistoricalTable, unchanged, as the only record
    of its key. *)
Theorem merge_keeps_history_outside_batch :
  forall (new_df all_df : DataFrame) (covid : option DataFrame)
         (r : SurveillanceRecord),
    find (has_key (natural_key r)) all_df = Some r ->
    (forall r', In r' new_df -> natural_key r' <> natural_key r) ->
    exists merged,
      merged_all new_df (mkStore (Some all_df) covid) = Some merged
      /\ dag_merged_all new_df (mkStore (Some all_df) covid) = Some merged
      /\ In r merged
      /\ filter (has_key (natural_key r)) merged = [r].
Proof.
  intros new_df all_df covid r Hfind Hnew.
  exists (sort_values cmp_date_name (drop_duplicates (new_df ++ all_df))).
  rewrite dag_merged_all_eq, merged_all_existing.
  assert (Hf : filter (has_key (natural_key r))
                 (sort_values cmp_date_name
                    (drop_duplicates (new_df ++ all_df))) = [r]).
  { rewrite merged_rows_of_key, find_app_r, Hfind; [reflexivity|].
    intros x Hx. apply key_eqb_neq, Hnew, Hx. }
  repeat split; [|exact Hf].
  assert (Hin : In r [r]) by now left.
  rewrite <- Hf in Hin. apply filter_In in Hin. tauto.
Qed.

Lemma merge_keeps_history_outside_batch_witness :
  exists merged,
    merged_all [covid_new; flu_row] (mkStore (Some [rsv_row; covid_old]) None)
      = Some merged
    /\ dag_merged_all [covid_new; flu_row]
         (mkStore (Some [rsv_row; covid_old]) None) = Some merged
    /\ In rsv_row merged
    /\ filter (has_key (natural_key rsv_row)) merged = [rsv_row].
Proof.
  apply (merge_keeps_history_outside_batch
           [covid_new; flu_row] [rsv_row; covid_old] None rsv_row).
  - reflexivity.
  - intros r' [<- | [<- | []]]; discriminate.
Defined.

(* ----------------------------------------------------------------- *)
(** ** Merging the same batch twice *)

Lemma filter_none (p : SurveillanceRecord -> bool) (df : DataFrame) :
  (forall r, In r df -> p r = false) -> filter p df = [].
Proof.
  induction df as [|r rest IH]; simpl; intros H; [reflexivity|].
  rewrite (H r) by now left. apply IH. intros x Hx. apply H. now right.
Qed.

Lemma filter_all (p : SurveillanceRecord -> bool) (df : DataFrame) :
  (forall r, In r df -> p r = true) -> filter p df = df.
Proof.
  induction df as [|r rest IH]; simpl; intros H; [reflexivity|].
  rewrite (H r) by now left. f_equal. apply IH. intros x Hx. apply H. now right.
Qed.

Lemma Permutation_filter (p : SurveillanceRecord -> bool)
  (df1 df2 : DataFrame) :
  Permutation df1 df2 -> Permutation (filter p df1) (filter p df2).
Proof.
  induction 1 as [|x l l' _ IH|x y l|l l' l'' _ IH1 _ IH2]; simpl.
  - apply perm_nil.
  - destruct (p x); [apply perm_skip|]; exact IH.
  - destruct (p x), (p y); try apply Permutation_refl. apply perm_swap.
  - eapply perm_trans; eassumption.
Qed.

(** The rows of [df2] that survive behind [df1]. *)
Lemma drop_duplicates_app (df1 df2 : DataFrame) :
  drop_duplicates (df1 ++ df2) =
  drop_duplicates df1 ++ drop_duplicates_from (map natural_key df1) df2.
Proof.
  unfold drop_duplicates. rewrite drop_duplicates_from_app, app_nil_r.
  reflexivity.
Qed.

Lemma drop_duplicates_rows_seen (df : DataFrame) (r : SurveillanceRecord) :
  In r (drop_duplicates df) ->
  key_seen (map natural_key df) (natural_key r) = true.
Proof.
  intros H. apply drop_duplicates_from_In in H. destruct H as [H _].
  apply key_seen_In, in_map, H.
Qed.

Lemma merge_twice_existing (new_df all_df : DataFrame) :
  sort_values cmp_date_name
    (drop_duplicates
       (new_df ++ sort_values cmp_date_name
                    (drop_duplicates (new_df ++ all_df)))) =
  sort_values cmp_date_name (drop_duplicates (new_df ++ all_df)).
Proof.
  set (seen := map natural_key new_df).
  set (unseen := fun r : SurveillanceRecord =>
                   negb (key_seen seen (natural_key r))).
  rewrite (drop_duplicates_app new_df
             (sort_values cmp_date_name
                (drop_duplicates (new_df ++ all_df)))).
  rewrite drop_duplicates_from_NoDup_filter
    by (apply sort_values_NoDup_keys, drop_duplicates_from_NoDup).
  fold seen. fold unseen.
  rewrite (filter_sort_values _ cmp_date_name_order).
  rewrite (drop_duplicates_app new_df all_df). fold seen.
  rewrite filter_app, filter_none, filter_all.
  - simpl. apply (sort_values_app_sorted _ cmp_date_name_order).
  - intros r Hr. apply drop_duplicates_from_In in Hr. destruct Hr as [_ Hr].
    unfold unseen. apply key_seen_not_In in Hr. rewrite Hr. reflexivity.
  - intros r Hr. unfold unseen, seen.
    rewrite (drop_duplicates_rows_seen _ _ Hr). reflexivity.
Qed.

Lemma merge_twice_created (new_df : DataFrame) :
  NoDup (map natural_key new_df) ->
  sort_values cmp_date_name
    (drop_duplicates (new_df ++ sort_values cmp_date_name new_df)) =
  sort_values cmp_date_name new_df.
Proof.
  intros Hnd.
  rewrite drop_duplicates_app, (drop_duplicates_NoDup_id _ Hnd).
  rewrite drop_duplicates_from_NoDup_filter
    by (apply sort_values_NoDup_keys, Hnd).
  rewrite filter_none; [rewrite app_nil_r; reflexivity|].
  intros r Hr. apply -> (sort_values_In cmp_date_name) in Hr.
  assert (Hs : key_seen (map natural_key new_df) (natural_key r) = true)
    by (apply key_seen_In, in_map, Hr).
  rewrite Hs. reflexivity.
Qed.




(* ----------------------------------------------------------------- *)
(** ** The sort invariant *)

Lemma StronglySorted_nth {A : Type} (R : A -> A -> Prop) (l : list A) :
  StronglySorted R l ->
  forall i j a b,
    (i < j)%nat -> nth_error l i = Some a -> nth_error l j = Some b -> R a b.
Proof.
  induction 1 as [|x l _ IH Hall]; intros i j a b Hij Hi Hj.
  - destruct i; discriminate.
  - destruct j as [|j]; [lia|]. simpl in Hj. destruct i as [|i].
    + simpl in Hi. injection Hi as <-.
      rewrite Forall_forall in Hall. apply Hall.
      eapply nth_error_In, Hj.
    + simpl in Hi. apply (IH i j); [lia | assumption | assumption].
Qed.

Lemma merged_all_rows (new_df : DataFrame) (st : Store)
  (merged : DataFrame) (r : SurveillanceRecord) :
  merged_all new_df st = Some merged ->
  In r merged ->
  In r new_df \/ exists all_df, all_csv st = Some all_df /\ In r all_df.
Proof.
  destruct st as [[all_df|] covid].
  - rewrite merged_all_existing. intros [= <-] Hin.
    apply -> (sort_values_In cmp_date_name) in Hin.
    apply drop_duplicates_from_In in Hin. destruct Hin as [Hin _].
    apply in_app_or in Hin. destruct Hin as [Hin | Hin]; [now left|].
    right. exists all_df. split; [reflexivity | exact Hin].
  - rewrite merged_all_created. intros [= <-] Hin.
    apply -> (sort_values_In cmp_date_name) in Hin. now left.
Qed.

Lemma merged_all_sorted (new_df : DataFrame) (st : Store) :
  exists merged,
    merged_all new_df st = Some merged
    /\ StronglySorted (fun a b => not_after cmp_date_name a b = true) merged.
Proof.
  destruct st as [[all_df|] covid].
  - rewrite merged_all_existing. eexists. split; [reflexivity|].
    apply (sort_values_sorted _ cmp_date_name_order).
  - rewrite merged_all_created. eexists. split; [reflexivity|].
    apply (sort_values_sorted _ cmp_date_name_order).
Qed.

Lemma well_dated_order (a b : SurveillanceRecord) :
  well_dated a -> well_dated b ->
  not_after cmp_date_name a b = true ->
  date_desc_nulls_last (reference_date a) (reference_date b)
  /\ (reference_date a = reference_date b ->
      name_asc (pathogen a) (pathogen b)).
Proof.
  unfold well_dated, not_after, cmp_date_name, sort_date.
  intros Ha Hb Hle. split.
  - destruct (reference_date a) as [x|] eqn:Ea,
             (reference_date b) as [y|] eqn:Eb; simpl; trivial.
    + destruct Ha as [Ha | Ha]; [discriminate|].
      destruct Hb as [Hb | Hb]; [discriminate|].
      destruct (to_datetime (Some x)) as [dx|]; [|congruence].
      destruct (to_datetime (Some y)) as [dy|]; [|congruence].
      exists dx, dy. repeat split. simpl in Hle.
      destruct (Z.compare_spec dy dx); try lia; discriminate.
    + destruct Hb as [Hb | Hb]; [discriminate|].
      simpl in Hle. destruct (to_datetime (Some y)); [discriminate|congruence].
  - intros Heq. rewrite Heq in Hle.
    pose proof (cmp_opp _ cmp_date_desc_order
                  (to_datetime (reference_date b))
                  (to_datetime (reference_date b))) as Hrefl.
    destruct (cmp_date_desc (to_datetime (reference_date b))
                (to_datetime (reference_date b))); try discriminate.
    unfold name_asc, cmp_name_asc in *.
    destruct (pathogen a) as [x|], (pathogen b) as [y|];
      try exact I; try discriminate Hle.
    unfold String.leb. destruct (String.compare x y);
      try reflexivity; discriminate Hle.
Qed.



(* ----------------------------------------------------------------- *)
(** ** The covid table *)

Lemma is_covid_of_key (r1 r2 : SurveillanceRecord) :
  natural_key r1 = natural_key r2 -> is_covid r1 = is_covid r2.
Proof.
  unfold natural_key, is_covid. intros H. injection H as _ _ ->. reflexivity.
Qed.

(** Selecting rows by a property of their key commutes with dropping
    duplicates. *)
Lemma filter_drop_duplicates_from (p : SurveillanceRecord -> bool)
  (df : DataFrame) :
  (forall r1 r2, natural_key r1 = natural_key r2 -> p r1 = p r2) ->
  forall seen,
    filter p (drop_duplicates_from seen df) =
    drop_duplicates_from seen (filter p df).
Proof.
  intros Hp. induction df as [|r rest IH]; intros seen; simpl; [reflexivity|].
  destruct (key_seen seen (natural_key r)) eqn:Hseen.
  - rewrite IH. destruct (p r); simpl; [rewrite Hseen|]; reflexivity.
  - simpl. destruct (p r) eqn:Hr; simpl.
    + rewrite Hseen, IH. reflexivity.
    + rewrite IH. apply drop_duplicates_from_ext_in. intros r' Hr'.
      rewrite key_seen_cons.
      destruct (key_eqb (natural_key r') (natural_key r)) eqn:E;
        [|reflexivity].
      apply key_eqb_eq, Hp in E. apply filter_In in Hr'.
      destruct Hr' as [_ Hr']. congruence.
Qed.

Lemma covid_rows_agree (new_df all_df covid_df : DataFrame) :
  NoDup (map natural_key covid_df) ->
  Permutation covid_df (filter is_covid all_df) ->
  Permutation (drop_duplicates (filter is_covid new_df ++ covid_df))
              (filter is_covid (drop_duplicates (new_df ++ all_df))).
Proof.
  intros Hnd Hperm. unfold drop_duplicates at 2.
  rewrite (filter_drop_duplicates_from _ _ is_covid_of_key), filter_app.
  fold (drop_duplicates (filter is_covid new_df ++ filter is_covid all_df)).
  rewrite !drop_duplicates_app. apply Permutation_app_head.
  rewrite !drop_duplicates_from_NoDup_filter.
  - apply Permutation_filter, Hperm.
  - eapply Permutation_NoDup; [|exact Hnd]. apply Permutation_map, Hperm.
  - exact Hnd.
Qed.

Lemma no_text_no_covid (df : DataFrame) :
  pathogen_is_text df = false -> filter is_covid df = [].
Proof.
  intros H. apply filter_none. intros r Hr.
  destruct df as [|r0 rest]; [destruct Hr|].
  unfold pathogen_is_text in H. unfold is_covid.
  destruct (pathogen r) as [name|] eqn:E; [|reflexivity].
  assert (Hex : existsb (fun r => is_some (pathogen r)) (r0 :: rest) = true).
  { apply existsb_exists. exists r. rewrite E. split; [exact Hr|reflexivity]. }
  congruence.
Qed.

Lemma merged_covid_existing (new_df all_df covid_df : DataFrame) :
  merged_covid new_df (mkStore (Some all_df) (Some covid_df)) =
  Some (if pathogen_is_text new_df
        then sort_values cmp_date_only
               (drop_duplicates (filter is_covid new_df ++ covid_df))
        else covid_df).
Proof.
  unfold merged_covid, merge_to_main_data, merge_to_main_data_body.
  unfold bind at 1. rewrite update_all_existing. simpl.
  unfold bind, covid_rows.
  destruct (pathogen_is_text new_df); reflexivity.
Qed.

Lemma dag_merged_covid_existing (new_df all_df covid_df : DataFrame) :
  dag_merged_covid new_df (mkStore (Some all_df) (Some covid_df)) =
  Some (if pathogen_is_text new_df
           && (0 <? List.length (filter is_covid new_df))%nat
        then sort_values cmp_date_only
               (drop_duplicates (filter is_covid new_df ++ covid_df))
        else covid_df).
Proof.
  unfold dag_merged_covid, merge_csv_to_main.
  unfold bind at 1. rewrite update_all_existing. simpl.
  unfold bind, covid_rows.
  destruct (pathogen_is_text new_df); [|reflexivity]. simpl.
  destruct (0 <? List.length (filter is_covid new_df))%nat; reflexivity.
Qed.




(* ----------------------------------------------------------------- *)
(** ** Failing writes *)




(* ----------------------------------------------------------------- *)
(** ** The latest week column *)

Lemma latest_step_col_week (keys : list string)
  (best_col : option string) (best_week : option Z) (c : string) :
  latest_step keys (best_col, best_week) c =
  match col_week keys c with
  | Some w =>
      match best_week with
      | None => (Some c, Some w)
      | Some bw => if bw <? w then (Some c, Some w) else (best_col, best_week)
      end
  | None =>
      if any_key_in keys c then
        match best_col with
        | None => (Some c, best_week)
        | Some _ => (best_col, best_week)
        end
      else (best_col, best_week)
  end.
Proof.
  unfold latest_step, col_week.
  destruct (any_key_in keys c); [|reflexivity].
  destruct (week_numbers c); reflexivity.
Qed.

Lemma latest_step_found (keys done : list string)
  (best : option string * option Z) (c : string) :
  latest_found keys done best ->
  latest_found keys (done ++ [c]) (latest_step keys best c).
Proof.
  destruct best as [best_col best_week]. rewrite latest_step_col_week.
  unfold latest_found. simpl.
  destruct best_week as [bw|].
  - intros [c0 [before [after [Hc0 [Hdone [Hw0 [Hbefore Hafter]]]]]]].
    destruct (col_week keys c) as [w|] eqn:Hw.
    + destruct (bw <? w) eqn:Hlt; simpl.
      * apply Z.ltb_lt in Hlt.
        exists c, done, []. repeat split; trivial.
        -- intros c' w' Hin Hw'. subst done.
           apply in_app_or in Hin. destruct Hin as [Hin | [<- | Hin]].
           ++ specialize (Hbefore _ _ Hin Hw'). lia.
           ++ rewrite Hw0 in Hw'. injection Hw' as <-. lia.
           ++ specialize (Hafter _ _ Hin Hw'). lia.
        -- intros c' w' [].
      * apply Z.ltb_ge in Hlt.
        exists c0, before, (after ++ [c]). repeat split; trivial.
        -- subst done. rewrite <- app_assoc. reflexivity.
        -- intros c' w' Hin Hw'.
           apply in_app_or in Hin. destruct Hin as [Hin | [<- | []]].
           ++ apply (Hafter _ _ Hin Hw').
           ++ rewrite Hw in Hw'. injection Hw' as <-. exact Hlt.
    + assert (Hsame : (if any_key_in keys c
                       then match best_col with
                            | Some _ => (best_col, Some bw)
                            | None => (Some c, Some bw)
                            end
                       else (best_col, Some bw)) = (best_col, Some bw)).
      { rewrite Hc0. destruct (any_key_in keys c); reflexivity. }
      rewrite Hsame. simpl.
      exists c0, before, (after ++ [c]). repeat split; trivial.
      * subst done. rewrite <- app_assoc. reflexivity.
      * intros c' w' Hin Hw'.
        apply in_app_or in Hin. destruct Hin as [Hin | [<- | []]].
        -- apply (Hafter _ _ Hin Hw').
        -- congruence.
  - intros Hnone.
    destruct (col_week keys c) as [w|] eqn:Hw; simpl.
    + exists c, done, []. repeat split; trivial.
      * intros c' w' Hin Hw'. rewrite (Hnone _ Hin) in Hw'. discriminate.
      * intros c' w' [].
    + assert (Hweek : snd (if any_key_in keys c
                           then match best_col with
                                | Some _ => (best_col, @None Z)
                                | None => (Some c, None)
                                end
                           else (best_col, None)) = None).
      { destruct (any_key_in keys c), best_col; reflexivity. }
      rewrite Hweek. intros c' Hin.
      apply in_app_or in Hin. destruct Hin as [Hin | [<- | []]].
      * apply Hnone, Hin.
      * exact Hw.
Qed.

Lemma fold_latest_found (keys cols : list string) :
  forall done best,
    latest_found keys done best ->
    latest_found keys (done ++ cols) (fold_left (latest_step keys) cols best).
Proof.
  induction cols as [|c cols IH]; intros done best Hfound; simpl.
  - rewrite app_nil_r. exact Hfound.
  - replace (done ++ c :: cols) with ((done ++ [c]) ++ cols)
      by (rewrite <- app_assoc; reflexivity).
    apply IH, latest_step_found, Hfound.
Qed.



Example pick_latest_col_week_22 :
  pick_latest_col ILI_KEYS two_week_header
  = (Some "门急诊流感样病例|第22周", Some 22).
Proof. vm_compute. reflexivity. Qed.

(* ----------------------------------------------------------------- *)
(** ** Selecting the table *)

Lemma score_table_rows (df : Table) :
  Z.min (Z.of_nat (List.length (rows df))) 10 <= score_table df.
Proof.
  unfold score_table.
  repeat match goal with
         | |- context [if ?b then _ else _] => destruct b
         | |- context [match rows df with _ => _ end] =>
             destruct (rows df) as [|? [|? ?]]
         end; simpl List.length; lia.
Qed.

Lemma score_table_nonneg (df : Table) : 0 <= score_table df.
Proof. pose proof (score_table_rows df). lia. Qed.

(** A table that scores zero has no row. *)
Lemma score_table_zero_rows (df : Table) :
  score_table df <= 0 -> rows df = [].
Proof.
  intros H. pose proof (score_table_rows df) as Hr.
  destruct (rows df) as [|r rest]; [reflexivity|].
  simpl List.length in Hr. lia.
Qed.

Lemma better_found (done : list Table) (best : option Table * Z)
  (df : Table) :
  best_found done best -> best_found (done ++ [df]) (better best df).
Proof.
  destruct best as [[b|] s]; unfold best_found, better; simpl.
  - intros [-> [before [after [-> [Hbefore Hafter]]]]].
    destruct (score_table b <? score_table df) eqn:Hlt; simpl.
    + apply Z.ltb_lt in Hlt. split; [reflexivity|].
      exists (before ++ b :: after), []. repeat split.
      * intros t Hin. apply in_app_or in Hin.
        destruct Hin as [Hin | [<- | Hin]].
        -- specialize (Hbefore _ Hin). lia.
        -- exact Hlt.
        -- specialize (Hafter _ Hin). lia.
      * intros t [].
    + apply Z.ltb_ge in Hlt. split; [reflexivity|].
      exists before, (after ++ [df]). repeat split.
      * rewrite <- app_assoc. reflexivity.
      * exact Hbefore.
      * intros t Hin. apply in_app_or in Hin.
        destruct Hin as [Hin | [<- | []]]; [apply Hafter, Hin | exact Hlt].
  - intros [-> ->]. pose proof (score_table_nonneg df) as Hs.
    destruct (-1 <? score_table df) eqn:Hlt; [|apply Z.ltb_ge in Hlt; lia].
    simpl. split; [reflexivity|].
    exists [], []. repeat split; intros t [].
Qed.

Lemma fold_better_found (candidates : list Table) :
  forall done best,
    best_found done best ->
    best_found (done ++ candidates) (fold_left better candidates best).
Proof.
  induction candidates as [|df rest IH]; intros done best Hfound; simpl.
  - rewrite app_nil_r. exact Hfound.
  - replace (done ++ df :: rest) with ((done ++ [df]) ++ rest)
      by (rewrite <- app_assoc; reflexivity).
    apply IH, better_found, Hfound.
Qed.

Lemma select_best_found (candidates : list Table) :
  best_found candidates (fold_left better candidates (None, -1)).
Proof.
  apply (fold_better_found candidates [] (None, -1)).
  split; reflexivity.
Qed.

Lemma select_best_first_highest (candidates : list Table) (best : Table) :
  select_best candidates = Some best ->
  exists before after,
    candidates = before ++ best :: after
    /\ (forall t, In t before -> score_table t < score_table best)
    /\ (forall t, In t after -> score_table t <= score_table best).
Proof.
  unfold select_best. pose proof (select_best_found candidates) as H.
  unfold best_found in H. intros E. rewrite E in H. apply H.
Qed.

Lemma select_best_none (candidates : list Table) :
  select_best candidates = None <-> candidates = [].
Proof.
  unfold select_best. pose proof (select_best_found candidates) as H.
  unfold best_found in H. split.
  - intros E. rewrite E in H. apply H.
  - intros ->. reflexivity.
Qed.

(** C6, as stated, fails: the loop starts from the score -1, so a
    candidate that scores zero is selected when no candidate scores
    higher.  [no_rows_table] scores zero and is the table picked. *)
Lemma zero_score_table_is_picked :
  (forall t, In t [no_rows_table] -> score_table t <= 0)
  /\ pick_table1 [no_rows_table] = Some no_rows_table.
Proof.
  split.
  - intros t [<- | []]. vm_compute. discriminate.
  - vm_compute. reflexivity.
Qed.

(** C6 (amended). Table selection yields no table only for a document
    without candidate tables.  Otherwise the candidate with the highest
    score is selected, the first one among equals, even when that score is
    zero; it is returned with its header normalized.  When every candidate
    scores zero the table selected has no row and the document
    contributes no record. *)
Theorem pick_table1_first_highest :
  forall (candidates : list Table),
    (pick_table1 candidates = None <-> candidates = [])
    /\ (forall best,
          select_best candidates = Some best ->
          pick_table1 candidates
            = Some (normalize_two_row_header_flexible best)
          /\ exists before after,
               candidates = before ++ best :: after
               /\ (forall t, In t before -> score_table t < score_table best)
               /\ (forall t, In t after -> score_table t <= score_table best))
    /\ ((forall t, In t candidates ->
           score_table t <= 0 /\ columns t <> []) ->
        process_one_rows candidates = Some []).
Proof.
  intros candidates. split; [|split].
  - destruct candidates as [|df rest]; [split; reflexivity|].
    split; [|discriminate]. unfold pick_table1.
    destruct (select_best (df :: rest)) as [b|] eqn:E; [discriminate|].
    apply select_best_none in E. discriminate.
  - intros best E. split.
    + unfold pick_table1. rewrite E.
      destruct candidates; [discriminate E|reflexivity].
    + apply select_best_first_highest, E.
  - intros Hzero. unfold process_one_rows, pick_table1.
    destruct candidates as [|df rest]; [reflexivity|].
    destruct (select_best (df :: rest)) as [best|] eqn:E; [|reflexivity].
    destruct (select_best_first_highest _ _ E) as [before [after [Hc _]]].
    assert (Hin : In best (df :: rest))
      by (rewrite Hc; apply in_or_app; right; left; reflexivity).
    destruct (Hzero _ Hin) as [Hscore Hcols].
    apply score_table_zero_rows in Hscore.
    simpl. unfold normalize_two_row_header_flexible. rewrite Hscore.
    unfold extract_latest_week_data, find_pathogen_col.
    destruct (find (any_key_in PATHOGEN_KEYS) (columns best)) as [c|].
    + destruct (pick_latest_col ILI_KEYS (columns best)).
      destruct (pick_latest_col SARI_KEYS (columns best)).
      rewrite Hscore. reflexivity.
    + destruct (columns best) as [|c cols]; [congruence|]. simpl hd_error.
      destruct (pick_latest_col ILI_KEYS (c :: cols)).
      destruct (pick_latest_col SARI_KEYS (c :: cols)).
      rewrite Hscore. reflexivity.
Qed.

(** A document whose only candidate scores zero. *)
Lemma pick_table1_first_highest_witness :
  process_one_rows [no_rows_table] = Some [].
Proof.
  destruct (pick_table1_first_highest [no_rows_table]) as [_ [_ H]].
  apply H. intros t [<- | []].
  split; [vm_compute; discriminate | discriminate].
Defined.

(* ----------------------------------------------------------------- *)
(** ** Numbers in cells *)

Lemma bytes_text_of (l : list ascii) : bytes (text_of l) = l.
Proof. apply list_ascii_of_string_of_list_ascii. Qed.

Lemma In_skipn_In {A : Type} (k : nat) (l : list A) (x : A) :
  In x (skipn k l) -> In x l.
Proof.
  revert l. induction k as [|k IH]; intros [|y l]; simpl; auto.
Qed.

Lemma In_rstrip (s : list ascii) (c : ascii) : In c (rstrip s) -> In c s.
Proof.
  induction s as [|d s IH]; [intros []|].
  intros H. change (rstrip (d :: s))
    with (if all_space (d :: s) then [] else d :: rstrip s) in H.
  destruct (all_space (d :: s)); [destruct H|].
  destruct H as [<- | H]; [now left | right; apply IH, H].
Qed.

Lemma In_strip (s : string) (c : ascii) :
  In c (bytes (strip s)) -> In c (bytes s).
Proof.
  unfold strip. rewrite bytes_text_of. intros H.
  apply In_rstrip in H. unfold lstrip in H. eapply In_skipn_In, H.
Qed.

Lemma In_replace_from (old new : list ascii) (s : list ascii) (c : ascii) :
  forall skip,
    In c (replace_from old new skip s) -> In c new \/ In c s.
Proof.
  induction s as [|d s IH]; intros skip; [intros []|].
  change (replace_from old new skip (d :: s))
    with (match skip with
          | S k => replace_from old new k s
          | O => if starts_with old (d :: s)
                 then new ++ replace_from old new (List.length old - 1) s
                 else d :: replace_from old new O s
          end).
  destruct skip as [|k].
  - destruct (starts_with old (d :: s)).
    + intros H. apply in_app_or in H. destruct H as [H | H]; [now left|].
      apply IH in H. simpl. tauto.
    + intros [<- | H]; [right; now left|]. apply IH in H. simpl. tauto.
  - intros H. apply IH in H. simpl. tauto.
Qed.

Lemma In_replace (old new s : string) (c : ascii) :
  In c (bytes (replace old new s)) -> In c (bytes new) \/ In c (bytes s).
Proof.
  unfold replace. rewrite bytes_text_of. apply In_replace_from.
Qed.

Lemma In_before_dot (s : list ascii) (c : ascii) :
  In c (before_dot s) -> In c s.
Proof.
  induction s as [|d s IH]; simpl; [tauto|].
  destruct (is_dot d); simpl; [tauto|]. intros [H | H]; auto.
Qed.

Lemma In_after_dot (s f : list ascii) (c : ascii) :
  after_dot s = Some f -> In c f -> In c s.
Proof.
  induction s as [|d s IH]; simpl; [discriminate|].
  destruct (is_dot d).
  - intros [= <-]. auto.
  - intros H Hin. right. apply IH; assumption.
Qed.

(** A text in which [float] finds a number holds a digit. *)
Lemma float_of_decimal_digit (s : list ascii) (q : Q) :
  float_of_decimal s = Some q -> exists c, In c s /\ is_digit c = true.
Proof.
  unfold float_of_decimal.
  destruct (after_dot s) as [f|] eqn:Ef.
  - destruct (forallb is_digit (before_dot s) && forallb is_digit f
              && (0 <? List.length (before_dot s ++ f))%nat) eqn:E;
      [|discriminate].
    intros _. apply andb_true_iff in E. destruct E as [E Hlen].
    apply andb_true_iff in E. destruct E as [Hip Hfp].
    rewrite forallb_forall in Hip, Hfp.
    destruct (before_dot s) as [|c ip] eqn:Eip.
    + destruct f as [|c f]; [discriminate Hlen|].
      exists c. split; [|apply Hfp; now left].
      eapply In_after_dot; [exact Ef | now left].
    + exists c. split; [|apply Hip; now left].
      apply In_before_dot. rewrite Eip. now left.
  - rewrite app_nil_r.
    destruct (forallb is_digit (before_dot s) && forallb is_digit []
              && (0 <? List.length (before_dot s))%nat) eqn:E;
      [|discriminate].
    intros _. apply andb_true_iff in E. destruct E as [E Hlen].
    apply andb_true_iff in E. destruct E as [Hip _].
    rewrite forallb_forall in Hip.
    destruct (before_dot s) as [|c ip] eqn:Eip; [discriminate Hlen|].
    exists c. split; [|apply Hip; now left].
    apply In_before_dot. rewrite Eip. now left.
Qed.

Lemma float_of_text_digit (s : list ascii) (q : Q) :
  float_of_text s = Some q -> exists c, In c s /\ is_digit c = true.
Proof.
  unfold float_of_text. intros H.
  assert (Hd : forall s' q', float_of_decimal s' = Some q' ->
                 (forall c, In c s' -> In c s) ->
                 exists c, In c s /\ is_digit c = true).
  { intros s' q' Hq Hsub. apply float_of_decimal_digit in Hq.
    destruct Hq as [c [Hin Hc]]. exists c. auto. }
  destruct s as [|c s']; [eapply Hd; eauto|].
  destruct (Ascii.eqb c "-") eqn:E.
  - apply Ascii.eqb_eq in E. subst c.
    destruct (float_of_decimal s') as [q'|] eqn:Eq; [|discriminate].
    eapply Hd; [exact Eq|]. intros c Hin. now right.
  - assert (H' : float_of_decimal (c :: s') = Some q).
    { destruct c as [[] [] [] [] [] [] [] []]; try exact H; discriminate E. }
    eapply Hd; eauto.
Qed.

(** No digit of a cell, no number: the cell flattens to null. *)
Lemma extract_numeric_no_digit (v : string) :
  (forall c, In c (bytes v) -> is_digit c = false) ->
  extract_numeric (Some (Some v)) = None.
Proof.
  intros Hv. unfold extract_numeric.
  set (t := keep_digits_dots _).
  assert (Ht : forall c, In c t -> is_digit c = false).
  { intros c Hin. unfold t, keep_digits_dots in Hin.
    apply filter_In in Hin. destruct Hin as [Hin _].
    apply In_strip in Hin.
    repeat (apply In_replace in Hin; destruct Hin as [[] | Hin]).
    apply Hv, Hin. }
  destruct (float_of_decimal t) as [q|] eqn:E.
  - apply float_of_decimal_digit in E. destruct E as [c [Hin Hc]].
    rewrite (Ht c Hin) in Hc. discriminate.
  - destruct t as [|c rest]; [reflexivity|].
    destruct c as [[] [] [] [] [] [] [] []]; destruct rest;
      try reflexivity; exact E.
Qed.

Lemma to_float_no_digit (v : string) :
  (forall c, In c (bytes v) -> is_digit c = false) ->
  to_float (Some (Some v)) = None.
Proof.
  intros Hv. unfold to_float.
  set (t := keep_digits_dots_minus _).
  assert (Ht : forall c, In c t -> is_digit c = false).
  { intros c Hin. unfold t, keep_digits_dots_minus in Hin.
    apply filter_In in Hin. destruct Hin as [Hin _].
    apply In_replace in Hin. destruct Hin as [[] | Hin].
    apply In_strip in Hin.
    apply In_replace in Hin. destruct Hin as [[<- | []] | Hin];
      [reflexivity|].
    repeat (apply In_replace in Hin; destruct Hin as [[] | Hin]).
    apply Hv, Hin. }
  destruct (float_of_text t) as [q|] eqn:E.
  - apply float_of_text_digit in E. destruct E as [c [Hin Hc]].
    rewrite (Ht c Hin) in Hc. discriminate.
  - destruct t as [|c rest]; [reflexivity|].
    destruct c as [[] [] [] [] [] [] [] []]; destruct rest;
      try reflexivity; exact E.
Qed.

(* ----------------------------------------------------------------- *)
(** ** Rows that are kept *)

Lemma in_list_In (s : string) (l : list string) :
  in_list s l = true <-> In s l.
Proof.
  unfold in_list. rewrite existsb_exists. split.
  - intros [x [Hin Heq]]. apply String.eqb_eq in Heq. subst. exact Hin.
  - intros Hin. exists s. split; [exact Hin | apply String.eqb_refl].
Qed.

Lemma parse_pathogen_data_rows (df : Table) (r : list cell) :
  In r (rows df) ->
  in_list "pathogen" (columns df) = true ->
  parse_pathogen_data df = flat_map (parse_pathogen_row df) (rows df).
Proof.
  intros Hr Hc. unfold parse_pathogen_data. rewrite Hc. simpl.
  destruct (rows df) as [|r0 rest]; [destruct Hr|].
  destruct (columns df); [discriminate Hc | reflexivity].
Qed.

(** [parse_pathogen_data] keeps a named row exactly when one of its two
    value cells is a number. *)
Lemma parse_pathogen_data_keeps (df : Table) (r : list cell) :
  In r (rows df) ->
  in_list "pathogen" (columns df) = true ->
  skipped_name (row_name df r "pathogen") = false ->
  forall ili sari,
    ili = (if in_list "ili_current" (columns df)
           then extract_numeric (row_get df r "ili_current") else None) ->
    sari = (if in_list "sari_current" (columns df)
            then extract_numeric (row_get df r "sari_current") else None) ->
    if is_some ili || is_some sari
    then In (mkFlatRow (row_name df r "pathogen") ili sari)
            (parse_pathogen_data df)
    else parse_pathogen_row df r = [].
Proof.
  intros Hr Hc Hname ili sari -> ->.
  rewrite (parse_pathogen_data_rows df r Hr Hc).
  match goal with
  | |- if ?b then _ else _ => destruct b eqn:E
  end.
  - apply in_flat_map. exists r. split; [exact Hr|].
    unfold parse_pathogen_row. rewrite Hname, E. now left.
  - unfold parse_pathogen_row. rewrite Hname, E. reflexivity.
Qed.

(** [extract_latest_week_data] keeps every named row. *)
Lemma extract_latest_week_data_keeps (df : Table) (r : list cell)
  (c_path : string) :
  find_pathogen_col (columns df) = Some c_path ->
  In r (rows df) ->
  is_empty (row_name df r c_path) = false ->
  in_list (row_name df r c_path) ["合计"; "总计"] = false ->
  exists rows_out max_week,
    extract_latest_week_data df = Some (rows_out, max_week)
    /\ In (mkFlatRow (row_name df r c_path)
             (picked_value df r (fst (pick_latest_col ILI_KEYS (columns df))))
             (picked_value df r (fst (pick_latest_col SARI_KEYS (columns df)))))
          rows_out.
Proof.
  intros Hc Hr Hne Hstop. unfold extract_latest_week_data. rewrite Hc.
  destruct (pick_latest_col ILI_KEYS (columns df)) as [c_ili w_ili].
  destruct (pick_latest_col SARI_KEYS (columns df)) as [c_sari w_sari].
  do 2 eexists. split; [reflexivity|].
  apply in_flat_map. exists r. split; [exact Hr|].
  unfold latest_week_row. rewrite Hne, Hstop. now left.
Qed.




(** The two rows of the spec's scenario, in one table of each extractor:
    "12.3%" gives 12.3, "-" gives null, and the row with a number is
    kept. *)
Example flatten_percent_and_dash :
  parse_pathogen_data (mkTable html_columns [percent_row; dash_row])
  = [mkFlatRow "新型冠状病毒" (Some (123 # 10)%Q) None]
  /\ option_map fst
       (extract_latest_week_data
          (mkTable ["病原体"; "门急诊|第22周"; "较上周"; "住院|第22周"; "较上周"]
                   [percent_row; dash_row]))
     = Some [mkFlatRow "新型冠状病毒" (Some (123 # 10)%Q) None;
             mkFlatRow "流感病毒" None None].
Proof. split; vm_compute; reflexivity. Qed.

Example zero_score_document_has_no_rows :
  process_one_rows [no_rows_table] = Some [].
Proof. vm_compute. reflexivity. Qed.

(* ----------------------------------------------------------------- *)
(** ** Searching a pattern *)

Lemma bytes_app (a b : string) : bytes (a ++ b)%string = bytes a ++ bytes b.
Proof.
  unfold bytes. induction a as [|c a IH]; simpl; [reflexivity|].
  rewrite IH. reflexivity.
Qed.

Lemma skipn_skipn_add {A : Type} (j k : nat) (l : list A) :
  skipn j (skipn k l) = skipn (k + j) l.
Proof.
  revert l. induction k as [|k IH]; intros l; simpl; [reflexivity|].
  destruct l as [|x l]; [destruct j; reflexivity | apply IH].
Qed.

Lemma lit_ways_suffix (l : string) (s : list ascii) (w : way) :
  In w (lit_ways l s) ->
  starts_with (bytes l) s = true /\ exists k, snd w = skipn k s.
Proof.
  unfold lit_ways. destruct (starts_with (bytes l) s); [|intros []].
  intros [<- | []]. split; [reflexivity|]. eexists. reflexivity.
Qed.

(** Every way an atom matches leaves a suffix of the text. *)
Lemma match_atom_suffix (a : atom) (s : list ascii) (w : way) :
  In w (match_atom a s) -> exists k, snd w = skipn k s.
Proof.
  destruct a as [l | lo hi | | alts space | l]; simpl.
  - intros H. apply lit_ways_suffix in H. tauto.
  - intros H. apply in_map_iff in H. destruct H as [k [<- _]].
    exists k. reflexivity.
  - intros H. apply in_map_iff in H. destruct H as [k [<- _]].
    exists k. reflexivity.
  - destruct (flat_map (fun l => lit_ways l s) alts) as [|w0 ws] eqn:E.
    + destruct space; [|intros []].
      destruct (space_width s) as [n|]; [|intros []].
      intros [<- | []]. exists n. reflexivity.
    + intros [<- | []].
      assert (Hin : In w0 (flat_map (fun l => lit_ways l s) alts))
        by (rewrite E; now left).
      apply in_flat_map in Hin. destruct Hin as [l [_ Hin]].
      apply lit_ways_suffix in Hin. tauto.
  - intros H. apply in_app_or in H. destruct H as [H | [<- | []]].
    + apply lit_ways_suffix in H. tauto.
    + exists O. reflexivity.
Qed.

(** A text matched by a pattern holds every literal of the pattern. *)
Lemma match_seq_literal (l : string) (p : pattern) :
  In (Lit l) p ->
  forall s w,
    In w (match_seq p s) ->
    exists k, starts_with (bytes l) (skipn k s) = true.
Proof.
  induction p as [|a p IH]; [intros []|].
  intros Hl s w Hw. simpl in Hw. apply in_flat_map in Hw.
  destruct Hw as [w1 [Hw1 Hw2]].
  apply in_map_iff in Hw2. destruct Hw2 as [w2 [_ Hw2]].
  destruct Hl as [-> | Hl].
  - simpl in Hw1. apply lit_ways_suffix in Hw1. exists O. tauto.
  - destruct (match_atom_suffix _ _ _ Hw1) as [k Hk].
    destruct (IH Hl _ _ Hw2) as [j Hj].
    exists (k + j)%nat. rewrite <- skipn_skipn_add, <- Hk. exact Hj.
Qed.

Lemma contains_at_skipn (p s : list ascii) (k : nat) :
  starts_with p (skipn k s) = true -> contains_at p s = true.
Proof.
  revert s. induction k as [|k IH]; intros s H.
  - destruct s; simpl in *; rewrite H; reflexivity.
  - destruct s as [|c s]; simpl in H.
    + simpl. rewrite H. reflexivity.
    + simpl. rewrite (IH _ H). apply orb_true_r.
Qed.

Lemma re_search_found (p : pattern) (s : list ascii) (w : way) :
  re_search p s = Some w -> exists k, In w (match_seq p (skipn k s)).
Proof.
  induction s as [|c s IH]; simpl; unfold re_match.
  - destruct (match_seq p []) as [|w0 ws] eqn:E; simpl; [discriminate|].
    intros [= <-]. exists O. simpl. rewrite E. now left.
  - destruct (match_seq p (c :: s)) as [|w0 ws] eqn:E; simpl.
    + intros H. destruct (IH H) as [k Hk]. exists (S k). exact Hk.
    + intros [= <-]. exists O. simpl. rewrite E. now left.
Qed.

(** A pattern with a literal that the text lacks has no match. *)
Lemma re_search_lacking_literal (l : string) (p : pattern) (s : list ascii) :
  In (Lit l) p ->
  contains_at (bytes l) s = false ->
  re_search p s = None.
Proof.
  intros Hl Hc. destruct (re_search p s) as [w|] eqn:E; [|reflexivity].
  destruct (re_search_found _ _ _ E) as [k Hk].
  destruct (match_seq_literal l p Hl _ _ Hk) as [j Hj].
  rewrite skipn_skipn_add in Hj. apply contains_at_skipn in Hj. congruence.
Qed.

Lemma down_to_In (hi lo k : nat) :
  In k (down_to hi lo) -> (lo <= k <= hi)%nat.
Proof.
  induction hi as [|hi IH]; simpl.
  - destruct (0 <? lo)%nat eqn:E; [intros []|].
    apply Nat.ltb_ge in E. intros [<- | []]. lia.
  - destruct (S hi <? lo)%nat eqn:E; [intros []|].
    apply Nat.ltb_ge in E. intros [<- | H]; [lia|].
    apply IH in H. lia.
Qed.

Lemma take_digits_length (n : nat) (s : list ascii) :
  (List.length (take_digits n s) <= n)%nat.
Proof.
  revert s. induction n as [|n IH]; intros [|c s]; simpl; try lia.
  destruct (is_digit c); simpl; [|lia]. specialize (IH s). lia.
Qed.

(** A match of four digits and a literal has the literal at offset 4. *)
Lemma match_seq_year_literal (l : string) (p : pattern) (s : list ascii)
  (w : way) :
  In w (match_seq (Digits 4 4 :: Lit l :: p) s) ->
  starts_with (bytes l) (skipn 4 s) = true.
Proof.
  intros Hw. cbn [match_seq match_atom] in Hw. apply in_flat_map in Hw.
  destruct Hw as [w1 [Hw1 Hw2]].
  apply in_map_iff in Hw1. destruct Hw1 as [k [<- Hk]].
  apply down_to_In in Hk. pose proof (take_digits_length 4 s) as Hlen.
  assert (k = 4%nat) by lia. subst k.
  apply in_map_iff in Hw2. destruct Hw2 as [w2 [_ Hw2]].
  cbn [snd] in Hw2. apply in_flat_map in Hw2.
  destruct Hw2 as [w3 [Hw3 _]].
  apply lit_ways_suffix in Hw3. tauto.
Qed.

(** A literal found across the end of [u] would hold the byte after
    [u]. *)
Lemma starts_with_app_cut (l u t : list ascii) (d : ascii) :
  (forall x, In x l -> x <> d) ->
  starts_with l (u ++ d :: t) = true -> starts_with l u = true.
Proof.
  revert u. induction l as [|x l IH]; intros u Hd H; [reflexivity|].
  destruct u as [|y u]; simpl in *.
  - apply andb_true_iff in H. destruct H as [H _].
    apply Ascii.eqb_eq in H. exfalso. apply (Hd x); auto.
  - apply andb_true_iff in H. destruct H as [Hxy H].
    rewrite Hxy. simpl. apply IH; auto.
Qed.

Lemma contains_at_cons_false (l : list ascii) (c : ascii) (s : list ascii) :
  contains_at l (c :: s) = false ->
  starts_with l (c :: s) = false /\ contains_at l s = false.
Proof. simpl. intros H. apply orb_false_iff in H. exact H. Qed.

(** Before the period string, and in its year, no week marker starts. *)
Lemma no_marker_before_period (pre rest : list ascii) :
  contains_at (bytes week_marker) pre = false ->
  forall k,
    (k < List.length pre + 4)%nat ->
    starts_with (bytes week_marker)
      (skipn k (pre ++ bytes period_2024_46 ++ rest)) = false.
Proof.
  induction pre as [|c pre IH]; intros Hpre k Hk.
  - do 4 (destruct k as [|k]; [reflexivity|]). simpl in Hk. lia.
  - apply contains_at_cons_false in Hpre. destruct Hpre as [Hhead Hpre].
    destruct k as [|k].
    + change (skipn 0 ((c :: pre) ++ bytes period_2024_46 ++ rest))
        with ((c :: pre) ++ bytes period_2024_46 ++ rest).
      destruct (starts_with (bytes week_marker)
                  ((c :: pre) ++ bytes period_2024_46 ++ rest)) eqn:E;
        [|reflexivity].
      change (bytes period_2024_46 ++ rest)
        with ("2"%char :: (bytes "024年第46周（11月11日-11月17日）" ++ rest)) in E.
      apply starts_with_app_cut in E; [congruence|].
      intros x Hx. vm_compute in Hx.
      repeat (destruct Hx as [<- | Hx]; [discriminate|]). destruct Hx.
    + simpl. apply IH; [exact Hpre | simpl in Hk; lia].
Qed.

(** The search for a week marker skips a text that holds none. *)
Lemma re_search_pattern5_skip (pre rest : list ascii) :
  contains_at (bytes week_marker) pre = false ->
  re_search pattern5 (pre ++ bytes period_2024_46 ++ rest)
  = re_search pattern5 (bytes period_2024_46 ++ rest).
Proof.
  induction pre as [|c pre IH]; intros Hpre; [reflexivity|].
  change (re_search pattern5 ((c :: pre) ++ bytes period_2024_46 ++ rest))
    with (match re_match pattern5
                  ((c :: pre) ++ bytes period_2024_46 ++ rest) with
          | Some w => Some w
          | None => re_search pattern5 (pre ++ bytes period_2024_46 ++ rest)
          end).
  assert (Hnone : re_match pattern5
                    ((c :: pre) ++ bytes period_2024_46 ++ rest) = None).
  { unfold re_match.
    destruct (match_seq pattern5
                ((c :: pre) ++ bytes period_2024_46 ++ rest))
      as [|w ws] eqn:E; [reflexivity|].
    assert (Hw : In w (match_seq pattern5
                         ((c :: pre) ++ bytes period_2024_46 ++ rest)))
      by (rewrite E; now left).
    apply match_seq_year_literal in Hw.
    assert (Hno : starts_with (bytes week_marker)
                    (skipn 4 ((c :: pre) ++ bytes period_2024_46 ++ rest))
                  = false)
      by (apply no_marker_before_period; [exact Hpre | simpl; lia]).
    unfold week_marker in Hno. congruence. }
  rewrite Hnone. apply IH.
  apply contains_at_cons_false in Hpre. tauto.
Qed.

(* ----------------------------------------------------------------- *)
(** ** The period of the spec's example *)

Lemma re_search_pattern5_period (rest : list ascii) :
  re_search pattern5 (bytes period_2024_46 ++ rest)
  = Some ([bytes "2024"; bytes "46"],
          bytes "（11月11日-11月17日）" ++ rest).
Proof. reflexivity. Qed.

(** C7, as stated, fails: the first week marker of the text decides, so
    a text that holds the period string after an earlier marker gets the
    dates of the earlier week.  The week is returned as the integer week
    number of the marker. *)
Lemma earlier_week_marker_wins :
  str_contains period_2024_46 earlier_week_text = true
  /\ extract_week_info_from_title earlier_week_text
     = (Some "2023-01-02", Some "2023-01-08", Some 1)
  /\ fst (fst (extract_week_info_from_title earlier_week_text))
     <> Some "2024-11-11".
Proof.
  split; [vm_compute; reflexivity|].
  split; [vm_compute; reflexivity|].
  vm_compute. discriminate.
Qed.

(** C7 (amended). For every text that holds the period string
    "2024年第46周（11月11日-11月17日）" with no week marker "年第" before it
    and no month sign U+2F49 anywhere, the resolver returns reference_date
    2024-11-11, target_end_date 2024-11-17 and the week number 46 (the
    integer, not a label "2024-46"), and every record produced from the
    document carries these three values. *)
Theorem period_of_week_46 :
  forall (pre post : string),
    str_contains week_marker pre = false ->
    str_contains kangxi_month (pre ++ period_2024_46 ++ post) = false ->
    extract_week_info_from_title (pre ++ period_2024_46 ++ post)
      = (Some "2024-11-11", Some "2024-11-17", Some 46)
    /\ forall tables r,
         In r (process_surveillance_file
                 (pre ++ period_2024_46 ++ post) tables) ->
         reference_date r = Some "2024-11-11"
         /\ target_end_date r = Some "2024-11-17"
         /\ report_week r = Some 46.
Proof.
  intros pre post Hpre Hmonth.
  assert (Hinfo : extract_week_info_from_title (pre ++ period_2024_46 ++ post)
                  = (Some "2024-11-11", Some "2024-11-17", Some 46)).
  { unfold extract_week_info_from_title.
    unfold str_contains in Hmonth, Hpre.
    set (s := bytes (pre ++ period_2024_46 ++ post)) in *.
    rewrite (re_search_lacking_literal kangxi_month pattern1 s)
      by (trivial; simpl; tauto).
    rewrite (re_search_lacking_literal kangxi_month pattern2 s)
      by (trivial; simpl; tauto).
    rewrite (re_search_lacking_literal kangxi_month pattern3 s)
      by (trivial; simpl; tauto).
    rewrite (re_search_lacking_literal kangxi_month pattern4 s)
      by (trivial; simpl; tauto).
    unfold s. rewrite !bytes_app.
    rewrite (re_search_pattern5_skip _ _ Hpre), re_search_pattern5_period.
    vm_compute. reflexivity. }
  split; [exact Hinfo|].
  intros tables r. unfold process_surveillance_file. rewrite Hinfo.
  intros Hin. apply in_flat_map in Hin. destruct Hin as [df [_ Hin]].
  apply in_map_iff in Hin. destruct Hin as [data [<- _]].
  repeat split.
Qed.

Lemma period_of_week_46_witness :
  extract_week_info_from_title
    ("截至2024年11月21日，" ++ period_2024_46 ++ "，全国哨点医院")
    = (Some "2024-11-11", Some "2024-11-17", Some 46)
  /\ forall tables r,
       In r (process_surveillance_file
               ("截至2024年11月21日，" ++ period_2024_46 ++ "，全国哨点医院")
               tables) ->
       reference_date r = Some "2024-11-11"
       /\ target_end_date r = Some "2024-11-17"
       /\ report_week r = Some 46.
Proof.
  apply (period_of_week_46 "截至2024年11月21日，" "，全国哨点医院").
  - vm_compute. reflexivity.
  - vm_compute. reflexivity.
Defined.

Example period_of_the_period_string :
  extract_week_info_from_title period_2024_46
  = (Some "2024-11-11", Some "2024-11-17", Some 46).
Proof. vm_compute. reflexivity. Qed.

(* ================================================================= *)
(** * Part III: further properties of the code *)
(* ================================================================= *)

(* ----------------------------------------------------------------- *)
(** ** More on the merge *)

Lemma drop_duplicates_from_split (df : DataFrame) :
  forall seen1 seen2,
    drop_duplicates_from (seen1 ++ seen2) df =
    filter (fun r => negb (key_seen seen1 (natural_key r)))
           (drop_duplicates_from seen2 df).
Proof.
  induction df as [|r rest IH]; intros seen1 seen2; simpl; [reflexivity|].
  rewrite key_seen_app.
  destruct (key_seen seen2 (natural_key r)) eqn:H2.
  - rewrite orb_true_r. apply IH.
  - rewrite orb_false_r.
    destruct (key_seen seen1 (natural_key r)) eqn:H1; simpl; rewrite H1; simpl.
    + rewrite <- IH. apply drop_duplicates_from_ext. intros k.
      rewrite !key_seen_app, key_seen_cons.
      destruct (key_eqb k (natural_key r)) eqn:E; [|reflexivity].
      apply key_eqb_eq in E. subst k. rewrite H1. reflexivity.
    + f_equal. rewrite <- IH. apply drop_duplicates_from_ext. intros k.
      rewrite key_seen_cons, !key_seen_app, key_seen_cons.
      destruct (key_eqb k (natural_key r)), (key_seen seen1 k); reflexivity.
Qed.

Lemma drop_duplicates_from_filter (df : DataFrame) (seen : list NaturalKey) :
  drop_duplicates_from seen df =
  filter (fun r => negb (key_seen seen (natural_key r))) (drop_duplicates df).
Proof.
  rewrite <- (app_nil_r seen) at 1. apply drop_duplicates_from_split.
Qed.

Lemma drop_duplicates_from_length (df : DataFrame) :
  forall seen,
    (List.length (drop_duplicates_from seen df) <= List.length df)%nat.
Proof.
  induction df as [|r rest IH]; intros seen; simpl; [lia|].
  destruct (key_seen seen (natural_key r)); simpl.
  - specialize (IH seen). lia.
  - specialize (IH (natural_key r :: seen)). lia.
Qed.

(** X1. Over an existing table, both merge functions write a
    HistoricalTable in which no natural key occurs twice, whatever
    duplicates the batch or the old table held. *)
Theorem merge_keys_distinct :
  forall (new_df all_df : DataFrame) (covid : option DataFrame),
    exists merged,
      merged_all new_df (mkStore (Some all_df) covid) = Some merged
      /\ dag_merged_all new_df (mkStore (Some all_df) covid) = Some merged
      /\ NoDup (map natural_key merged).
Proof.
  intros new_df all_df covid. eexists.
  rewrite dag_merged_all_eq, merged_all_existing.
  split; [reflexivity|]. split; [reflexivity|].
  apply sort_values_NoDup_keys, drop_duplicates_from_NoDup.
Qed.

(** X2. A merge loses no key of the batch and invents no row: every
    batch row has a batch row of its key in the HistoricalTable written,
    every row written comes from the batch or from the old table, and the
    table written has at most as many rows as the two together. *)
Theorem merge_covers_batch_from_inputs :
  forall (new_df : DataFrame) (st : Store),
    exists merged,
      merged_all new_df st = Some merged
      /\ dag_merged_all new_df st = Some merged
      /\ (forall r, In r new_df ->
            exists r', In r' merged /\ In r' new_df
                       /\ natural_key r' = natural_key r)
      /\ (forall r, In r merged ->
            In r new_df
            \/ exists all_df, all_csv st = Some all_df /\ In r all_df)
      /\ (List.length merged
          <= List.length new_df
             + match all_csv st with
               | Some all_df => List.length all_df
               | None => O
               end)%nat.
Proof.
  intros new_df st.
  destruct (merged_all_sorted new_df st) as [merged [Hm _]].
  exists merged. rewrite dag_merged_all_eq.
  split; [exact Hm|]. split; [exact Hm|]. split; [|split].
  - intros r Hr. destruct st as [[all_df|] covid].
    + rewrite merged_all_existing in Hm. injection Hm as <-.
      destruct (find (has_key (natural_key r)) new_df) as [r'|] eqn:Hf.
      * exists r'. apply find_some in Hf as Hf'. destruct Hf' as [Hin Hk].
        split; [|split; [exact Hin | apply key_eqb_eq, Hk]].
        assert (Hin' : In r' (filter (has_key (natural_key r))
                               (sort_values cmp_date_name
                                  (drop_duplicates (new_df ++ all_df))))).
        { rewrite merged_rows_of_key, (find_app_l _ _ _ _ Hf). now left. }
        apply filter_In in Hin'. tauto.
      * exfalso. apply (find_none _ _ Hf) in Hr.
        unfold has_key in Hr. rewrite key_eqb_refl in Hr. discriminate.
    + rewrite merged_all_created in Hm. injection Hm as <-.
      exists r. split; [apply sort_values_In, Hr | split; [exact Hr|reflexivity]].
  - intros r Hr. eapply merged_all_rows; eassumption.
  - destruct st as [[all_df|] covid]; simpl.
    + rewrite merged_all_existing in Hm. injection Hm as <-.
      rewrite <- (Permutation_length (sort_values_Permutation _ _)).
      pose proof (drop_duplicates_from_length (new_df ++ all_df) []) as Hl.
      rewrite length_app in Hl. exact Hl.
    + rewrite merged_all_created in Hm. injection Hm as <-.
      rewrite <- (Permutation_length (sort_values_Permutation _ _)). lia.
Qed.

Lemma merge_after_merge (new2 new1 all_df : DataFrame) :
  sort_values cmp_date_name
    (drop_duplicates
       (new2 ++ sort_values cmp_date_name
                  (drop_duplicates (new1 ++ all_df)))) =
  sort_values cmp_date_name (drop_duplicates (new2 ++ new1 ++ all_df)).
Proof.
  rewrite !(drop_duplicates_app new2).
  rewrite drop_duplicates_from_NoDup_filter
    by (apply sort_values_NoDup_keys, drop_duplicates_from_NoDup).
  rewrite (filter_sort_values _ cmp_date_name_order).
  rewrite (sort_values_app_sorted _ cmp_date_name_order).
  rewrite (drop_duplicates_from_filter (new1 ++ all_df)).
  reflexivity.
Qed.




(** X5. The covid file holds only covid rows as long as it did before:
    after a merge every row of it matches the pathogen pattern and comes
    from the batch or from the old covid file; the file is left missing
    only when it was missing and the batch has no covid row. *)
Theorem covid_table_stays_covid :
  forall (new_df : DataFrame) (st : Store),
    (forall covid_df r,
       covid_csv st = Some covid_df -> In r covid_df -> is_covid r = true) ->
    match merged_covid new_df st with
    | Some covid' =>
        forall r, In r covid' ->
          is_covid r = true
          /\ (In r new_df
              \/ exists covid_df, covid_csv st = Some covid_df /\ In r covid_df)
    | None => covid_csv st = None /\ filter is_covid new_df = []
    end.
Proof.
  intros new_df [all covid] Hcovid.
  assert (Hrows : forall df c r,
            (forall x, In x df <-> In x new_df) ->
            covid = Some c ->
            In r (sort_values cmp_date_only
                    (drop_duplicates (filter is_covid df ++ c))) ->
            is_covid r = true
            /\ (In r new_df
                \/ exists covid_df,
                     covid_csv (mkStore all covid) = Some covid_df
                     /\ In r covid_df)).
  { intros df c r Hdf -> Hin.
    apply -> (sort_values_In cmp_date_only) in Hin.
    apply drop_duplicates_from_In in Hin. destruct Hin as [Hin _].
    apply in_app_or in Hin. destruct Hin as [Hin | Hin].
    - apply filter_In in Hin. destruct Hin as [Hin Hc].
      split; [exact Hc | left; apply Hdf, Hin].
    - split; [apply (Hcovid c); [reflexivity | exact Hin]|].
      right. exists c. split; [reflexivity | exact Hin]. }
  assert (Hnew : forall df r,
            (forall x, In x df <-> In x new_df) ->
            In r (sort_values cmp_date_only (filter is_covid df)) ->
            is_covid r = true /\ In r new_df).
  { intros df r Hdf Hin.
    apply -> (sort_values_In cmp_date_only) in Hin.
    apply filter_In in Hin. destruct Hin as [Hin Hc].
    split; [exact Hc | apply Hdf, Hin]. }
  assert (Hsorted : forall x,
            In x (sort_values cmp_date_name new_df) <-> In x new_df)
    by (intros x; apply sort_values_In).
  assert (Hsame : forall x, In x new_df <-> In x new_df) by (intros; tauto).
  assert (Hfilter : filter is_covid (sort_values cmp_date_name new_df) = [] ->
                    filter is_covid new_df = []).
  { rewrite (filter_sort_values _ cmp_date_name_order).
    intros H. destruct (filter is_covid new_df); [reflexivity|].
    pose proof (Permutation_length
                  (sort_values_Permutation cmp_date_name (s :: l))) as Hl.
    rewrite H in Hl. discriminate Hl. }
  assert (Htext : pathogen_is_text (sort_values cmp_date_name new_df) = false ->
                  filter is_covid new_df = []).
  { intros H. apply Hfilter, no_text_no_covid, H. }
  unfold merged_covid, merge_to_main_data, merge_to_main_data_body.
  unfold bind at 1.
  destruct all as [all_df|];
    rewrite ?update_all_existing, ?update_all_created; simpl;
    unfold bind, covid_rows, read_covid_csv, write_covid_csv, ret; simpl.
  - destruct (pathogen_is_text new_df) eqn:Et; simpl.
    + destruct covid as [c|]; simpl.
      * intros r Hr. apply (Hrows new_df c r Hsame eq_refl Hr).
      * destruct (0 <? List.length (filter is_covid new_df))%nat eqn:El; simpl.
        -- intros r Hr. destruct (Hnew new_df r Hsame Hr). tauto.
        -- split; [reflexivity|]. apply Nat.ltb_ge in El.
           destruct (filter is_covid new_df); [reflexivity|simpl in El; lia].
    + destruct covid as [c|]; simpl.
      * intros r Hr. split; [apply (Hcovid c); [reflexivity|exact Hr]|].
        right. exists c. split; [reflexivity|exact Hr].
      * split; [reflexivity | apply no_text_no_covid, Et].
  - destruct (pathogen_is_text (sort_values cmp_date_name new_df)) eqn:Et;
      simpl.
    + destruct covid as [c|]; simpl.
      * intros r Hr.
        apply (Hrows (sort_values cmp_date_name new_df) c r Hsorted eq_refl Hr).
      * destruct (0 <? List.length
                         (filter is_covid (sort_values cmp_date_name new_df)))%nat
          eqn:El; simpl.
        -- intros r Hr.
           destruct (Hnew (sort_values cmp_date_name new_df) r Hsorted Hr).
           tauto.
        -- split; [reflexivity|]. apply Hfilter. apply Nat.ltb_ge in El.
           destruct (filter is_covid (sort_values cmp_date_name new_df));
             [reflexivity|simpl in El; lia].
    + destruct covid as [c|]; simpl.
      * intros r Hr. split; [apply (Hcovid c); [reflexivity|exact Hr]|].
        right. exists c. split; [reflexivity|exact Hr].
      * split; [reflexivity | apply Htext; reflexivity].
Qed.

Lemma covid_table_stays_covid_witness :
  match merged_covid [covid_new; flu_row]
          (mkStore (Some [rsv_row; covid_old]) (Some [covid_dec])) with
  | Some covid' =>
      forall r, In r covid' ->
        is_covid r = true
        /\ (In r [covid_new; flu_row]
            \/ exists covid_df,
                 covid_csv (mkStore (Some [rsv_row; covid_old])
                                    (Some [covid_dec])) = Some covid_df
                 /\ In r covid_df)
  | None =>
      covid_csv (mkStore (Some [rsv_row; covid_old]) (Some [covid_dec])) = None
      /\ filter is_covid [covid_new; flu_row] = []
  end.
Proof.
  apply (covid_table_stays_covid [covid_new; flu_row]
           (mkStore (Some [rsv_row; covid_old]) (Some [covid_dec]))).
  intros covid_df r [= <-] [<- | []]. reflexivity.
Defined.

(* ----------------------------------------------------------------- *)
(** ** The calendar *)

Lemma quot_rem (n d q r : Z) :
  0 <= r < d -> n = d * q + r -> n / d = q /\ n mod d = r.
Proof.
  intros Hr Hn. split.
  - symmetry. apply (Z.div_unique n d q r); [lia | exact Hn].
  - symmetry. apply (Z.mod_unique n d q r); [lia | exact Hn].
Qed.

(** A year in cycles of 400, 100 and 4 years. *)
Lemma year_split (y : Z) :
  1 <= y ->
  exists a b c e,
    y - 1 = 400 * a + 100 * b + 4 * c + e
    /\ 0 <= a /\ 0 <= b <= 3 /\ 0 <= c <= 24 /\ 0 <= e <= 3
    /\ days_before_year y = 146097 * a + 36524 * b + 1461 * c + 365 * e
    /\ is_leap y = (e =? 3) && (negb (c =? 24) || (b =? 3)).
Proof.
  intros Hy.
  exists ((y - 1) / 400), (((y - 1) mod 400) / 100),
         (((y - 1) mod 100) / 4), ((y - 1) mod 4).
  repeat split; try (Z.div_mod_to_equations; lia).
  - unfold days_before_year. cbv zeta. Z.div_mod_to_equations. lia.
  - unfold is_leap.
    assert (H4 : (y mod 4 =? 0) = ((y - 1) mod 4 =? 3)).
    { destruct (Z.eqb_spec (y mod 4) 0), (Z.eqb_spec ((y - 1) mod 4) 3);
        try reflexivity; exfalso; Z.div_mod_to_equations; lia. }
    rewrite H4.
    destruct (Z.eqb_spec ((y - 1) mod 4) 3) as [E4|E4]; [|reflexivity].
    simpl.
    assert (H100 : (y mod 100 =? 0) = (((y - 1) mod 100) / 4 =? 24)).
    { destruct (Z.eqb_spec (y mod 100) 0),
               (Z.eqb_spec (((y - 1) mod 100) / 4) 24);
        try reflexivity; exfalso; Z.div_mod_to_equations; lia. }
    rewrite H100.
    destruct (Z.eqb_spec (((y - 1) mod 100) / 4) 24) as [E100|E100];
      [|reflexivity].
    simpl.
    destruct (Z.eqb_spec (y mod 400) 0),
             (Z.eqb_spec (((y - 1) mod 400) / 100) 3);
      try reflexivity; exfalso; Z.div_mod_to_equations; lia.
Qed.

Ltac split_ltb :=
  repeat match goal with
         | |- context [?a <? ?b] => destruct (Z.ltb_spec a b); try lia
         end.

(** The lengths of the months and the days before each of them. *)
Lemma days_in_month_values (y : Z) (l : Z) :
  l = (if is_leap y then 1 else 0) ->
  days_in_month y 1 = 31 /\ days_in_month y 2 = 28 + l
  /\ days_in_month y 3 = 31 /\ days_in_month y 4 = 30
  /\ days_in_month y 5 = 31 /\ days_in_month y 6 = 30
  /\ days_in_month y 7 = 31 /\ days_in_month y 8 = 31
  /\ days_in_month y 9 = 30 /\ days_in_month y 10 = 31
  /\ days_in_month y 11 = 30 /\ days_in_month y 12 = 31.
Proof.
  intros ->. unfold days_in_month.
  destruct (is_leap y); repeat split; reflexivity.
Qed.

Lemma days_before_month_values (y : Z) (l : Z) :
  l = (if is_leap y then 1 else 0) ->
  days_before_month y 1 = 0 /\ days_before_month y 2 = 31
  /\ days_before_month y 3 = 59 + l /\ days_before_month y 4 = 90 + l
  /\ days_before_month y 5 = 120 + l /\ days_before_month y 6 = 151 + l
  /\ days_before_month y 7 = 181 + l /\ days_before_month y 8 = 212 + l
  /\ days_before_month y 9 = 243 + l /\ days_before_month y 10 = 273 + l
  /\ days_before_month y 11 = 304 + l /\ days_before_month y 12 = 334 + l.
Proof.
  intros ->. unfold days_before_month.
  destruct (is_leap y); repeat split; reflexivity.
Qed.

(** The day of the year back to its month and day. *)
Lemma month_of_day_days_before (y m d : Z) :
  1 <= m <= 12 -> 1 <= d <= days_in_month y m ->
  month_of_day y 11 1 (days_before_month y m + d - 1) = (m, d)
  /\ 0 <= days_before_month y m + d - 1
  /\ days_before_month y m + d - 1 <= 364 + (if is_leap y then 1 else 0).
Proof.
  intros Hm Hd.
  remember (if is_leap y then 1 else 0) as l eqn:Hl.
  assert (Hl01 : 0 <= l <= 1) by (destruct (is_leap y); lia).
  destruct (days_in_month_values y l Hl)
    as (I1 & I2 & I3 & I4 & I5 & I6 & I7 & I8 & I9 & I10 & I11 & I12).
  destruct (days_before_month_values y l Hl)
    as (B1 & B2 & B3 & B4 & B5 & B6 & B7 & B8 & B9 & B10 & B11 & B12).
  assert (Hc : m = 1 \/ m = 2 \/ m = 3 \/ m = 4 \/ m = 5 \/ m = 6 \/ m = 7
               \/ m = 8 \/ m = 9 \/ m = 10 \/ m = 11 \/ m = 12) by lia.
  clear Hm Hl.
  split; [|repeat (destruct Hc as [Hc | Hc]; [subst m|]); try subst m;
           rewrite ?I1, ?I2, ?I3, ?I4, ?I5, ?I6, ?I7, ?I8, ?I9, ?I10, ?I11,
             ?I12 in Hd;
           rewrite ?B1, ?B2, ?B3, ?B4, ?B5, ?B6, ?B7, ?B8, ?B9, ?B10, ?B11,
             ?B12; lia].
  cbn [month_of_day Z.add Pos.add Pos.succ Pos.add_carry].
  rewrite I1, I2, I3, I4, I5, I6, I7, I8, I9, I10, I11.
  repeat (destruct Hc as [Hc | Hc]; [subst m|]); try subst m.
  all: rewrite ?I1, ?I2, ?I3, ?I4, ?I5, ?I6, ?I7, ?I8, ?I9, ?I10, ?I11, ?I12
         in Hd.
  all: rewrite ?B1, ?B2, ?B3, ?B4, ?B5, ?B6, ?B7, ?B8, ?B9, ?B10, ?B11, ?B12.
  all: split_ltb; f_equal; lia.
Qed.

(** [ord2ymd] undoes [ymd2ord] on every date of the calendar. *)
Lemma ord2ymd_ymd2ord (y m d : Z) :
  1 <= y -> 1 <= m <= 12 -> 1 <= d <= days_in_month y m ->
  ord2ymd (ymd2ord y m d) = (y, m, d).
Proof.
  intros Hy Hm Hd.
  destruct (month_of_day_days_before y m d Hm Hd) as [Hmd [Hlo Hhi]].
  destruct (year_split y Hy)
    as [a [b [c [e [Hsplit [Ha [Hb [Hc [He [Hdays Hleap]]]]]]]]]].
  set (doy := days_before_month y m + d - 1) in *.
  unfold ord2ymd, ymd2ord. cbv zeta.
  replace (days_before_year y + days_before_month y m + d - 1)
    with (146097 * a + 36524 * b + 1461 * c + 365 * e + doy)
    by (unfold doy; lia).
  rewrite Hleap in Hhi.
  destruct (Z.eq_dec doy 365) as [E365 | N365].
  - (* the last day of a leap year *)
    assert (He3 : e = 3).
    { destruct (Z.eqb_spec e 3); [assumption | simpl in Hhi; lia]. }
    subst e.
    assert (Hlast : m = 12 /\ d = 31).
    { clear Hmd.
      destruct (days_in_month_values y _ eq_refl)
        as (I1 & I2 & I3 & I4 & I5 & I6 & I7 & I8 & I9 & I10 & I11 & I12).
      destruct (days_before_month_values y _ eq_refl)
        as (B1 & B2 & B3 & B4 & B5 & B6 & B7 & B8 & B9 & B10 & B11 & B12).
      assert (Hcase : m = 1 \/ m = 2 \/ m = 3 \/ m = 4 \/ m = 5 \/ m = 6
                      \/ m = 7 \/ m = 8 \/ m = 9 \/ m = 10 \/ m = 11
                      \/ m = 12) by lia.
      unfold doy in E365.
      repeat (destruct Hcase as [Hcase | Hcase]; [subst m|]); try subst m.
      all: rewrite ?I1, ?I2, ?I3, ?I4, ?I5, ?I6, ?I7, ?I8, ?I9, ?I10, ?I11,
             ?I12 in Hd.
      all: rewrite ?B1, ?B2, ?B3, ?B4, ?B5, ?B6, ?B7, ?B8, ?B9, ?B10, ?B11,
             ?B12 in E365.
      all: destruct (is_leap y); lia. }
    destruct Hlast as [-> ->].
    destruct (Z.eq_dec c 24) as [E24 | N24].
    + subst c.
      assert (Hb3 : b = 3).
      { destruct (Z.eqb_spec b 3); [assumption | simpl in Hhi; lia]. }
      subst b.
      destruct (quot_rem (146097 * a + 36524 * 3 + 1461 * 24 + 365 * 3 + doy)
                  146097 a 146096 ltac:(lia) ltac:(lia)) as [-> ->].
      change (146096 / 36524) with 4. change (146096 mod 36524) with 0.
      change (0 mod 1461) with 0. change (0 / 1461) with 0.
      change (0 / 365) with 0.
      simpl. f_equal. f_equal. lia.
    + destruct (quot_rem (146097 * a + 36524 * b + 1461 * c + 365 * 3 + doy)
                  146097 a (36524 * b + 1461 * c + 1460)
                  ltac:(lia) ltac:(lia)) as [-> ->].
      destruct (quot_rem (36524 * b + 1461 * c + 1460) 36524 b
                  (1461 * c + 1460) ltac:(lia) ltac:(lia)) as [-> ->].
      destruct (quot_rem (1461 * c + 1460) 1461 c 1460
                  ltac:(lia) ltac:(lia)) as [-> ->].
      change (1460 / 365) with 4. simpl.
      f_equal. f_equal. lia.
  - assert (Hdoy : doy <= 364).
    { destruct ((e =? 3) && (negb (c =? 24) || (b =? 3))); lia. }
    destruct (quot_rem (146097 * a + 36524 * b + 1461 * c + 365 * e + doy)
                146097 a (36524 * b + 1461 * c + 365 * e + doy)
                ltac:(lia) ltac:(lia)) as [-> ->].
    destruct (quot_rem (36524 * b + 1461 * c + 365 * e + doy) 36524 b
                (1461 * c + 365 * e + doy) ltac:(lia) ltac:(lia)) as [-> ->].
    destruct (quot_rem (1461 * c + 365 * e + doy) 1461 c (365 * e + doy)
                ltac:(lia) ltac:(lia)) as [-> ->].
    destruct (quot_rem (365 * e + doy) 365 e doy ltac:(lia) ltac:(lia))
      as [-> ->].
    assert (E1 : (e =? 4) = false) by (apply Z.eqb_neq; lia).
    assert (E2 : (b =? 4) = false) by (apply Z.eqb_neq; lia).
    rewrite E1, E2. simpl orb. cbv iota.
    replace (a * 400 + 1 + b * 100 + c * 4 + e) with y by lia.
    rewrite Hmd. reflexivity.
Qed.

(* ----------------------------------------------------------------- *)
(** ** Printing a date that was parsed *)

Lemma is_digit_chars (c : ascii) : is_digit c = true -> In c digit_chars.
Proof.
  intros H.
  destruct c as [[] [] [] [] [] [] [] []]; vm_compute in H;
    try discriminate H; cbv [digit_chars In]; auto 12.
Qed.

Lemma prints_four_digits_all :
  forallb (fun a => forallb (fun b => forallb (fun c =>
    forallb (fun d => prints_four_digits a b c d) digit_chars)
    digit_chars) digit_chars) digit_chars = true.
Proof. vm_compute. reflexivity. Qed.

Lemma prints_two_digits_all :
  forallb (fun a => forallb (fun b => prints_two_digits a b) digit_chars)
          digit_chars = true.
Proof. vm_compute. reflexivity. Qed.

Lemma text_of_inj (l1 l2 : list ascii) : text_of l1 = text_of l2 -> l1 = l2.
Proof.
  intros H. rewrite <- (bytes_text_of l1), <- (bytes_text_of l2), H.
  reflexivity.
Qed.

(** [str] prints four digits that [int] read, from 1000 on. *)
Lemma str_of_Z_four_digits (a b c d : ascii) :
  forallb is_digit [a; b; c; d] = true ->
  1000 <= int_of_digits [a; b; c; d] ->
  str_of_Z (int_of_digits [a; b; c; d]) = [a; b; c; d].
Proof.
  intros Hdig Hge. simpl in Hdig.
  repeat (apply andb_prop in Hdig; destruct Hdig as [?H Hdig]).
  pose proof prints_four_digits_all as Hall.
  rewrite forallb_forall in Hall.
  specialize (Hall a (is_digit_chars a ltac:(assumption))).
  rewrite forallb_forall in Hall.
  specialize (Hall b (is_digit_chars b ltac:(assumption))).
  rewrite forallb_forall in Hall.
  specialize (Hall c (is_digit_chars c ltac:(assumption))).
  rewrite forallb_forall in Hall.
  specialize (Hall d (is_digit_chars d ltac:(assumption))).
  unfold prints_four_digits in Hall.
  apply Z.leb_le in Hge. rewrite Hge in Hall. simpl implb in Hall.
  apply String.eqb_eq in Hall. apply text_of_inj, Hall.
Qed.

(** [:02d] prints two digits that [int] read. *)
Lemma pad2_two_digits (a b : ascii) :
  forallb is_digit [a; b] = true ->
  pad2 (int_of_digits [a; b]) = [a; b].
Proof.
  intros Hdig. simpl in Hdig.
  repeat (apply andb_prop in Hdig; destruct Hdig as [?H Hdig]).
  pose proof prints_two_digits_all as Hall.
  rewrite forallb_forall in Hall.
  specialize (Hall a (is_digit_chars a ltac:(assumption))).
  rewrite forallb_forall in Hall.
  specialize (Hall b (is_digit_chars b ltac:(assumption))).
  unfold prints_two_digits in Hall.
  apply String.eqb_eq in Hall. apply text_of_inj, Hall.
Qed.

Lemma valid_ymd_bounds (y m d : Z) :
  valid_ymd y m d = true ->
  1 <= y /\ 1 <= m <= 12 /\ 1 <= d <= days_in_month y m.
Proof.
  unfold valid_ymd. intros H.
  repeat (apply andb_prop in H; destruct H as [H ?H]).
  repeat match goal with
         | H : (_ <=? _) = true |- _ => apply Z.leb_le in H
         end.
  lia.
Qed.

(** A day before the year 1000 is before the first [Timestamp]. *)
Lemma ymd2ord_small (y m d : Z) :
  1 <= y < 1000 -> 1 <= m <= 12 -> 1 <= d <= days_in_month y m ->
  ymd2ord y m d < ymd2ord 1677 9 22.
Proof.
  intros Hy Hm Hd.
  destruct (month_of_day_days_before y m d Hm Hd) as [_ [_ Hhi]].
  assert (Hl : (if is_leap y then 1 else 0) <= 1)
    by (destruct (is_leap y); lia).
  change (ymd2ord 1677 9 22) with 612412.
  unfold ymd2ord.
  assert (Hby : days_before_year y <= 366 * 999).
  { unfold days_before_year. cbv zeta. Z.div_mod_to_equations. lia. }
  lia.
Qed.

(** What [to_datetime] parsed, [strftime] prints back as it was. *)
Lemma strftime_to_datetime (s : string) (o : Z) :
  to_datetime (Some s) = Some o -> strftime_ymd o = s.
Proof.
  unfold to_datetime. intros H.
  destruct (list_ascii_of_string s)
    as [|y1 [|y2 [|y3 [|y4 [|s1 [|m1 [|m2 [|s2 [|d1 [|d2 [|? ?]]]]]]]]]]]
    eqn:Hs; try discriminate H.
  destruct (forallb is_digit [y1; y2; y3; y4; m1; m2; d1; d2]
            && Ascii.eqb s1 "-" && Ascii.eqb s2 "-") eqn:Hshape;
    [|discriminate H].
  cbv zeta in H.
  destruct (valid_ymd (int_of_digits [y1; y2; y3; y4])
              (int_of_digits [m1; m2]) (int_of_digits [d1; d2])
            && (ymd2ord 1677 9 22 <=?
                ymd2ord (int_of_digits [y1; y2; y3; y4])
                  (int_of_digits [m1; m2]) (int_of_digits [d1; d2]))
            && (ymd2ord (int_of_digits [y1; y2; y3; y4])
                  (int_of_digits [m1; m2]) (int_of_digits [d1; d2]) <=?
                ymd2ord 2262 4 11)) eqn:Hv; [|discriminate H].
  injection H as <-.
  apply andb_prop in Hv. destruct Hv as [Hv _].
  apply andb_prop in Hv. destruct Hv as [Hv Hlo].
  apply Z.leb_le in Hlo.
  destruct (valid_ymd_bounds _ _ _ Hv) as [Hy [Hm Hd]].
  apply andb_prop in Hshape. destruct Hshape as [Hshape E2].
  apply andb_prop in Hshape. destruct Hshape as [Hdig E1].
  apply Ascii.eqb_eq in E1, E2. subst s1 s2.
  simpl in Hdig.
  repeat (apply andb_prop in Hdig; destruct Hdig as [?D Hdig]).
  unfold strftime_ymd. rewrite ord2ymd_ymd2ord by assumption.
  unfold format_ymd.
  rewrite str_of_Z_four_digits, !pad2_two_digits;
    try (simpl; rewrite ?D, ?D0, ?D1, ?D2, ?D3, ?D4, ?D5, ?D6; reflexivity).
  - rewrite <- (string_of_list_ascii_of_string s), Hs. reflexivity.
  - destruct (Z_lt_le_dec (int_of_digits [y1; y2; y3; y4]) 1000) as [Hlt|Hge];
      [|exact Hge].
    pose proof (ymd2ord_small _ _ _ (conj Hy Hlt) Hm Hd). lia.
Qed.

(* ----------------------------------------------------------------- *)
(** ** The CSV of one document *)

Lemma normalize_date_parsed (s : string) (o : Z) :
  to_datetime (Some s) = Some o -> normalize_date (Some s) = Some s.
Proof.
  intros E. unfold normalize_date. rewrite E. simpl.
  rewrite (strftime_to_datetime s o E). reflexivity.
Qed.

Lemma normalize_date_fixed (c : option string) :
  to_datetime (normalize_date c) = to_datetime c.
Proof.
  destruct c as [s|]; [|reflexivity].
  destruct (to_datetime (Some s)) as [o|] eqn:E.
  - rewrite (normalize_date_parsed s o E). exact E.
  - unfold normalize_date. rewrite E. reflexivity.
Qed.

Lemma sort_date_normalize_row (r : SurveillanceRecord) :
  sort_date (normalize_row r) = sort_date r.
Proof.
  unfold sort_date, normalize_row, with_reference_date. simpl.
  apply normalize_date_fixed.
Qed.

Lemma cmp_date_name_normalize_row (a b : SurveillanceRecord) :
  cmp_date_name (normalize_row a) (normalize_row b) = cmp_date_name a b.
Proof.
  unfold cmp_date_name. rewrite !sort_date_normalize_row. reflexivity.
Qed.

Lemma well_dated_normalize_row (r : SurveillanceRecord) :
  well_dated (normalize_row r).
Proof.
  unfold well_dated. rewrite sort_date_normalize_row.
  unfold normalize_row, with_reference_date, normalize_date, sort_date.
  simpl. destruct (to_datetime (reference_date r)); simpl.
  - right. discriminate.
  - left. reflexivity.
Qed.

Lemma normalize_rows_sorted (df : DataFrame) :
  StronglySorted (fun a b => not_after cmp_date_name a b = true) df ->
  StronglySorted (fun a b => not_after cmp_date_name a b = true)
                 (map normalize_row df).
Proof.
  induction 1 as [|r rest Hs IH Hall]; simpl; constructor.
  - exact IH.
  - rewrite Forall_forall in *. intros x Hx.
    apply in_map_iff in Hx. destruct Hx as [x0 [<- Hx0]].
    unfold not_after. rewrite cmp_date_name_normalize_row.
    apply (Hall x0 Hx0).
Qed.

(** The first row of a sorted table carries the latest date. *)
Lemma sorted_head_latest (r0 : SurveillanceRecord) (rest : DataFrame) :
  StronglySorted (fun a b => not_after cmp_date_name a b = true)
                 (r0 :: rest) ->
  forall r o, In r (r0 :: rest) -> sort_date r = Some o ->
              exists o0, sort_date r0 = Some o0 /\ o <= o0.
Proof.
  intros Hs r o Hin Ho. inversion Hs as [|? ? _ Hall]; subst.
  destruct Hin as [<- | Hin].
  - exists o. split; [exact Ho | lia].
  - rewrite Forall_forall in Hall. specialize (Hall r Hin).
    unfold not_after, cmp_date_name in Hall. rewrite Ho in Hall.
    destruct (sort_date r0) as [o0|]; simpl in Hall; [|discriminate].
    exists o0. split; [reflexivity|].
    destruct (Z.compare_spec o o0); lia || discriminate.
Qed.





(* ----------------------------------------------------------------- *)
(** ** Sorted lists of links *)

Section SortBy.
Variable le : string -> string -> bool.
Hypothesis le_total : forall a b, le a b = false -> le b a = true.
Hypothesis le_trans : forall a b c, le a b = true -> le b c = true ->
                                    le a c = true.

Lemma insert_sorted_Permutation (x : string) (l : list string) :
  Permutation (x :: l) (insert_sorted le x l).
Proof.
  induction l as [|y rest IH]; simpl; [apply Permutation_refl|].
  destruct (le x y); [apply Permutation_refl|].
  eapply perm_trans; [apply perm_swap|]. apply perm_skip, IH.
Qed.

Lemma sort_by_Permutation (l : list string) : Permutation l (sort_by le l).
Proof.
  induction l as [|x rest IH]; simpl; [apply perm_nil|].
  eapply perm_trans; [apply perm_skip, IH|]. apply insert_sorted_Permutation.
Qed.

Lemma sort_by_In (l : list string) (x : string) :
  In x (sort_by le l) <-> In x l.
Proof.
  split; apply Permutation_in.
  - apply Permutation_sym, sort_by_Permutation.
  - apply sort_by_Permutation.
Qed.

Lemma insert_sorted_sorted (x : string) (l : list string) :
  StronglySorted (fun a b => le a b = true) l ->
  StronglySorted (fun a b => le a b = true) (insert_sorted le x l).
Proof.
  induction 1 as [|y rest Hs IH Hall]; simpl.
  - constructor; constructor.
  - destruct (le x y) eqn:E.
    + constructor; [constructor; assumption|].
      constructor; [exact E|].
      rewrite Forall_forall in *. intros z Hz.
      apply (le_trans x y z E (Hall z Hz)).
    + constructor; [exact IH|].
      rewrite Forall_forall in *. intros z Hz.
      apply (Permutation_in _ (Permutation_sym
               (insert_sorted_Permutation x rest))) in Hz.
      destruct Hz as [<- | Hz]; [apply le_total, E | apply Hall, Hz].
Qed.

Lemma sort_by_sorted (l : list string) :
  StronglySorted (fun a b => le a b = true) (sort_by le l).
Proof.
  induction l as [|x rest IH]; simpl.
  - constructor.
  - apply insert_sorted_sorted, IH.
Qed.
End SortBy.

Lemma str_le_total (a b : string) : str_le a b = false -> str_le b a = true.
Proof.
  unfold str_le. rewrite (String.compare_antisym a b).
  destruct (String.compare b a); simpl; congruence.
Qed.

Lemma str_compare_refl (c : string) : String.compare c c = Eq.
Proof.
  pose proof (String.compare_antisym c c) as H.
  destruct (String.compare c c); simpl in H; congruence.
Qed.

Lemma str_le_trans (a b c : string) :
  str_le a b = true -> str_le b c = true -> str_le a c = true.
Proof.
  unfold str_le. intros Hab Hbc.
  destruct (String.compare a b) eqn:E1; try discriminate;
    destruct (String.compare b c) eqn:E2; try discriminate.
  - apply String.compare_eq_iff in E1, E2. subst.
    rewrite str_compare_refl. reflexivity.
  - apply String.compare_eq_iff in E1. subst. rewrite E2. reflexivity.
  - apply String.compare_eq_iff in E2. subst. rewrite E1. reflexivity.
  - apply OrderedTypeEx.String_as_OT.cmp_lt in E1, E2.
    assert (H : String.compare a c = Lt).
    { apply OrderedTypeEx.String_as_OT.cmp_lt.
      eapply OrderedTypeEx.String_as_OT.lt_trans; eassumption. }
    rewrite H. reflexivity.
Qed.

Lemma str_ge_total (a b : string) : str_ge a b = false -> str_ge b a = true.
Proof. unfold str_ge. apply str_le_total. Qed.

Lemma str_ge_trans (a b c : string) :
  str_ge a b = true -> str_ge b c = true -> str_ge a c = true.
Proof. unfold str_ge. intros H1 H2. exact (str_le_trans c b a H2 H1). Qed.

Lemma in_list_true_In (x : string) (l : list string) :
  in_list x l = true <-> In x l.
Proof.
  unfold in_list. rewrite existsb_exists. split.
  - intros [y [Hy E]]. apply String.eqb_eq in E. subst. exact Hy.
  - intros H. exists x. split; [exact H | apply String.eqb_refl].
Qed.

Lemma in_list_not_In (x : string) (l : list string) :
  in_list x l = false <-> ~ In x l.
Proof.
  rewrite <- in_list_true_In. destruct (in_list x l); split; congruence.
Qed.

Lemma distinct_In (l : list string) (x : string) :
  In x (distinct l) <-> In x l.
Proof.
  induction l as [|y rest IH]; simpl; [tauto|].
  destruct (in_list y rest) eqn:E; simpl; rewrite IH.
  - apply in_list_true_In in E. split; [tauto|].
    intros [<- | H]; assumption.
  - tauto.
Qed.

Lemma distinct_NoDup (l : list string) : NoDup (distinct l).
Proof.
  induction l as [|y rest IH]; simpl; [constructor|].
  destruct (in_list y rest) eqn:E; [exact IH|].
  constructor; [|exact IH].
  rewrite distinct_In. apply in_list_not_In, E.
Qed.

(** A sorted list without repetition ascends strictly. *)
Lemma sorted_NoDup_strict (l : list string) :
  StronglySorted (fun a b => str_le a b = true) l -> NoDup l ->
  StronglySorted (fun a b => String.compare a b = Lt) l.
Proof.
  induction 1 as [|x rest Hs IH Hall]; intros Hnd; constructor.
  - apply IH. inversion Hnd; assumption.
  - inversion Hnd as [|? ? Hnotin _]; subst.
    rewrite Forall_forall in *. intros y Hy.
    specialize (Hall y Hy). unfold str_le in Hall.
    destruct (String.compare x y) eqn:E; try discriminate; [|reflexivity].
    apply String.compare_eq_iff in E. subst. contradiction.
Qed.

Lemma sorted_set_In (l : list string) (x : string) :
  In x (sorted_set l) <-> In x l.
Proof. unfold sorted_set. rewrite sort_by_In. apply distinct_In. Qed.

Lemma sorted_set_strict (l : list string) :
  StronglySorted (fun a b => String.compare a b = Lt) (sorted_set l).
Proof.
  apply sorted_NoDup_strict.
  - apply sort_by_sorted; [exact str_le_total | exact str_le_trans].
  - eapply Permutation_NoDup; [apply sort_by_Permutation|].
    apply distinct_NoDup.
Qed.

(* ----------------------------------------------------------------- *)
(** ** Lines of a text file *)

Lemma lines_from_line (line : list ascii) (cur rest : list ascii) :
  forallb (fun c => negb (is_break c)) line = true ->
  lines_from cur (line ++ LF :: rest)
  = text_of (rev cur ++ line) :: lines_from [] rest.
Proof.
  revert cur. induction line as [|c line IH]; intros cur Hline; simpl.
  - rewrite app_nil_r. reflexivity.
  - simpl in Hline. apply andb_prop in Hline. destruct Hline as [Hc Hline].
    unfold is_break in Hc. apply negb_true_iff, orb_false_iff in Hc.
    destruct Hc as [H1 H2]. rewrite H1, H2.
    rewrite (IH (c :: cur) Hline). simpl. rewrite <- app_assoc. reflexivity.
Qed.

Lemma file_lines_write_lines (lines : list string) :
  Forall one_line lines -> file_lines (write_lines lines) = lines.
Proof.
  unfold file_lines, write_lines. rewrite bytes_text_of.
  induction 1 as [|line rest Hline _ IH]; simpl; [reflexivity|].
  rewrite <- app_assoc. simpl.
  rewrite (lines_from_line (bytes line) [] _ Hline). simpl.
  rewrite IH. unfold text_of, bytes.
  rewrite string_of_list_ascii_of_string. reflexivity.
Qed.

Lemma lines_from_one_line (n : nat) :
  forall cs cur,
    (List.length cs <= n)%nat ->
    forallb (fun c => negb (is_break c)) cur = true ->
    Forall one_line (lines_from cur cs).
Proof.
  assert (Hcur : forall cur,
             forallb (fun c => negb (is_break c)) cur = true ->
             one_line (text_of (rev cur))).
  { intros cur H. unfold one_line. rewrite bytes_text_of.
    rewrite forallb_forall in *. intros c Hc. apply H, in_rev, Hc. }
  induction n as [|n IH]; intros cs cur Hlen Hok.
  - destruct cs; [|simpl in Hlen; lia].
    simpl. destruct cur; constructor; [apply Hcur, Hok | constructor].
  - destruct cs as [|c rest]; simpl.
    + destruct cur; constructor; [apply Hcur, Hok | constructor].
    + simpl in Hlen.
      destruct (Ascii.eqb c LF) eqn:E1.
      { constructor; [apply Hcur, Hok|]. apply IH; [lia | reflexivity]. }
      destruct (Ascii.eqb c CR) eqn:E2.
      { destruct rest as [|d rest'].
        - constructor; [apply Hcur, Hok | constructor].
        - simpl in Hlen.
          destruct (Ascii.eqb d LF);
            (constructor; [apply Hcur, Hok|]);
            apply IH; simpl; try lia; reflexivity. }
      apply IH; [lia|]. simpl. unfold is_break. rewrite E1, E2. exact Hok.
Qed.

Lemma file_lines_one_line (text : string) : Forall one_line (file_lines text).
Proof.
  apply (lines_from_one_line (List.length (bytes text)));
    [apply Nat.le_refl | reflexivity].
Qed.

Lemma drop_trailing_empty_In (lines : list string) (x : string) :
  In x (drop_trailing_empty lines) -> In x lines.
Proof.
  induction lines as [|y rest IH]; simpl; [tauto|].
  destruct (drop_trailing_empty rest) as [|z rest'] eqn:E.
  - destruct (is_empty y); simpl; tauto.
  - intros [<- | H]; [left; reflexivity | right; apply IH, H].
Qed.

Lemma drop_trailing_empty_keeps (lines : list string) (x : string) :
  In x lines -> is_empty x = false -> In x (drop_trailing_empty lines).
Proof.
  induction lines as [|y rest IH]; simpl; [tauto|].
  intros [-> | H] Hx.
  - destruct (drop_trailing_empty rest); [rewrite Hx|]; left; reflexivity.
  - specialize (IH H Hx).
    destruct (drop_trailing_empty rest); [destruct IH|].
    right. exact IH.
Qed.

(** The lines dropped are empty and were at the end. *)
Lemma drop_trailing_empty_split (lines : list string) :
  exists k, lines = drop_trailing_empty lines ++ repeat "" k.
Proof.
  induction lines as [|y rest [k IH]]; simpl.
  - exists O. reflexivity.
  - destruct (drop_trailing_empty rest) as [|z rest'] eqn:E.
    + destruct (is_empty y) eqn:Ey.
      * apply String.eqb_eq in Ey. subst y. exists (S k). simpl.
        f_equal. exact IH.
      * exists k. simpl. f_equal. exact IH.
    + exists k. simpl. f_equal. exact IH.
Qed.

Lemma drop_trailing_empty_last (lines : list string) :
  last (drop_trailing_empty lines) "x" <> "".
Proof.
  induction lines as [|y rest IH]; simpl; [discriminate|].
  destruct (drop_trailing_empty rest) as [|z rest'] eqn:E.
  - destruct (is_empty y) eqn:Ey; simpl; [discriminate|].
    intros ->. discriminate.
  - exact IH.
Qed.

(* ----------------------------------------------------------------- *)
(** ** Text that [strip] leaves alone *)

Lemma all_ascii_In (a : ascii) : In a all_ascii.
Proof.
  unfold all_ascii. rewrite <- (ascii_nat_embedding a).
  apply in_map, in_seq. pose proof (nat_ascii_bounded a). lia.
Qed.

Lemma for_all_ascii (P : ascii -> bool) :
  forallb P all_ascii = true -> forall a, P a = true.
Proof.
  intros H a. rewrite forallb_forall in H. apply H, all_ascii_In.
Qed.

Lemma ascii_of_code (a : ascii) (n : nat) :
  (nat_of_ascii a =? n)%nat = true -> a = ascii_of_nat n.
Proof.
  intros H. apply Nat.eqb_eq in H. rewrite <- H.
  symmetry. apply ascii_nat_embedding.
Qed.

(** The whitespace characters, byte by byte: [s1], [s2] and [s3] are what
    follows the bytes looked at. *)
Lemma space_width_plain (s1 : list ascii) :
  forall a,
    lead_byte a || ok_width 1 a (space_width (a :: s1)) = true.
Proof. apply for_all_ascii. vm_compute. reflexivity. Qed.

Lemma space_width_194 (s2 : list ascii) :
  forall b, ok_width 2 b (space_width ("194"%char :: b :: s2)) = true.
Proof. apply for_all_ascii. vm_compute. reflexivity. Qed.

Lemma space_width_225 (s2 : list ascii) :
  forall b,
    (nat_of_ascii b =? 154)%nat
    || no_width (space_width ("225"%char :: b :: s2)) = true.
Proof. apply for_all_ascii. vm_compute. reflexivity. Qed.

Lemma space_width_226 (s2 : list ascii) :
  forall b,
    (nat_of_ascii b =? 128)%nat || (nat_of_ascii b =? 129)%nat
    || no_width (space_width ("226"%char :: b :: s2)) = true.
Proof. apply for_all_ascii. vm_compute. reflexivity. Qed.

Lemma space_width_227 (s2 : list ascii) :
  forall b,
    (nat_of_ascii b =? 128)%nat
    || no_width (space_width ("227"%char :: b :: s2)) = true.
Proof. apply for_all_ascii. vm_compute. reflexivity. Qed.

Lemma space_width_225_154 (s3 : list ascii) :
  forall c,
    ok_width 3 c (space_width ("225"%char :: "154"%char :: c :: s3)) = true.
Proof. apply for_all_ascii. vm_compute. reflexivity. Qed.

Lemma space_width_226_128 (s3 : list ascii) :
  forall c,
    ok_width 3 c (space_width ("226"%char :: "128"%char :: c :: s3)) = true.
Proof. apply for_all_ascii. vm_compute. reflexivity. Qed.

Lemma space_width_226_129 (s3 : list ascii) :
  forall c,
    ok_width 3 c (space_width ("226"%char :: "129"%char :: c :: s3)) = true.
Proof. apply for_all_ascii. vm_compute. reflexivity. Qed.

Lemma space_width_227_128 (s3 : list ascii) :
  forall c,
    ok_width 3 c (space_width ("227"%char :: "128"%char :: c :: s3)) = true.
Proof. apply for_all_ascii. vm_compute. reflexivity. Qed.

Lemma ok_width_Some (k : nat) (b : ascii) (r : option nat) (w : nat) :
  ok_width k b r = true -> r = Some w -> w = k /\ space_tail b = true.
Proof.
  intros H ->. simpl in H. apply andb_prop in H. destruct H as [H1 H2].
  apply Nat.eqb_eq in H1. split; assumption.
Qed.

Lemma no_width_Some (r : option nat) (w : nat) :
  no_width r = true -> r = Some w -> False.
Proof. intros H ->. discriminate H. Qed.

(** A whitespace character lies within the text and ends with one of the
    bytes of [space_tail]. *)
Lemma space_width_Some (s : list ascii) (w : nat) :
  space_width s = Some w ->
  (w <= List.length s)%nat
  /\ exists b, nth_error s (w - 1) = Some b /\ space_tail b = true.
Proof.
  intros H.
  destruct s as [|a s1]; [discriminate H|].
  pose proof (space_width_plain s1 a) as Ha.
  apply orb_true_iff in Ha. destruct Ha as [Ha | Ha].
  2:{ destruct (ok_width_Some _ _ _ _ Ha H) as [-> Hb].
      split; [simpl; lia|]. exists a. split; [reflexivity | exact Hb]. }
  unfold lead_byte in Ha.
  destruct s1 as [|b s2].
  { repeat (apply orb_true_iff in Ha; destruct Ha as [Ha | Ha]);
      apply ascii_of_code in Ha; subst a; vm_compute in H;
      discriminate H. }
  assert (Hthree : forall c s3,
             s2 = c :: s3 ->
             ok_width 3 c (space_width (a :: b :: s2)) = true ->
             (w <= List.length (a :: b :: s2))%nat
             /\ exists x, nth_error (a :: b :: s2) (w - 1) = Some x
                          /\ space_tail x = true).
  { intros c s3 -> Hc.
    destruct (ok_width_Some _ _ _ _ Hc H) as [-> Hb].
    split; [simpl; lia|]. exists c. split; [reflexivity | exact Hb]. }
  repeat (apply orb_true_iff in Ha; destruct Ha as [Ha | Ha]);
    apply ascii_of_code in Ha; subst a.
  - (* U+0085, U+00A0 *)
    destruct (ok_width_Some _ _ _ _ (space_width_194 s2 b) H) as [-> Hb].
    split; [simpl; lia|]. exists b. split; [reflexivity | exact Hb].
  - (* U+1680 *)
    pose proof (space_width_225 s2 b) as Hb.
    apply orb_true_iff in Hb. destruct Hb as [Hb | Hb];
      [|destruct (no_width_Some _ _ Hb H)].
    apply ascii_of_code in Hb. subst b.
    destruct s2 as [|c s3]; [vm_compute in H; discriminate H|].
    apply (Hthree c s3 eq_refl). apply space_width_225_154.
  - (* U+2000 to U+205F *)
    pose proof (space_width_226 s2 b) as Hb.
    apply orb_true_iff in Hb. destruct Hb as [Hb | Hb];
      [|destruct (no_width_Some _ _ Hb H)].
    apply orb_true_iff in Hb. destruct Hb as [Hb | Hb];
      apply ascii_of_code in Hb; subst b;
      (destruct s2 as [|c s3]; [vm_compute in H; discriminate H|]);
      apply (Hthree c s3 eq_refl).
    + apply space_width_226_128.
    + apply space_width_226_129.
  - (* U+3000 *)
    pose proof (space_width_227 s2 b) as Hb.
    apply orb_true_iff in Hb. destruct Hb as [Hb | Hb];
      [|destruct (no_width_Some _ _ Hb H)].
    apply ascii_of_code in Hb. subst b.
    destruct s2 as [|c s3]; [vm_compute in H; discriminate H|].
    apply (Hthree c s3 eq_refl). apply space_width_227_128.
Qed.

Lemma space_offsets_nonempty (fuel : nat) (s : list ascii) :
  space_offsets fuel s <> [].
Proof.
  destruct fuel; simpl; [discriminate|].
  destruct (space_width s); discriminate.
Qed.

Lemma last_cons_nonempty {A : Type} (x d : A) (l : list A) :
  l <> [] -> last (x :: l) d = last l d.
Proof. destruct l; [contradiction | reflexivity]. Qed.

Lemma last_map_add (w : nat) (l : list nat) :
  l <> [] -> last (map (Nat.add w) l) O = (w + last l O)%nat.
Proof.
  induction l as [|x rest IH]; intros H; [contradiction|].
  destruct rest as [|y rest]; [reflexivity|].
  change (last (map (Nat.add w) (x :: y :: rest)) O)
    with (last (map (Nat.add w) (y :: rest)) O).
  change (last (x :: y :: rest) O) with (last (y :: rest) O).
  apply IH. discriminate.
Qed.

Lemma nth_error_last {A : Type} (s : list A) (n : nat) (b : A) :
  nth_error s n = Some b -> List.length s = S n -> s = firstn n s ++ [b].
Proof.
  revert n. induction s as [|a s IH]; intros n Hb Hlen; [discriminate Hlen|].
  destruct n as [|n]; simpl in *.
  - injection Hb as ->. destruct s; [reflexivity | discriminate Hlen].
  - f_equal. apply IH; [exact Hb | lia].
Qed.

(** Whitespace up to the end of a text ends with a byte of
    [space_tail]. *)
Lemma space_offsets_end (fuel : nat) :
  forall s,
    last (space_offsets fuel s) O = List.length s ->
    s = [] \/ exists t b, s = t ++ [b] /\ space_tail b = true.
Proof.
  induction fuel as [|fuel IH]; intros s H; simpl in H.
  - left. apply length_zero_iff_nil. symmetry. exact H.
  - destruct (space_width s) as [w|] eqn:E.
    + destruct (space_width_Some s w E) as [Hw [b [Hb Htail]]].
      rewrite last_cons_nonempty in H.
      2:{ intros Hmap. apply map_eq_nil in Hmap.
          exact (space_offsets_nonempty _ _ Hmap). }
      rewrite last_map_add in H by apply space_offsets_nonempty.
      assert (Hrest : last (space_offsets fuel (skipn w s)) O
                      = List.length (skipn w s)).
      { rewrite length_skipn. lia. }
      destruct (IH (skipn w s) Hrest) as [Hnil | [t [b' [Ht Hb']]]].
      * assert (Hlen : List.length (skipn w s) = O) by (rewrite Hnil; reflexivity).
        rewrite length_skipn in Hlen.
        destruct w as [|w'].
        { left. apply length_zero_iff_nil. lia. }
        right. exists (firstn w' s), b. split; [|exact Htail].
        simpl in Hb. rewrite Nat.sub_0_r in Hb.
        apply nth_error_last; [exact Hb | lia].
      * right. exists (firstn w s ++ t), b'. split; [|exact Hb'].
        rewrite <- app_assoc, <- Ht. symmetry. apply firstn_skipn.
    + left. apply length_zero_iff_nil. symmetry. exact H.
Qed.

Lemma all_space_false (t : list ascii) (b : ascii) :
  space_tail b = false -> all_space (t ++ [b]) = false.
Proof.
  intros Hb. unfold all_space. apply Nat.eqb_neq. intros H.
  destruct (space_offsets_end _ _ H) as [Hnil | [t' [b' [E Hb']]]].
  - destruct t; discriminate Hnil.
  - apply app_inj_tail in E. destruct E as [_ <-]. congruence.
Qed.

Lemma rstrip_keeps (t : list ascii) (b : ascii) :
  space_tail b = false -> rstrip (t ++ [b]) = t ++ [b].
Proof.
  intros Hb. induction t as [|c t IH].
  - change (rstrip ([] ++ [b]))
      with (if all_space ([] ++ [b]) then [] else b :: rstrip []).
    rewrite (all_space_false [] b Hb). reflexivity.
  - change (rstrip ((c :: t) ++ [b]))
      with (if all_space ((c :: t) ++ [b]) then []
            else c :: rstrip (t ++ [b])).
    rewrite (all_space_false (c :: t) b Hb), IH. reflexivity.
Qed.

Lemma lstrip_keeps (s : list ascii) : space_width s = None -> lstrip s = s.
Proof.
  intros H. unfold lstrip. destruct s as [|a s]; [reflexivity|].
  cbn [List.length space_offsets]. rewrite H. reflexivity.
Qed.

Lemma starts_with_head (c0 : ascii) (p : list ascii) (c : ascii)
  (r : list ascii) :
  starts_with (c0 :: p) (c :: r) = true -> c = c0.
Proof.
  intros H. change (Ascii.eqb c0 c && starts_with p r = true) in H.
  apply andb_prop in H. destruct H as [H _].
  apply Ascii.eqb_eq in H. symmetry. exact H.
Qed.

(** [strip] leaves a link alone that starts with the scheme and ends with
    the extension. *)
Lemma strip_link (l : string) :
  str_startswith "http" l = true -> str_endswith ".html" l = true ->
  strip l = l.
Proof.
  unfold str_startswith, str_endswith, strip. intros Hhead Htail.
  assert (Hl : lstrip (bytes l) = bytes l).
  { apply lstrip_keeps.
    destruct (bytes l) as [|c r]; [discriminate Hhead|].
    apply (starts_with_head "h"%char (bytes "ttp")) in Hhead. subst c.
    pose proof (space_width_plain r "h"%char) as H.
    destruct (space_width ("h"%char :: r)); [|reflexivity].
    unfold ok_width in H.
    change (lead_byte "h"%char) with false in H.
    change (space_tail "h"%char) with false in H.
    rewrite andb_false_r in H. discriminate H. }
  rewrite Hl.
  assert (Hr : exists t, bytes l = t ++ ["l"%char]).
  { destruct (rev (bytes l)) as [|c r] eqn:Er; [discriminate Htail|].
    apply (starts_with_head "l"%char ["m"; "t"; "h"; "."]%char) in Htail.
    subst c.
    exists (rev r). rewrite <- (rev_involutive (bytes l)), Er. reflexivity. }
  destruct Hr as [t Ht]. rewrite Ht, rstrip_keeps by reflexivity.
  rewrite <- Ht. unfold text_of, bytes.
  apply string_of_list_ascii_of_string.
Qed.

(* ----------------------------------------------------------------- *)
(** ** The history of links *)

Lemma links_of_lines_app (a b : list string) :
  links_of_lines (a ++ b) = links_of_lines a ++ links_of_lines b.
Proof. unfold links_of_lines. rewrite filter_app, map_app. reflexivity. Qed.

Lemma links_of_lines_In (lines : list string) (l : string) :
  In l (links_of_lines lines) <->
  exists line, In line lines /\ strip line = l
               /\ is_empty l = false /\ str_startswith "http" l = true.
Proof.
  unfold links_of_lines. rewrite in_map_iff. split.
  - intros [line [E Hin]]. apply filter_In in Hin. destruct Hin as [Hin Hp].
    apply andb_prop in Hp. destruct Hp as [H1 H2].
    apply negb_true_iff in H1. rewrite E in H1, H2.
    exists line. repeat split; assumption.
  - intros [line [Hin [E [H1 H2]]]]. exists line. split; [exact E|].
    apply filter_In. split; [exact Hin|].
    rewrite E, H1, H2. reflexivity.
Qed.

Lemma recordable_not_empty (l : string) :
  str_startswith "http" l = true -> is_empty l = false.
Proof. destruct l; [discriminate | reflexivity]. Qed.

Lemma links_of_recordable (links : list string) :
  Forall recordable links -> links_of_lines links = links.
Proof.
  induction 1 as [|l rest [_ [Hs Hh]] _ IH]; [reflexivity|].
  unfold links_of_lines in *. simpl.
  rewrite Hs, Hh, (recordable_not_empty l Hh). simpl.
  rewrite Hs, IH. reflexivity.
Qed.

Lemma links_of_drop_trailing_empty (lines : list string) (l : string) :
  In l (links_of_lines (drop_trailing_empty lines))
  <-> In l (links_of_lines lines).
Proof.
  rewrite !links_of_lines_In. split.
  - intros [line [Hin H]]. exists line. split; [|exact H].
    apply drop_trailing_empty_In, Hin.
  - intros [line [Hin [E [H1 H2]]]]. exists line.
    split; [|repeat split; assumption].
    apply drop_trailing_empty_keeps; [exact Hin|].
    destruct line; [|reflexivity].
    subst l. discriminate H1.
Qed.

(** The lines of the file that [append_links_to_file] leaves. *)
Lemma append_links_lines (file : option string) (l : string)
  (links : list string) :
  Forall one_line (l :: links) ->
  exists text,
    append_links_to_file file (l :: links) = Some text
    /\ file_lines text
       = drop_trailing_empty
           (match file with Some t => file_lines t | None => [] end)
         ++ l :: links.
Proof.
  intros Hnew. eexists. split; [reflexivity|].
  apply file_lines_write_lines.
  apply Forall_app. split; [|exact Hnew].
  rewrite Forall_forall. intros x Hx. apply drop_trailing_empty_In in Hx.
  destruct file as [t|]; [|destruct Hx].
  pose proof (file_lines_one_line t) as Hall.
  rewrite Forall_forall in Hall. apply Hall, Hx.
Qed.

Lemma recorded_links_In (file : option string) (links : list string)
  (l : string) :
  Forall recordable links ->
  (In l (read_existing_links (append_links_to_file file links))
   <-> In l (read_existing_links file) \/ In l links).
Proof.
  intros Hrec.
  destruct links as [|l0 rest]; [simpl; tauto|].
  assert (Hone : Forall one_line (l0 :: rest)).
  { rewrite Forall_forall in *. intros x Hx. apply (Hrec x Hx). }
  destruct (append_links_lines file l0 rest Hone) as [text [-> Hlines]].
  unfold read_existing_links at 1. rewrite Hlines, links_of_lines_app.
  rewrite (links_of_recordable _ Hrec), in_app_iff.
  rewrite links_of_drop_trailing_empty.
  destruct file as [t|]; simpl; tauto.
Qed.

Lemma find_new_links_In (fetched existing : list string) (l : string) :
  In l (find_new_links fetched existing)
  <-> In l fetched /\ ~ In l existing.
Proof.
  unfold find_new_links. rewrite sort_by_In, filter_In.
  rewrite negb_true_iff, in_list_not_In. tauto.
Qed.

Lemma find_new_links_none (fetched existing : list string) :
  (forall l, In l fetched -> In l existing) ->
  find_new_links fetched existing = [].
Proof.
  intros H.
  destruct (find_new_links fetched existing) as [|l rest] eqn:E;
    [reflexivity|].
  assert (Hin : In l (find_new_links fetched existing))
    by (rewrite E; left; reflexivity).
  apply find_new_links_In in Hin. destruct Hin as [Hf Hn].
  destruct (Hn (H l Hf)).
Qed.

(* ----------------------------------------------------------------- *)
(** ** The links the crawlers keep *)

Lemma starts_with_app (p a b : list ascii) :
  starts_with p a = true -> starts_with p (a ++ b) = true.
Proof.
  revert a. induction p as [|c p IH]; intros a H; [reflexivity|].
  destruct a as [|d a]; [discriminate H|].
  change (Ascii.eqb c d && starts_with p a = true) in H.
  change (Ascii.eqb c d && starts_with p (a ++ b) = true).
  apply andb_prop in H. destruct H as [H1 H2].
  rewrite H1, (IH a H2). reflexivity.
Qed.

Lemma contains_at_app_l (p a s : list ascii) :
  contains_at p s = true -> contains_at p (a ++ s) = true.
Proof.
  intros H. induction a as [|c a IH]; [exact H|].
  change (starts_with p (c :: a ++ s) || contains_at p (a ++ s) = true).
  rewrite IH. apply orb_true_r.
Qed.

Lemma str_endswith_app (p a s : string) :
  str_endswith p s = true -> str_endswith p (a ++ s) = true.
Proof.
  unfold str_endswith. intros H.
  rewrite bytes_app, rev_app_distr. apply starts_with_app, H.
Qed.

Lemma str_contains_app (p a s : string) :
  str_contains p s = true -> str_contains p (a ++ s) = true.
Proof.
  unfold str_contains. intros H. rewrite bytes_app.
  apply contains_at_app_l, H.
Qed.

Lemma is_report_link_parts (href : string) :
  is_report_link href = true ->
  str_contains REPORT_PATH href = true /\ str_endswith ".html" href = true.
Proof.
  unfold is_report_link. intros H.
  apply andb_prop in H. destruct H as [H _].
  apply andb_prop in H. exact H.
Qed.

Lemma full_url_bs4_report (href : string) :
  is_report_link href = true -> report_url (full_url_bs4 href).
Proof.
  intros H. destruct (is_report_link_parts href H) as [Hc He].
  unfold full_url_bs4, report_url.
  destruct (str_startswith "http" href) eqn:Hh; [tauto|].
  destruct (str_startswith "/" href).
  - split; [reflexivity|]. split.
    + apply str_endswith_app, He.
    + apply str_contains_app, Hc.
  - split; [reflexivity|]. split.
    + apply str_endswith_app, (str_endswith_app _ "/"), He.
    + apply str_contains_app, (str_contains_app _ "/"), Hc.
Qed.

Lemma full_url_firecrawl_report (link_url : string) :
  is_report_link link_url = true -> report_url (full_url_firecrawl link_url).
Proof.
  intros H. destruct (is_report_link_parts link_url H) as [Hc He].
  unfold full_url_firecrawl, report_url.
  destruct (str_startswith "http" link_url) eqn:Hh; cbn [negb]; [tauto|].
  split; [reflexivity|]. split.
  - apply str_endswith_app, He.
  - apply str_contains_app, Hc.
Qed.

Lemma sorted_set_map_filter (f : string -> string) (l : list string)
  (x : string) :
  (forall href, is_report_link href = true -> report_url (f href)) ->
  In x (sorted_set (map f (filter is_report_link l))) -> report_url x.
Proof.
  intros Hf Hx. apply sorted_set_In, in_map_iff in Hx.
  destruct Hx as [href [<- Hin]]. apply filter_In in Hin.
  apply Hf, Hin.
Qed.

Lemma fetched_bs4_report (page : option (list string)) (x : string) :
  In x (fetch_surveillance_links_bs4 page) -> report_url x.
Proof.
  destruct page as [hrefs|]; [|intros []].
  apply sorted_set_map_filter, full_url_bs4_report.
Qed.

Lemma fetched_firecrawl_report (response : option (list string))
  (x : string) :
  In x (fetch_surveillance_links_firecrawl response) -> report_url x.
Proof.
  destruct response as [links|]; [|intros []].
  apply sorted_set_map_filter, full_url_firecrawl_report.
Qed.

Lemma fetched_bs4_strict (page : option (list string)) :
  StronglySorted (fun a b => String.compare a b = Lt)
                 (fetch_surveillance_links_bs4 page).
Proof.
  destruct page as [hrefs|]; [apply sorted_set_strict | constructor].
Qed.

Lemma fetched_firecrawl_strict (response : option (list string)) :
  StronglySorted (fun a b => String.compare a b = Lt)
                 (fetch_surveillance_links_firecrawl response).
Proof.
  destruct response as [links|]; [apply sorted_set_strict | constructor].
Qed.

(** The links come from one of the two crawlers. *)
Lemma fetch_surveillance_links_cases (api_key : string)
  (response page : option (list string)) :
  fetch_surveillance_links api_key response page
  = fetch_surveillance_links_firecrawl response
  \/ fetch_surveillance_links api_key response page
     = fetch_surveillance_links_bs4 page.
Proof.
  unfold fetch_surveillance_links.
  destruct (negb (is_empty api_key)); [|right; reflexivity].
  destruct (fetch_surveillance_links_firecrawl response);
    [right | left]; reflexivity.
Qed.

Lemma fetched_report (api_key : string) (response page : option (list string))
  (x : string) :
  In x (fetch_surveillance_links api_key response page) -> report_url x.
Proof.
  destruct (fetch_surveillance_links_cases api_key response page) as [-> | ->].
  - apply fetched_firecrawl_report.
  - apply fetched_bs4_report.
Qed.

Lemma report_url_recordable (l : string) :
  report_url l -> one_line l -> recordable l.
Proof.
  intros [Hh [He _]] Hone. split; [exact Hone|]. split; [|exact Hh].
  apply strip_link; assumption.
Qed.

Lemma sorted_impl {A : Type} (P Q : A -> A -> Prop) (l : list A) :
  (forall a b, P a b -> Q a b) -> StronglySorted P l -> StronglySorted Q l.
Proof.
  intros H. induction 1 as [|x rest Hs IH Hall]; constructor.
  - exact IH.
  - rewrite Forall_forall in *. intros y Hy. apply H, Hall, Hy.
Qed.

Lemma update_history_file_appends (report : LinkReport)
  (history : option string) :
  fst (update_history_file report history)
  = append_links_to_file history (new_links report).
Proof.
  unfold update_history_file. destruct (new_links report); reflexivity.
Qed.

Lemma report_new_links_links (fetched existing : list string) :
  new_links (fst (report_new_links fetched existing))
  = find_new_links fetched existing.
Proof.
  unfold report_new_links.
  destruct (find_new_links fetched existing); reflexivity.
Qed.

Lemma fetch_new_links_task_fetched (fetched : list string)
  (history url_file : option string) :
  fetched <> [] ->
  fetch_new_links_task fetched history url_file
  = report_new_links fetched (read_existing_links history).
Proof.
  intros H. unfold fetch_new_links_task.
  destruct fetched; [contradiction | reflexivity].
Qed.

(* ----------------------------------------------------------------- *)
(** ** Finding and recording links *)

(** X9. [find_new_links] returns the fetched links that are not in the
    history, and only those, the greatest (the newest) first; fetched links
    without repetition give new links without repetition. *)
Theorem find_new_links_newest_first (fetched existing : list string) :
  (forall l, In l (find_new_links fetched existing)
             <-> In l fetched /\ ~ In l existing)
  /\ StronglySorted (fun a b => String.compare a b <> Lt)
                    (find_new_links fetched existing)
  /\ (NoDup fetched -> NoDup (find_new_links fetched existing)).
Proof.
  split; [intros l; apply find_new_links_In|]. split.
  - unfold find_new_links.
    apply (sorted_impl (fun a b => str_ge a b = true)).
    + intros a b H. unfold str_ge, str_le in H.
      rewrite (String.compare_antisym a b).
      destruct (String.compare b a); simpl; congruence.
    + apply sort_by_sorted; [exact str_ge_total | exact str_ge_trans].
  - intros Hnd. unfold find_new_links.
    eapply Permutation_NoDup; [apply sort_by_Permutation|].
    apply NoDup_filter, Hnd.
Qed.

(** X10. [append_links_to_file] with links to write keeps every earlier
    line of the file in place (comments and blank lines between them
    too), drops only the empty lines at its end, and puts the new links
    below, one to a line. *)
Theorem append_links_keeps_earlier_lines (file : option string)
  (links : list string) :
  links <> [] -> Forall one_line links ->
  exists text kept k,
    append_links_to_file file links = Some text
    /\ match file with Some t => file_lines t | None => [] end
       = kept ++ repeat "" k
    /\ (forall p, kept <> p ++ [""])
    /\ file_lines text = kept ++ links.
Proof.
  intros Hne Hone. destruct links as [|l rest]; [contradiction|].
  destruct (append_links_lines file l rest Hone) as [text [Happ Hlines]].
  set (old := match file with Some t => file_lines t | None => [] end) in *.
  destruct (drop_trailing_empty_split old) as [k Hk].
  exists text, (drop_trailing_empty old), k.
  split; [exact Happ|]. split; [exact Hk|]. split; [|exact Hlines].
  intros p Hp. apply (drop_trailing_empty_last old).
  rewrite Hp. apply last_last.
Qed.

Lemma append_links_keeps_earlier_lines_witness :
  exists text kept k,
    append_links_to_file (Some "# seen
https://www.chinacdc.cn/a.html

") ["https://www.chinacdc.cn/b.html"] = Some text
    /\ file_lines "# seen
https://www.chinacdc.cn/a.html

" = kept ++ repeat "" k
    /\ (forall p, kept <> p ++ [""])
    /\ file_lines text = kept ++ ["https://www.chinacdc.cn/b.html"].
Proof.
  apply (append_links_keeps_earlier_lines
           (Some "# seen
https://www.chinacdc.cn/a.html

") ["https://www.chinacdc.cn/b.html"]).
  - discriminate.
  - repeat constructor.
Defined.

(** X11. After [append_links_to_file] has written links that are
    recordable, [read_existing_links] returns the links it returned before
    together with the links written; none of them is a new link again. *)
Theorem recorded_links_are_read_back (file : option string)
  (links : list string) :
  Forall recordable links ->
  (forall l, In l (read_existing_links (append_links_to_file file links))
             <-> In l (read_existing_links file) \/ In l links)
  /\ find_new_links links
       (read_existing_links (append_links_to_file file links)) = [].
Proof.
  intros Hrec. split.
  - intros l. apply recorded_links_In, Hrec.
  - apply find_new_links_none. intros l Hl.
    apply recorded_links_In; [exact Hrec | right; exact Hl].
Qed.

Lemma recorded_links_are_read_back_witness :
  (forall l,
      In l (read_existing_links
              (append_links_to_file None ["https://www.chinacdc.cn/b.html"]))
      <-> In l (read_existing_links None)
          \/ In l ["https://www.chinacdc.cn/b.html"])
  /\ find_new_links ["https://www.chinacdc.cn/b.html"]
       (read_existing_links
          (append_links_to_file None ["https://www.chinacdc.cn/b.html"]))
     = [].
Proof.
  apply (recorded_links_are_read_back None ["https://www.chinacdc.cn/b.html"]).
  constructor; [|constructor].
  split; [reflexivity|]. split; vm_compute; reflexivity.
Defined.

(** X12. Whichever crawler answers, [fetch_surveillance_links] returns
    links in strictly ascending order (so none twice), each of them
    starting with [http], ending with [.html], holding the path of the
    reports, and with no whitespace for [strip] to remove. *)
Theorem fetched_links_shape (api_key : string)
  (response page : option (list string)) :
  StronglySorted (fun a b => String.compare a b = Lt)
                 (fetch_surveillance_links api_key response page)
  /\ forall l,
       In l (fetch_surveillance_links api_key response page) ->
       str_startswith "http" l = true
       /\ str_endswith ".html" l = true
       /\ str_contains REPORT_PATH l = true
       /\ strip l = l.
Proof.
  split.
  - destruct (fetch_surveillance_links_cases api_key response page)
      as [-> | ->];
      [apply fetched_firecrawl_strict | apply fetched_bs4_strict].
  - intros l Hl. destruct (fetched_report _ _ _ _ Hl) as [Hh [He Hc]].
    repeat split; try assumption. apply strip_link; assumption.
Qed.

(** X13. When a run of the DAG has fetched links (each on one line) and
    [update_history_file] has recorded the new ones, a second run that
    fetches the same links reports no new link, and [check_new_links]
    stops it. *)
Theorem second_run_finds_nothing (api_key : string)
  (response page : option (list string))
  (history url_file url_file' : option string) :
  fetch_surveillance_links api_key response page <> [] ->
  Forall one_line (fetch_surveillance_links api_key response page) ->
  fetch_new_links_task
    (fetch_surveillance_links api_key response page)
    (fst (update_history_file
            (fst (fetch_new_links_task
                    (fetch_surveillance_links api_key response page)
                    history url_file))
            history))
    url_file'
  = (mkLinkReport [] 0 false false, 0%nat).
Proof.
  set (fetched := fetch_surveillance_links api_key response page).
  intros Hne Hone.
  rewrite (fetch_new_links_task_fetched fetched history url_file Hne).
  rewrite update_history_file_appends, report_new_links_links.
  rewrite (fetch_new_links_task_fetched fetched _ url_file' Hne).
  set (existing := read_existing_links history).
  assert (Hrec : Forall recordable (find_new_links fetched existing)).
  { rewrite Forall_forall in *. intros l Hl.
    apply find_new_links_In in Hl. destruct Hl as [Hl _].
    apply report_url_recordable; [|apply Hone, Hl].
    apply (fetched_report api_key response page), Hl. }
  unfold report_new_links.
  rewrite find_new_links_none; [reflexivity|].
  intros l Hl. apply recorded_links_In; [exact Hrec|].
  destruct (in_list l existing) eqn:E.
  - left. apply in_list_true_In, E.
  - right. apply find_new_links_In. split; [exact Hl|].
    apply in_list_not_In, E.
Qed.

Lemma second_run_finds_nothing_witness :
  fetch_new_links_task
    (fetch_surveillance_links ""
       None (Some ["/jksj/jksj04_14275/202501/t20250109_303758.html"]))
    (fst (update_history_file
            (fst (fetch_new_links_task
                    (fetch_surveillance_links ""
                       None
                       (Some ["/jksj/jksj04_14275/202501/t20250109_303758.html"]))
                    None None))
            None))
    None
  = (mkLinkReport [] 0 false false, 0%nat).
Proof.
  apply (second_run_finds_nothing ""
           None (Some ["/jksj/jksj04_14275/202501/t20250109_303758.html"])
           None None None).
  - vm_compute. discriminate.
  - vm_compute. repeat constructor.
Defined.

(** X14. What [fetch_new_links_task] pushes is consistent: the count is
    the number of links pushed and the value returned, the flag says
    whether there is a link, and [check_new_links] lets the downstream
    tasks run exactly then.  A failed crawl is reported only when nothing
    was fetched; but when nothing was fetched, the history holds no link
    and the URL file gives none, the report is that of a crawl that
    worked and found nothing new. *)
Theorem new_links_report_consistent (fetched : list string)
  (history url_file : option string) :
  let report := fst (fetch_new_links_task fetched history url_file) in
  snd (fetch_new_links_task fetched history url_file) = link_count report
  /\ link_count report = List.length (new_links report)
  /\ (has_new_links report = true <-> new_links report <> [])
  /\ check_new_links report = has_new_links report
  /\ (crawl_failed report = true -> fetched = [])
  /\ (fetched = [] -> read_existing_links history = [] ->
      (forall text, url_file = Some text -> read_url_lines text = []) ->
      report = mkLinkReport [] 0 false false).
Proof.
  unfold fetch_new_links_task, report_new_links.
  destruct fetched as [|f fetched].
  - destruct (read_existing_links history) as [|e existing].
    + destruct url_file as [text|].
      * destruct (read_url_lines text) as [|u urls] eqn:Eu; simpl.
        { repeat split; try discriminate; try reflexivity; try tauto. }
        repeat split; try discriminate; try reflexivity.
        intros _ _ H. specialize (H text eq_refl).
        rewrite Eu in H. discriminate H.
      * simpl. repeat split; try discriminate; try reflexivity; try tauto.
    + simpl. repeat split; try discriminate; try reflexivity; try tauto.
  - destruct (find_new_links (f :: fetched) (read_existing_links history))
      as [|l links]; simpl;
      repeat split; try discriminate; try reflexivity; try tauto.
Qed.

(* ----------------------------------------------------------------- *)
(** ** The two merge functions side by side *)

Lemma sort_values_nil_iff
  (cmp : SurveillanceRecord -> SurveillanceRecord -> comparison)
  (df : DataFrame) :
  sort_values cmp df = [] <-> df = [].
Proof.
  split; [|intros ->; reflexivity].
  intros H. pose proof (sort_values_Permutation cmp df) as Hp.
  rewrite H in Hp. apply Permutation_sym, Permutation_nil in Hp. exact Hp.
Qed.

Lemma pathogen_is_text_sorted (df : DataFrame) :
  pathogen_is_text (sort_values cmp_date_name df) = pathogen_is_text df.
Proof.
  unfold pathogen_is_text.
  destruct df as [|r rest]; [reflexivity|].
  destruct (sort_values cmp_date_name (r :: rest)) as [|r' rest'] eqn:E.
  { apply sort_values_nil_iff in E. discriminate E. }
  rewrite <- E. clear E.
  destruct (existsb (fun r0 => is_some (pathogen r0)) (r :: rest)) eqn:Ex.
  - apply existsb_exists in Ex. destruct Ex as [x [Hx Hp]].
    apply existsb_exists. exists x. split; [|exact Hp].
    apply sort_values_In, Hx.
  - destruct (existsb (fun r0 => is_some (pathogen r0))
                (sort_values cmp_date_name (r :: rest))) eqn:Ex'; [|reflexivity].
    apply existsb_exists in Ex'. destruct Ex' as [x [Hx Hp]].
    apply -> (sort_values_In cmp_date_name) in Hx.
    assert (Hex : existsb (fun r0 => is_some (pathogen r0)) (r :: rest) = true)
      by (apply existsb_exists; exists x; split; assumption).
    congruence.
Qed.

Lemma covid_of_sorted_nil (df : DataFrame) :
  filter is_covid (sort_values cmp_date_name df) = []
  <-> filter is_covid df = [].
Proof.
  rewrite (filter_sort_values _ cmp_date_name_order).
  apply sort_values_nil_iff.
Qed.

Lemma length_pos_not_nil {A : Type} (l : list A) :
  (0 <? List.length l)%nat = negb (match l with [] => true | _ => false end).
Proof. destruct l; reflexivity. Qed.

(** The rows the covid part of a merge works on. *)
Lemma merged_covid_cases (new_df : DataFrame) (st : Store) :
  let batch :=
    match all_csv st with
    | Some _ => new_df
    | None => sort_values cmp_date_name new_df
    end in
  merged_covid new_df st
  = (if pathogen_is_text batch then
       match covid_csv st with
       | Some covid_df =>
           Some (sort_values cmp_date_only
                   (drop_duplicates (filter is_covid batch ++ covid_df)))
       | None =>
           match filter is_covid batch with
           | [] => None
           | rows => Some (sort_values cmp_date_only rows)
           end
       end
     else covid_csv st)
  /\ dag_merged_covid new_df st
     = (if pathogen_is_text batch then
          match filter is_covid batch with
          | [] => covid_csv st
          | rows =>
              match covid_csv st with
              | Some covid_df =>
                  Some (sort_values cmp_date_only
                          (drop_duplicates (rows ++ covid_df)))
              | None => Some (sort_values cmp_date_only rows)
              end
          end
        else covid_csv st).
Proof.
  destruct st as [[all_df|] [covid_df|]]; cbv zeta; simpl all_csv;
    simpl covid_csv;
    unfold merged_covid, dag_merged_covid, merge_to_main_data,
      merge_to_main_data_body, merge_csv_to_main;
    unfold bind at 1 3;
    rewrite ?update_all_existing, ?update_all_created; simpl;
    unfold bind, covid_rows, read_covid_csv, write_covid_csv, ret; simpl.
  all: match goal with
       | |- context [pathogen_is_text ?b] =>
           destruct (pathogen_is_text b); simpl; [|split; reflexivity];
           destruct (filter is_covid b); simpl; split; reflexivity
       end.
Qed.


(* ----------------------------------------------------------------- *)
(** ** The period of an ISO week *)

Lemma isoweek1monday_monday (year : Z) : isoweek1monday year mod 7 = 1.
Proof.
  unfold isoweek1monday. cbv zeta.
  destruct (3 <? (ymd2ord year 1 1 + 6) mod 7);
    Z.div_mod_to_equations; lia.
Qed.

(** The Monday of week 1 is the Monday of the week of 4 January. *)
Lemma isoweek1monday_jan4 (year : Z) :
  isoweek1monday year <= ymd2ord year 1 4 <= isoweek1monday year + 6.
Proof.
  assert (H4 : ymd2ord year 1 4 = ymd2ord year 1 1 + 3)
    by (unfold ymd2ord; lia).
  rewrite H4. unfold isoweek1monday. cbv zeta.
  destruct (Z.ltb_spec 3 ((ymd2ord year 1 1 + 6) mod 7));
    Z.div_mod_to_equations; lia.
Qed.

Lemma days_before_year_bound (year : Z) :
  1 <= year <= 9998 -> 0 <= days_before_year year <= 3651428.
Proof.
  intros H. unfold days_before_year. cbv zeta.
  Z.div_mod_to_equations. lia.
Qed.

Lemma fromisocalendar_ordinary (year week day : Z) :
  1 <= year <= 9998 -> 1 <= week <= 52 -> 1 <= day <= 7 ->
  fromisocalendar year week day
  = Some (isoweek1monday year + ((week - 1) * 7 + (day - 1))).
Proof.
  intros Hy Hw Hd. unfold fromisocalendar.
  assert (E1 : (1 <=? year) && (year <=? 9999) = true).
  { apply andb_true_intro. split; apply Z.leb_le; lia. }
  assert (E2 : (0 <? week) && (week <? 53) = true).
  { apply andb_true_intro. split; apply Z.ltb_lt; lia. }
  assert (E3 : (0 <? day) && (day <? 8) = true).
  { apply andb_true_intro. split; apply Z.ltb_lt; lia. }
  rewrite E1, E2, E3. cbn [negb andb]. cbv zeta.
  assert (E4 : (isoweek1monday year + ((week - 1) * 7 + (day - 1))
                <=? ymd2ord 9999 12 31) = true).
  { apply Z.leb_le. change (ymd2ord 9999 12 31) with 3652059.
    pose proof (isoweek1monday_jan4 year) as H4.
    pose proof (days_before_year_bound year Hy) as Hb.
    destruct (days_before_month_values year _ eq_refl) as [B1 _].
    assert (ymd2ord year 1 4 = days_before_year year + 4)
      by (unfold ymd2ord; rewrite B1; lia).
    lia. }
  rewrite E4. reflexivity.
Qed.

Lemma fromisocalendar_Some (year week day ord : Z) :
  fromisocalendar year week day = Some ord ->
  ord = isoweek1monday year + ((week - 1) * 7 + (day - 1)).
Proof.
  unfold fromisocalendar.
  destruct (negb ((1 <=? year) && (year <=? 9999))); [discriminate|].
  destruct (negb ((0 <? week) && (week <? 53))
            && negb ((week =? 53)
                     && (let first_weekday := ymd2ord year 1 1 mod 7 in
                         (first_weekday =? 4)
                         || ((first_weekday =? 3) && is_leap year))));
    [discriminate|].
  destruct (negb ((0 <? day) && (day <? 8))); [discriminate|].
  cbv zeta.
  destruct (isoweek1monday year + ((week - 1) * 7 + (day - 1))
            <=? ymd2ord 9999 12 31); [|discriminate].
  intros [= <-]. reflexivity.
Qed.

(** X16. The period [extract_week_info_from_title] computes from a year
    and a week alone runs from a Monday to the Sunday six days later, in
    the week that holds the day [7 * (week - 1)] days after 4 January
    (the ISO week); the dates are left out only for a year or week outside
    1 to 9998 and 1 to 52.  This is the period returned when the first
    four patterns find nothing and the fifth finds the year and the
    week. *)
Theorem iso_week_period_monday_to_sunday (year week : Z) :
  ((exists monday,
       iso_week_period year week
       = (Some (strftime_ymd monday), Some (strftime_ymd (monday + 6)),
          Some week)
       /\ monday mod 7 = 1
       /\ monday <= ymd2ord year 1 4 + 7 * (week - 1) <= monday + 6)
   \/ (iso_week_period year week = (None, None, Some week)
       /\ ~ (1 <= year <= 9998 /\ 1 <= week <= 52)))
  /\ forall text m,
       re_search pattern1 (bytes text) = None ->
       re_search pattern2 (bytes text) = None ->
       re_search pattern3 (bytes text) = None ->
       re_search pattern4 (bytes text) = None ->
       re_search pattern5 (bytes text) = Some m ->
       year = group 0 m -> week = group 1 m ->
       extract_week_info_from_title text = iso_week_period year week.
Proof.
  split.
  - unfold iso_week_period.
    destruct (fromisocalendar year week 1) as [monday|] eqn:E1.
    + destruct (fromisocalendar year week 7) as [sunday|] eqn:E7.
      * left. exists monday.
        apply fromisocalendar_Some in E1, E7.
        assert (Hs : sunday = monday + 6) by lia.
        clear E7. subst sunday.
        split; [reflexivity|].
        pose proof (isoweek1monday_monday year) as Hm.
        pose proof (isoweek1monday_jan4 year) as H4.
        split; [|lia].
        subst monday. Z.div_mod_to_equations. lia.
      * right. split; [reflexivity|]. intros [Hy Hw].
        rewrite (fromisocalendar_ordinary year week 7 Hy Hw) in E7 by lia.
        discriminate E7.
    + right. split; [reflexivity|]. intros [Hy Hw].
      rewrite (fromisocalendar_ordinary year week 1 Hy Hw) in E1 by lia.
      discriminate E1.
  - intros text m H1 H2 H3 H4 H5 -> ->.
    unfold extract_week_info_from_title. cbv zeta.
    rewrite H1, H2, H3, H4, H5. reflexivity.
Qed.

(* ----------------------------------------------------------------- *)
(** ** The numbers of the extractor of HTML tables *)

Lemma digit_val_nonneg (c : ascii) : is_digit c = true -> 0 <= digit_val c.
Proof.
  unfold is_digit, digit_val. intros H.
  apply andb_prop in H. destruct H as [H _].
  apply Nat.leb_le in H. lia.
Qed.

Lemma int_of_digits_nonneg (ds : list ascii) :
  forallb is_digit ds = true -> 0 <= int_of_digits ds.
Proof.
  unfold int_of_digits.
  assert (H : forall acc, 0 <= acc -> forallb is_digit ds = true ->
                          0 <= fold_left (fun a c => 10 * a + digit_val c)
                                         ds acc).
  { induction ds as [|c ds IH]; intros acc Hacc Hd; [exact Hacc|].
    simpl in Hd. apply andb_prop in Hd. destruct Hd as [Hc Hd].
    cbn [fold_left]. apply IH; [|exact Hd].
    pose proof (digit_val_nonneg c Hc). lia. }
  apply H. lia.
Qed.

Lemma float_of_decimal_nonneg (s : list ascii) (q : Q) :
  float_of_decimal s = Some q -> (0 <= q)%Q.
Proof.
  unfold float_of_decimal. cbv zeta.
  destruct (forallb is_digit (before_dot s)
            && forallb is_digit
                 match after_dot s with Some f => f | None => [] end
            && (0 <? List.length
                       (before_dot s
                        ++ match after_dot s with Some f => f | None => [] end))%nat)
    eqn:E; [|discriminate].
  intros [= <-].
  apply andb_prop in E. destruct E as [E _].
  apply andb_prop in E. destruct E as [E1 E2].
  unfold Qle. simpl. rewrite Z.mul_1_r.
  apply int_of_digits_nonneg. rewrite forallb_app, E1, E2. reflexivity.
Qed.

Lemma extract_numeric_nonneg (val : option cell) (q : Q) :
  extract_numeric val = Some q -> (0 <= q)%Q.
Proof.
  unfold extract_numeric.
  destruct val as [[v|]|]; try discriminate. cbv zeta.
  destruct (keep_digits_dots
              (bytes (strip (replace "," "" (replace "％" ""
                                               (replace "%" "" v))))))
    as [|c rest] eqn:E; [discriminate|].
  intros H.
  assert (Hf : float_of_decimal (c :: rest) = Some q).
  { destruct rest as [|c' rest'];
      destruct c as [[] [] [] [] [] [] [] []];
      first [exact H | discriminate H]. }
  exact (float_of_decimal_nonneg _ _ Hf).
Qed.

(** X17. Every row [parse_pathogen_data] returns has a name that is not
    one of the skipped ones (empty, a total, a header, a week, an age
    group, a footnote), has a number in one of its two columns, and has
    no negative number: [extract_numeric] drops the sign of a cell. *)
Theorem parsed_rows_named_and_nonnegative (df : Table) (row : FlatRow) :
  In row (parse_pathogen_data df) ->
  skipped_name (flat_pathogen row) = false
  /\ is_some (flat_ili row) || is_some (flat_sari row) = true
  /\ (forall q, flat_ili row = Some q -> (0 <= q)%Q)
  /\ (forall q, flat_sari row = Some q -> (0 <= q)%Q).
Proof.
  unfold parse_pathogen_data. intros Hin.
  assert (Hrow : exists r, In row (parse_pathogen_row df r)).
  { destruct (rows df) as [|r0 rest]; [destruct Hin|].
    destruct (columns df) as [|c0 cols]; [destruct Hin|].
    destruct (negb (in_list "pathogen" (c0 :: cols))); [destruct Hin|].
    apply in_flat_map in Hin. destruct Hin as [r [_ Hr]].
    exists r. exact Hr. }
  clear Hin. destruct Hrow as [r Hr].
  unfold parse_pathogen_row in Hr. cbv zeta in Hr.
  destruct (skipped_name (row_name df r "pathogen")) eqn:Hname;
    [destruct Hr|].
  set (ili := if in_list "ili_current" (columns df)
              then extract_numeric (row_get df r "ili_current")
              else None) in *.
  set (sari := if in_list "sari_current" (columns df)
               then extract_numeric (row_get df r "sari_current")
               else None) in *.
  destruct (is_some ili || is_some sari) eqn:Hval; [|destruct Hr].
  destruct Hr as [<- | []]. simpl.
  split; [exact Hname|]. split; [exact Hval|]. split.
  - intros q Hq. unfold ili in Hq.
    destruct (in_list "ili_current" (columns df)); [|discriminate Hq].
    exact (extract_numeric_nonneg _ _ Hq).
  - intros q Hq. unfold sari in Hq.
    destruct (in_list "sari_current" (columns df)); [|discriminate Hq].
    exact (extract_numeric_nonneg _ _ Hq).
Qed.

Lemma parsed_rows_named_and_nonnegative_witness :
  In (mkFlatRow "新型冠状病毒" (Some (123 # 10)%Q) None)
     (parse_pathogen_data (mkTable html_columns [percent_row]))
  /\ skipped_name "新型冠状病毒" = false
  /\ is_some (Some (123 # 10)%Q) || is_some (@None Q) = true
  /\ (forall q, Some (123 # 10)%Q = Some q -> (0 <= q)%Q)
  /\ (forall q, @None Q = Some q -> (0 <= q)%Q).
Proof.
  split; [vm_compute; left; reflexivity|].
  apply (parsed_rows_named_and_nonnegative
           (mkTable html_columns [percent_row])
           (mkFlatRow "新型冠状病毒" (Some (123 # 10)%Q) None)).
  vm_compute. left. reflexivity.
Defined.

(* ----------------------------------------------------------------- *)
(** ** The id of a document *)

Lemma hd_error_map_eq {A B : Type} (f : A -> B) (l : list A) :
  hd_error (map f l) = option_map f (hd_error l).
Proof. destruct l; reflexivity. Qed.

Lemma re_search_match (p : pattern) (s : list ascii) (w : way) :
  re_search p s = Some w -> exists k, re_match p (skipn k s) = Some w.
Proof.
  induction s as [|c s IH]; simpl.
  - destruct (re_match p []) eqn:E; [|discriminate].
    intros [= <-]. exists O. exact E.
  - destruct (re_match p (c :: s)) eqn:E.
    + intros [= <-]. exists O. exact E.
    + intros H. destruct (IH H) as [k Hk]. exists (S k). exact Hk.
Qed.

Lemma down_to_lt (hi lo : nat) : (hi < lo)%nat -> down_to hi lo = [].
Proof.
  intros H. apply Nat.ltb_lt in H.
  destruct hi; simpl; rewrite H; reflexivity.
Qed.

Lemma down_to_same (n : nat) : down_to n n = [n].
Proof.
  destruct n as [|n]; [reflexivity|].
  cbn [down_to]. rewrite Nat.ltb_irrefl. f_equal.
  apply down_to_lt. lia.
Qed.

Lemma down_to_head (hi lo : nat) :
  (lo <= hi)%nat -> exists rest, down_to hi lo = hi :: rest.
Proof.
  intros H. apply Nat.ltb_ge in H.
  destruct hi; cbn [down_to]; rewrite H; eexists; reflexivity.
Qed.

Lemma take_digits_firstn (n : nat) (s : list ascii) :
  take_digits n s = firstn (List.length (take_digits n s)) s.
Proof.
  revert s. induction n as [|n IH]; intros [|c s]; simpl; try reflexivity.
  destruct (is_digit c); simpl; [|reflexivity].
  f_equal. apply IH.
Qed.

Lemma take_digits_digits (n : nat) (s : list ascii) :
  forallb is_digit (take_digits n s) = true.
Proof.
  revert s. induction n as [|n IH]; intros [|c s]; simpl; try reflexivity.
  destruct (is_digit c) eqn:E; simpl; [|reflexivity].
  rewrite E. apply IH.
Qed.

(** Where [take_digits] stops short, no digit follows. *)
Lemma take_digits_stop (n : nat) (s : list ascii) :
  (List.length (take_digits n s) < n)%nat ->
  match skipn (List.length (take_digits n s)) s with
  | c :: _ => is_digit c = false
  | [] => True
  end.
Proof.
  revert s. induction n as [|n IH]; intros s H; [simpl in H; lia|].
  destruct s as [|c s]; simpl; [exact I|].
  destruct (is_digit c) eqn:E; simpl; [|exact E].
  apply IH. simpl in H. rewrite E in H. simpl in H. lia.
Qed.

Lemma lit_step (l : string) (p : pattern) (s : list ascii) (m : way) :
  re_match (Lit l :: p) s = Some m ->
  starts_with (bytes l) s = true
  /\ re_match p (skipn (List.length (bytes l)) s) = Some m.
Proof.
  unfold re_match. cbn [match_seq match_atom]. unfold lit_ways.
  destruct (starts_with (bytes l) s); [|discriminate].
  cbn [flat_map fst snd app]. rewrite app_nil_r, hd_error_map_eq.
  destruct (hd_error (match_seq p (skipn (List.length (bytes l)) s)))
    as [[g r]|]; [|discriminate].
  intros [= <-]. split; reflexivity.
Qed.

Lemma digits_exact_step (n : nat) (p : pattern) (s : list ascii) (m : way) :
  re_match (Digits n n :: p) s = Some m ->
  List.length (take_digits n s) = n
  /\ exists m', re_match p (skipn n s) = Some m'
                /\ m = (firstn n s :: fst m', snd m').
Proof.
  unfold re_match. cbn [match_seq match_atom].
  pose proof (take_digits_length n s) as Hle.
  destruct (Nat.eq_dec (List.length (take_digits n s)) n) as [E | E].
  - rewrite E, down_to_same. cbn [map flat_map fst snd].
    rewrite app_nil_r, hd_error_map_eq.
    destruct (hd_error (match_seq p (skipn n s))) as [m'|]; [|discriminate].
    intros [= <-]. split; [reflexivity|]. exists m'. split; reflexivity.
  - rewrite down_to_lt by lia. discriminate.
Qed.

Lemma digits_last_step (lo hi : nat) (s : list ascii) (m : way) :
  re_match [Digits lo hi] s = Some m ->
  (lo <= List.length (take_digits hi s))%nat
  /\ m = ([firstn (List.length (take_digits hi s)) s],
          skipn (List.length (take_digits hi s)) s).
Proof.
  unfold re_match. cbn [match_seq match_atom].
  destruct (Nat.le_gt_cases lo (List.length (take_digits hi s))) as [H | H].
  - destruct (down_to_head _ _ H) as [rest ->].
    cbn [map flat_map fst snd hd_error app]. intros [= <-].
    split; [exact H | reflexivity].
  - rewrite down_to_lt by lia. discriminate.
Qed.

(** X18. The id [get_file_id_from_url] finds in an ASCII URL is a piece of
    the URL: the letter t, eight digits, an underscore and all the digits
    that follow it (at least one), so that it holds nothing but these
    characters; the pipeline names its files after it. *)
Theorem file_id_is_a_piece_of_the_url (url id : string) :
  forallb is_ascii (bytes url) = true ->
  get_file_id_from_url url = Some id ->
  exists pre date digits post,
    bytes url = pre ++ bytes id ++ post
    /\ bytes id = "t"%char :: date ++ "_"%char :: digits
    /\ List.length date = 8%nat /\ forallb is_digit date = true
    /\ digits <> [] /\ forallb is_digit digits = true
    /\ match post with
       | c :: _ => is_digit c = false
       | [] => True
       end.
Proof.
  intros _. unfold get_file_id_from_url.
  destruct (re_search (file_id_pattern (List.length (bytes url))) (bytes url))
    as [m|] eqn:E; [|discriminate].
  intros [= <-].
  destruct (re_search_match _ _ _ E) as [k Hk]. clear E.
  unfold file_id_pattern in Hk.
  set (n := List.length (bytes url)) in *.
  pose proof (firstn_skipn k (bytes url)) as Hurl.
  assert (Hlen : (List.length (skipn k (bytes url)) <= n)%nat)
    by (rewrite length_skipn; unfold n; lia).
  set (s0 := skipn k (bytes url)) in *.
  apply lit_step in Hk. destruct Hk as [Ht Hk].
  destruct s0 as [|c0 s1]; [discriminate Ht|].
  apply (starts_with_head "t"%char [] c0 s1) in Ht. subst c0.
  change (skipn (List.length (bytes "t")) ("t"%char :: s1)) with s1 in Hk.
  apply digits_exact_step in Hk.
  destruct Hk as [H8 [m' [Hk ->]]].
  apply lit_step in Hk. destruct Hk as [Hu Hk].
  pose proof (firstn_skipn 8 s1) as Hs1.
  destruct (skipn 8 s1) as [|c2 s3] eqn:E2; [discriminate Hu|].
  apply (starts_with_head "_"%char [] c2 s3) in Hu. subst c2.
  change (skipn (List.length (bytes "_")) ("_"%char :: s3)) with s3 in Hk.
  apply digits_last_step in Hk. destruct Hk as [Hone ->].
  set (L := List.length (take_digits n s3)) in *.
  cbn [fst snd nth].
  exists (firstn k (bytes url)), (firstn 8 s1), (firstn L s3), (skipn L s3).
  assert (Hid : bytes (String "t"%char
                         (text_of (firstn 8 s1 ++ "_"%char :: firstn L s3)))
                = "t"%char :: firstn 8 s1 ++ "_"%char :: firstn L s3).
  { unfold bytes. cbn [list_ascii_of_string]. f_equal. apply bytes_text_of. }
  rewrite Hid. clear Hid.
  pose proof (take_digits_firstn 8 s1) as Hd8. rewrite H8 in Hd8.
  pose proof (take_digits_firstn n s3) as Hf. fold L in Hf.
  assert (HL : (L <= List.length s3)%nat).
  { apply (f_equal (@List.length ascii)) in Hf. fold L in Hf.
    rewrite length_firstn in Hf. lia. }
  assert (Hs3 : (List.length s3 < n)%nat).
  { simpl in Hlen. rewrite <- Hs1 in Hlen.
    rewrite length_app in Hlen. simpl in Hlen. lia. }
  rewrite <- Hd8, <- Hf.
  split.
  { rewrite <- Hurl at 1. f_equal. cbn [app]. f_equal.
    rewrite <- Hs1 at 1. rewrite <- app_assoc, Hd8. f_equal.
    cbn [app]. f_equal. rewrite Hf. symmetry. apply firstn_skipn. }
  split; [reflexivity|].
  split; [exact H8|].
  split; [apply take_digits_digits|].
  split.
  { intros Hnil. apply (f_equal (@List.length ascii)) in Hnil.
    fold L in Hnil. simpl in Hnil. lia. }
  split; [apply take_digits_digits|].
  apply take_digits_stop. fold L. lia.
Qed.

Lemma file_id_is_a_piece_of_the_url_witness :
  exists pre date digits post,
    bytes "https://www.chinacdc.cn/jksj/jksj04_14275/202501/t20250109_303758.html"
    = pre ++ bytes "t20250109_303758" ++ post
    /\ bytes "t20250109_303758" = "t"%char :: date ++ "_"%char :: digits
    /\ List.length date = 8%nat /\ forallb is_digit date = true
    /\ digits <> [] /\ forallb is_digit digits = true
    /\ match post with
       | c :: _ => is_digit c = false
       | [] => True
       end.
Proof.
  apply (file_id_is_a_piece_of_the_url
           "https://www.chinacdc.cn/jksj/jksj04_14275/202501/t20250109_303758.html"
           "t20250109_303758");
    vm_compute; reflexivity.
Defined.

(* ----------------------------------------------------------------- *)
(** ** The directory of a document, in the pipeline and in the DAG *)

(** The first row of the table the extractor saves. *)
Lemma surveillance_csv_head (all_results : DataFrame) :
  all_results <> [] ->
  exists r0 rest,
    surveillance_csv all_results = Some (normalize_row r0 :: rest)
    /\ In r0 all_results
    /\ forall r o, In r all_results -> sort_date r = Some o ->
                   exists o0, sort_date r0 = Some o0 /\ o <= o0.
Proof.
  intros Hne.
  assert (Hcsv : surveillance_csv all_results
                 = Some (map normalize_row
                           (sort_values cmp_date_name all_results)))
    by (destruct all_results; [contradiction | reflexivity]).
  pose proof (sort_values_sorted _ cmp_date_name_order all_results)
    as Hsorted.
  pose proof (sort_values_In cmp_date_name all_results) as Hin.
  destruct (sort_values cmp_date_name all_results) as [|r0 rest] eqn:Hsv.
  { destruct all_results as [|r1 rest1]; [contradiction|].
    exfalso. apply (proj2 (Hin r1)). left. reflexivity. }
  exists r0, (map normalize_row rest). split; [exact Hcsv|]. split.
  - apply Hin. left. reflexivity.
  - intros r o Hr Ho. apply Hin in Hr.
    exact (sorted_head_latest r0 rest Hsorted r o Hr Ho).
Qed.


(* ----------------------------------------------------------------- *)
(** ** A run over several documents *)

Lemma concat_rev_cons (b0 : DataFrame) (batches : list DataFrame) :
  List.concat (rev (b0 :: batches)) = List.concat (rev batches) ++ b0.
Proof.
  cbn [rev]. rewrite concat_app. cbn [List.concat].
  rewrite app_nil_r. reflexivity.
Qed.

Lemma merges_of_a_run
  (step : DataFrame -> Store -> Store) (batches : list DataFrame) :
  (forall new_df all_df covid,
      exists covid',
        step new_df (mkStore (Some all_df) covid)
        = mkStore (Some (sort_values cmp_date_name
                           (drop_duplicates (new_df ++ all_df))))
                  covid') ->
  forall b0 all_df covid,
    exists covid',
      fold_left (fun st new_df => step new_df st) batches
                (step b0 (mkStore (Some all_df) covid))
      = mkStore (Some (sort_values cmp_date_name
                         (drop_duplicates
                            (List.concat (rev (b0 :: batches)) ++ all_df))))
                covid'.
Proof.
  intros Hstep. induction batches as [|b1 rest IH]; intros b0 all_df covid.
  - destruct (Hstep b0 all_df covid) as [c Hc]. exists c.
    cbn [fold_left rev List.concat app]. rewrite app_nil_r. exact Hc.
  - destruct (Hstep b0 all_df covid) as [c Hc].
    cbn [fold_left]. rewrite Hc.
    destruct (IH b1 (sort_values cmp_date_name
                       (drop_duplicates (b0 ++ all_df))) c) as [c' Hc'].
    exists c'. rewrite Hc'.
    rewrite merge_after_merge.
    rewrite (concat_rev_cons b0 (b1 :: rest)), <- app_assoc. reflexivity.
Qed.

Lemma merge_csv_to_main_step (new_df all_df : DataFrame)
  (covid : option DataFrame) :
  exists covid',
    snd (merge_csv_to_main no_faults new_df (mkStore (Some all_df) covid))
    = mkStore (Some (sort_values cmp_date_name
                       (drop_duplicates (new_df ++ all_df))))
              covid'.
Proof.
  destruct (dag_merged_store_covid new_df (mkStore (Some all_df) covid))
    as [c Hc].
  exists c. rewrite Hc, merged_all_existing. reflexivity.
Qed.

Lemma merge_to_main_data_step (new_df all_df : DataFrame)
  (covid : option DataFrame) :
  exists covid',
    snd (merge_to_main_data no_faults new_df (mkStore (Some all_df) covid))
    = mkStore (Some (sort_values cmp_date_name
                       (drop_duplicates (new_df ++ all_df))))
              covid'.
Proof.
  destruct (merged_store_covid new_df (mkStore (Some all_df) covid))
    as [c Hc].
  exists c. rewrite Hc, merged_all_existing. reflexivity.
Qed.



(* ----------------------------------------------------------------- *)
(** ** The pipe tables of a Markdown text *)

Lemma nth_error_skipn_add {A : Type} (i k : nat) (l : list A) :
  nth_error (skipn i l) k = nth_error l (i + k).
Proof.
  revert l. induction i as [|i IH]; intros l; [reflexivity|].
  destruct l as [|a l]; simpl; [destruct k; reflexivity | apply IH].
Qed.

(** The inner loop stops at the first line that is not a pipe line. *)
Lemma take_pipe_lines_run (lines : list string) (i : nat) :
  let n := List.length (take_pipe_lines (skipn i lines)) in
  (forall k, (i <= k < i + n)%nat -> pipe_at lines k = true)
  /\ pipe_at lines (i + n) = false
  /\ take_pipe_lines (skipn i lines) = firstn n (skipn i lines).
Proof.
  cbv zeta. unfold pipe_at.
  assert (H : forall s,
             (forall k, (k < List.length (take_pipe_lines s))%nat ->
                        match nth_error s k with
                        | Some line => is_pipe_line line
                        | None => false
                        end = true)
             /\ match nth_error s (List.length (take_pipe_lines s)) with
                | Some line => is_pipe_line line
                | None => false
                end = false
             /\ take_pipe_lines s
                = firstn (List.length (take_pipe_lines s)) s).
  { induction s as [|line s [IH1 [IH2 IH3]]]; simpl.
    - split; [intros k Hk; lia|]. split; reflexivity.
    - destruct (is_pipe_line line) eqn:E; simpl.
      + split; [|split].
        * intros [|k] Hk; simpl; [exact E | apply IH1; lia].
        * exact IH2.
        * f_equal. exact IH3.
      + split; [intros k Hk; lia|]. split; [exact E | reflexivity]. }
  destruct (H (skipn i lines)) as [H1 [H2 H3]].
  split; [|split].
  - intros k Hk. replace k with (i + (k - i))%nat by lia.
    rewrite <- nth_error_skipn_add. apply H1. lia.
  - rewrite <- nth_error_skipn_add. exact H2.
  - exact H3.
Qed.

Lemma pipe_at_length (lines : list string) (k : nat) :
  pipe_at lines k = true -> (k < List.length lines)%nat.
Proof.
  unfold pipe_at. destruct (nth_error lines k) eqn:E; [|discriminate].
  intros _. apply nth_error_Some. congruence.
Qed.

(** The blocks found from line [i] on, when [i] does not stand inside a
    run that began before it. *)
Lemma all_pipe_tables_from_run (lines : list string) (fuel : nat) :
  forall i,
    (List.length lines - i <= fuel)%nat ->
    (i = O \/ pipe_at lines (i - 1) = false \/ pipe_at lines i = false) ->
    forall a b t,
      In (a, b, t) (all_pipe_tables_from fuel i lines)
      <-> ((i <= a)%nat /\ pipe_run lines a b
           /\ t = join_lines (firstn (b - a) (skipn a lines))).
Proof.
  induction fuel as [|fuel IH]; intros i Hfuel Hleft a b t.
  - simpl. split; [intros []|].
    intros [Hia [[Hlen [Hall _]] _]].
    assert (Ha : pipe_at lines a = true) by (apply Hall; lia).
    apply pipe_at_length in Ha. lia.
  - cbn [all_pipe_tables_from].
    destruct (nth_error lines i) as [line|] eqn:Ei.
    2:{ split; [intros []|].
        intros [Hia [[Hlen [Hall _]] _]].
        assert (Ha : pipe_at lines a = true) by (apply Hall; lia).
        apply pipe_at_length in Ha.
        apply nth_error_None in Ei. lia. }
    assert (Hi : (i < List.length lines)%nat)
      by (apply nth_error_Some; congruence).
    destruct (is_pipe_line line) eqn:Ep.
    + (* a run starts at [i] *)
      assert (Hpi : pipe_at lines i = true)
        by (unfold pipe_at; rewrite Ei; exact Ep).
      destruct (take_pipe_lines_run lines i) as [Hrun [Hstop Hbuf]].
      cbv zeta.
      set (n := List.length (take_pipe_lines (skipn i lines))) in *.
      assert (Hn : (1 <= n)%nat).
      { destruct n as [|n']; [|lia].
        rewrite Nat.add_0_r in Hstop. congruence. }
      assert (Hj : (i + n <= List.length lines)%nat).
      { specialize (Hrun (i + n - 1)%nat ltac:(lia)).
        apply pipe_at_length in Hrun. lia. }
      assert (Hleft_i : i = O \/ pipe_at lines (i - 1) = false).
      { destruct Hleft as [H | [H | H]]; [tauto | tauto | congruence]. }
      rewrite in_app_iff.
      rewrite (IH (i + n)%nat ltac:(lia) ltac:(right; right; exact Hstop)).
      split.
      * intros [Hhead | [Hja Hrest]].
        -- destruct (2 <=? n)%nat eqn:E2; [|destruct Hhead].
           apply Nat.leb_le in E2.
           destruct Hhead as [[= <- <- <-] | []].
           split; [lia|]. split.
           ++ split; [lia|]. split; [exact Hrun|]. split; assumption.
           ++ replace (i + n - i)%nat with n by lia.
              rewrite Hbuf. reflexivity.
        -- split; [lia | exact Hrest].
      * intros [Hia [Hr Ht]].
        destruct Hr as [Hlen [Hall [Hend Hbefore]]].
        destruct (Nat.eq_dec a i) as [-> | Hne].
        -- left.
           assert (Hb : b = (i + n)%nat).
           { destruct (Nat.lt_trichotomy b (i + n)) as [Hlt | [Heq | Hgt]];
               [|exact Heq|].
             - specialize (Hrun b ltac:(lia)). congruence.
             - specialize (Hall (i + n)%nat ltac:(lia)). congruence. }
           subst b.
           assert (E2 : (2 <=? n)%nat = true) by (apply Nat.leb_le; lia).
           rewrite E2. left. subst t.
           replace (i + n - i)%nat with n by lia.
           rewrite Hbuf. reflexivity.
        -- right.
           assert (Haj : (i + n <= a)%nat).
           { destruct Hbefore as [-> | Hbefore]; [lia|].
             destruct (Nat.le_gt_cases (i + n) a) as [H | H]; [exact H|].
             specialize (Hrun (a - 1)%nat ltac:(lia)). congruence. }
           split; [exact Haj|]. split; [|exact Ht].
           split; [exact Hlen|]. split; [exact Hall|].
           split; [exact Hend | exact Hbefore].
    + (* line [i] is no pipe line *)
      assert (Hpi : pipe_at lines i = false)
        by (unfold pipe_at; rewrite Ei; exact Ep).
      rewrite (IH (S i) ltac:(lia)).
      2:{ right. left. simpl. rewrite Nat.sub_0_r. exact Hpi. }
      split.
      * intros [Hia H]. split; [lia | exact H].
      * intros [Hia [Hr Ht]]. split; [|split; assumption].
        destruct Hr as [Hlen [Hall _]].
        destruct (Nat.eq_dec a i) as [-> | Hne]; [|lia].
        specialize (Hall i ltac:(lia)). congruence.
Qed.

(** X21. [all_pipe_tables] returns exactly the runs of two or more lines
    that start with a pipe (after leading whitespace) and cannot be
    extended to either side, each with its first line, the line after its
    last, and its lines joined by line feeds; a single pipe line is no
    table. *)
Theorem all_pipe_tables_are_the_pipe_runs (lines : list string)
  (i j : nat) (text : string) :
  In (i, j, text) (all_pipe_tables lines)
  <-> pipe_run lines i j
      /\ text = join_lines (firstn (j - i) (skipn i lines)).
Proof.
  unfold all_pipe_tables.
  rewrite (all_pipe_tables_from_run lines (List.length lines) O
             ltac:(lia) ltac:(left; reflexivity)).
  split; [tauto|]. intros H. split; [lia | exact H].
Qed.

(* ----------------------------------------------------------------- *)
(** ** The covid table of the extractor and of the merge *)

Lemma sorted_filter {A : Type} (R : A -> A -> Prop) (p : A -> bool)
  (l : list A) :
  StronglySorted R l -> StronglySorted R (filter p l).
Proof.
  induction 1 as [|x rest Hs IH Hall]; simpl; [constructor|].
  destruct (p x); [|exact IH].
  constructor; [exact IH|].
  rewrite Forall_forall in *. intros y Hy.
  apply filter_In in Hy. apply Hall, Hy.
Qed.

Lemma not_after_date_only (a b : SurveillanceRecord) :
  not_after cmp_date_name a b = true -> not_after cmp_date_only a b = true.
Proof.
  unfold not_after, cmp_date_name, cmp_date_only.
  destruct (cmp_date_desc (sort_date a) (sort_date b)); congruence.
Qed.

Lemma surveillance_csv_sorted (all_results out : DataFrame) :
  surveillance_csv all_results = Some out ->
  StronglySorted (fun a b => not_after cmp_date_name a b = true) out.
Proof.
  intros H. destruct all_results as [|r rest]; [discriminate H|].
  injection H as <-.
  apply normalize_rows_sorted.
  apply (sort_values_sorted _ cmp_date_name_order (r :: rest)).
Qed.

Lemma covid_row_is_text (df : DataFrame) :
  filter is_covid df <> [] -> pathogen_is_text df = true.
Proof.
  intros H. destruct (pathogen_is_text df) eqn:E; [reflexivity|].
  destruct (H (no_text_no_covid df E)).
Qed.


